(** * gidgetlab: sans-I/O core (sansio.py, abc.py, routing.py) in Rocq

    A shallow embedding of the request/response mediation of
    [gidgetlab.sansio] and [gidgetlab.abc.GitLabAPI] and of the webhook
    router [gidgetlab.routing.Router].

    Conventions.
    - Python values that flow through the code (decoded bodies, event
      payloads, registered attribute values) are JSON values [json];
      [JNull] is Python's [None]. JSON numbers are modelled as integers.
    - Python [str] and [bytes] are Rocq [string]s (one [ascii] per code
      unit, read as Latin-1).
    - A raised exception is [Err e] of the result type [res]; Python's
      exception classes are constructors of [exn].
    - Small [dict]s are association lists in insertion order, as CPython
      keeps them; lookup takes the (unique) entry for a key.
    - The Python standard library functions the code calls
      (json, cgi, urllib.parse, int, float, datetime) are the fields of a
      record [pylib]; the theorems hold for every [pylib], and one concrete
      instance [CPython.lib] is given at the end for concrete runs. *)

From Stdlib Require Import String Ascii List ZArith QArith Bool Lia.
Set Warnings "-register-all".

Import ListNotations.
Open Scope string_scope.
Open Scope list_scope.
Open Scope Z_scope.

Infix "+++" := String.append (at level 60, right associativity).

(** ** Results and exceptions *)

(** [RateLimit] of sansio.py: [reset_datetime] is the UTC instant, in
    seconds since the epoch. *)
Record RateLimit : Type := mkRateLimit {
  limit : Z;
  remaining : Z;
  reset_datetime : Q
}.

(** The four concrete classes built through [HTTPException(status, *args)]. *)
Inductive http_kind : Type :=
| HTTPException
| RedirectionException
| BadRequest
| GitLabBroken.

Inductive json : Type :=
| JNull
| JBool (b : bool)
| JNum (z : Z)
| JStr (s : string)
| JArr (items : list json)
| JObj (fields : list (string * json)).

(** Python exceptions raised along the modelled paths. [HTTPError k s a]
    is an instance of class [k] built as [k(HTTPStatus(s), *a)]: [a = None]
    is the call without a message argument (the message is then the
    status phrase). *)
Inductive exn : Type :=
| KeyError
| TypeError
| AttributeError
| IndexError
| ValueError
| JSONDecodeError
| UnicodeDecodeError
| LookupError
| OverflowError
| ValidationFailure (msg : string)
| HTTPError (kind : http_kind) (status : Z) (arg : option json)
| RateLimitExceeded (rate_limit : RateLimit) (arg : json)
| InvalidField (errors : json) (arg : json)
| TransportError
| RecursionError.

(** [isinstance(e, ValueError)]: JSONDecodeError and UnicodeDecodeError are
    subclasses of ValueError; LookupError is not. *)
Definition is_value_error (e : exn) : bool :=
  match e with
  | ValueError | JSONDecodeError | UnicodeDecodeError => true
  | _ => false
  end.

(** [isinstance(e, BadRequest)] *)
Definition is_bad_request (e : exn) : bool :=
  match e with
  | HTTPError BadRequest _ _ | RateLimitExceeded _ _ | InvalidField _ _ => true
  | _ => false
  end.

(** The [status_code] attribute of an HTTP exception. *)
Definition exn_status (e : exn) : option Z :=
  match e with
  | HTTPError _ s _ => Some s
  | RateLimitExceeded _ _ => Some 403
  | InvalidField _ _ => Some 422
  | _ => None
  end.

Inductive res (A : Type) : Type :=
| Ok (a : A)
| Err (e : exn).
Arguments Ok {A} a.
Arguments Err {A} e.

Definition bind {A B : Type} (m : res A) (k : A -> res B) : res B :=
  match m with
  | Ok a => k a
  | Err e => Err e
  end.

Notation "x <- m ;; k" := (bind m (fun x => k))
  (at level 61, m at next level, right associativity).

Fixpoint mapM {A B : Type} (f : A -> res B) (l : list A) : res (list B) :=
  match l with
  | [] => Ok []
  | x :: r => y <- f x ;; ys <- mapM f r ;; Ok (y :: ys)
  end.

(** ** Strings and small dicts *)

Fixpoint join (sep : string) (l : list string) : string :=
  match l with
  | [] => ""
  | [x] => x
  | x :: r => x +++ sep +++ join sep r
  end.

Fixpoint assoc {V : Type} (k : string) (d : list (string * V)) : option V :=
  match d with
  | [] => None
  | (k', v) :: r => if String.eqb k k' then Some v else assoc k r
  end.

Definition mem {V : Type} (k : string) (d : list (string * V)) : bool :=
  match assoc k d with Some _ => true | None => false end.

(** [d[k] = v]: an existing key keeps its place, a new key goes last. *)
Fixpoint dset {V : Type} (k : string) (v : V) (d : list (string * V))
  : list (string * V) :=
  match d with
  | [] => [(k, v)]
  | (k', v') :: r =>
      if String.eqb k k' then (k', v) :: r else (k', v') :: dset k v r
  end.

Definition digit_char (n : Z) : ascii := ascii_of_nat (48 + Z.to_nat n).

Fixpoint pos_digits (fuel : nat) (n : Z) (acc : string) : string :=
  match fuel with
  | O => acc
  | S f =>
      let acc' := String (digit_char (n mod 10)) acc in
      if n <? 10 then acc' else pos_digits f (n / 10) acc'
  end.

(** [str(n)] for a Python int. *)
Definition z_to_dec (n : Z) : string :=
  if n <? 0 then "-" +++ pos_digits (S (Z.to_nat (Z.log2 (- n)))) (- n) ""
  else pos_digits (S (Z.to_nat (Z.log2 n))) n "".

Definition chr (n : nat) : string := String (ascii_of_nat n) "".
Definition dquote : string := chr 34.
Definition squote : string := chr 39.
Definition backslash : string := chr 92.

Fixpoint str_has (c : ascii) (s : string) : bool :=
  match s with
  | EmptyString => false
  | String c' r => Ascii.eqb c c' || str_has c r
  end.

Definition hex_digit (n : nat) : string :=
  if Nat.ltb n 10 then chr (48 + n) else chr (87 + n).

(** [str.isprintable()] on one Latin-1 code point. *)
Definition printable (n : nat) : bool :=
  negb (Nat.ltb n 32 || Nat.eqb n 127 || (Nat.leb 128 n && Nat.leb n 160)
        || Nat.eqb n 173).

(** [repr(s)] for a Python [str]. *)
Definition repr_string (s : string) : string :=
  let q := if str_has (ascii_of_nat 39) s && negb (str_has (ascii_of_nat 34) s)
           then dquote else squote in
  let fix body (s : string) : string :=
    match s with
    | EmptyString => ""
    | String c r =>
        let n := nat_of_ascii c in
        let out :=
          if String.eqb (String c "") q || Nat.eqb n 92 then backslash +++ String c ""
          else if Nat.eqb n 9 then backslash +++ "t"
          else if Nat.eqb n 10 then backslash +++ "n"
          else if Nat.eqb n 13 then backslash +++ "r"
          else if printable n then String c ""
          else backslash +++ "x" +++ hex_digit (Nat.div n 16) +++ hex_digit (Nat.modulo n 16)
        in out +++ body r
    end in
  q +++ body s +++ q.

(** [repr(v)] and [str(v)] (the latter is what an f-string inserts). *)
Fixpoint py_repr (v : json) : string :=
  match v with
  | JNull => "None"
  | JBool b => if b then "True" else "False"
  | JNum z => z_to_dec z
  | JStr s => repr_string s
  | JArr l => "[" +++ join ", " (map py_repr l) +++ "]"
  | JObj fs =>
      "{" +++ join ", " (map (fun kv => repr_string (fst kv) +++ ": " +++ py_repr (snd kv)) fs)
          +++ "}"
  end.

Definition py_str (v : json) : string :=
  match v with
  | JStr s => s
  | _ => py_repr v
  end.

(** ** Python semantics of the values *)

(** [bool(v)] *)
Definition truthy (v : json) : bool :=
  match v with
  | JNull => false
  | JBool b => b
  | JNum z => negb (z =? 0)
  | JStr s => negb (String.eqb s "")
  | JArr l => match l with [] => false | _ => true end
  | JObj l => match l with [] => false | _ => true end
  end.

(** [v[k]] with a [str] key. *)
Definition py_getitem (v : json) (k : string) : res json :=
  match v with
  | JObj fs => match assoc k fs with Some x => Ok x | None => Err KeyError end
  | _ => Err TypeError
  end.

(** [v.get(k, default)] *)
Definition py_get (v : json) (k : string) (default : json) : res json :=
  match v with
  | JObj fs => match assoc k fs with Some x => Ok x | None => Ok default end
  | _ => Err AttributeError
  end.

Fixpoint chars (s : string) : list json :=
  match s with
  | EmptyString => []
  | String c r => JStr (String c "") :: chars r
  end.

(** [list(v)]: what a [for] loop over [v] visits. *)
Definition py_iter (v : json) : res (list json) :=
  match v with
  | JArr l => Ok l
  | JObj fs => Ok (map (fun kv => JStr (fst kv)) fs)
  | JStr s => Ok (chars s)
  | _ => Err TypeError
  end.

Fixpoint substring_at (p s : string) : bool :=
  match p, s with
  | EmptyString, _ => true
  | String a p', String b s' => Ascii.eqb a b && substring_at p' s'
  | _, _ => false
  end.

Fixpoint substring (p s : string) : bool :=
  substring_at p s ||
  match s with
  | EmptyString => false
  | String _ s' => substring p s'
  end.

(** [k in v] with a [str] key [k]. *)
Definition py_contains (v : json) (k : string) : res bool :=
  match v with
  | JObj fs => Ok (mem k fs)
  | JArr l => Ok (existsb (fun x => match x with JStr s => String.eqb s k | _ => false end) l)
  | JStr s => Ok (substring k s)
  | _ => Err TypeError
  end.

(** Hashable JSON values (usable as dict keys) and [==] between them:
    [True == 1] and [False == 0] as in Python. *)
Definition hashable (v : json) : bool :=
  match v with
  | JArr _ | JObj _ => false
  | _ => true
  end.

Definition key_num (v : json) : option Z :=
  match v with
  | JNum z => Some z
  | JBool b => Some (if b then 1 else 0)
  | _ => None
  end.

Definition key_eqb (a b : json) : bool :=
  match a, b with
  | JNull, JNull => true
  | JStr s, JStr t => String.eqb s t
  | _, _ =>
      match key_num a, key_num b with
      | Some x, Some y => x =? y
      | _, _ => false
      end
  end.

(** ** HTTP status codes: the members of [http.HTTPStatus] (CPython 3.11) *)

Definition http_status_phrase (s : Z) : option string :=
  match s with
  | 100 => Some "Continue" | 101 => Some "Switching Protocols"
  | 102 => Some "Processing" | 103 => Some "Early Hints"
  | 200 => Some "OK" | 201 => Some "Created" | 202 => Some "Accepted"
  | 203 => Some "Non-Authoritative Information" | 204 => Some "No Content"
  | 205 => Some "Reset Content" | 206 => Some "Partial Content"
  | 207 => Some "Multi-Status" | 208 => Some "Already Reported"
  | 226 => Some "IM Used"
  | 300 => Some "Multiple Choices" | 301 => Some "Moved Permanently"
  | 302 => Some "Found" | 303 => Some "See Other" | 304 => Some "Not Modified"
  | 305 => Some "Use Proxy" | 307 => Some "Temporary Redirect"
  | 308 => Some "Permanent Redirect"
  | 400 => Some "Bad Request" | 401 => Some "Unauthorized"
  | 402 => Some "Payment Required" | 403 => Some "Forbidden"
  | 404 => Some "Not Found" | 405 => Some "Method Not Allowed"
  | 406 => Some "Not Acceptable" | 407 => Some "Proxy Authentication Required"
  | 408 => Some "Request Timeout" | 409 => Some "Conflict" | 410 => Some "Gone"
  | 411 => Some "Length Required" | 412 => Some "Precondition Failed"
  | 413 => Some "Request Entity Too Large" | 414 => Some "Request-URI Too Long"
  | 415 => Some "Unsupported Media Type"
  | 416 => Some "Requested Range Not Satisfiable"
  | 417 => Some "Expectation Failed" | 418 => Some "I'm a Teapot"
  | 421 => Some "Misdirected Request" | 422 => Some "Unprocessable Entity"
  | 423 => Some "Locked" | 424 => Some "Failed Dependency"
  | 425 => Some "Too Early" | 426 => Some "Upgrade Required"
  | 428 => Some "Precondition Required" | 429 => Some "Too Many Requests"
  | 431 => Some "Request Header Fields Too Large"
  | 451 => Some "Unavailable For Legal Reasons"
  | 500 => Some "Internal Server Error" | 501 => Some "Not Implemented"
  | 502 => Some "Bad Gateway" | 503 => Some "Service Unavailable"
  | 504 => Some "Gateway Timeout" | 505 => Some "HTTP Version Not Supported"
  | 506 => Some "Variant Also Negotiates" | 507 => Some "Insufficient Storage"
  | 508 => Some "Loop Detected" | 510 => Some "Not Extended"
  | 511 => Some "Network Authentication Required"
  | _ => None
  end.

(** [str(e)] of an exception built by [HTTPException.__init__]. *)
Definition exn_message (e : exn) : option string :=
  match e with
  | HTTPError _ s None => http_status_phrase s
  | HTTPError _ _ (Some m) => Some (py_str m)
  | RateLimitExceeded _ m => Some (py_str m)
  | InvalidField _ m => Some (py_str m)
  | _ => None
  end.

(** ** The Python standard library functions the code calls *)

(** [urlparse]'s 6-tuple. *)
Record urlparts : Type := mkURL {
  u_scheme : string;
  u_netloc : string;
  u_path : string;
  u_params : string;
  u_query : string;
  u_fragment : string
}.

(** A value of the dict passed to [urlencode(..., doseq=True)]: a list of
    strings (from [parse_qs]) or a plain string (from the caller's params). *)
Inductive qvalue : Type :=
| QList (l : list string)
| QStr (s : string).

Record pylib : Type := {
  cgi_parse_header : string -> string * list (string * string);
  bytes_decode : string -> string -> res string;
  json_loads : string -> res json;
  json_dumps : json -> string;
  parse_qs : string -> list (string * list string);
  py_int : string -> res Z;
  py_float : string -> res Q;
  utc_fromtimestamp : Q -> res Q;
  urljoin : string -> string -> res string;
  urlparse : string -> res urlparts;
  urlunparse : urlparts -> string;
  urlencode_doseq : list (string * qvalue) -> string
}.

(** Response and request header mappings, with lower-case keys. *)
Definition headers := list (string * string).

Definition hget (k : string) (h : headers) : option string := assoc k h.

(** ** The link header regex of sansio.py

    [_link_re] is the regex [ <(?P<uri>[^>]+)>;\s*(?P<param_type>\w+)= ]
    followed by a double-quoted [(?P<param_value>\w+)] and an optional
    comma with trailing white space.
    Every quantifier is followed by a character its class excludes, so
    greedy matching never backtracks and one left-to-right pass decides a
    match. [\s] and [\w] are the Unicode classes of [re] on Latin-1 code
    points. *)

Definition is_space (c : ascii) : bool :=
  let n := nat_of_ascii c in
  (Nat.leb 9 n && Nat.leb n 13) || (Nat.leb 28 n && Nat.leb n 32)
  || Nat.eqb n 133 || Nat.eqb n 160.

Definition is_word (c : ascii) : bool :=
  let n := nat_of_ascii c in
  (Nat.leb 48 n && Nat.leb n 57) || (Nat.leb 65 n && Nat.leb n 90) || Nat.eqb n 95
  || (Nat.leb 97 n && Nat.leb n 122) || Nat.eqb n 170 || Nat.eqb n 178
  || Nat.eqb n 179 || Nat.eqb n 181 || Nat.eqb n 185 || Nat.eqb n 186
  || (Nat.leb 188 n && Nat.leb n 190) || (Nat.leb 192 n && Nat.leb n 214)
  || (Nat.leb 216 n && Nat.leb n 246) || Nat.leb 248 n.

Definition is_gt (c : ascii) : bool := Nat.eqb (nat_of_ascii c) 62.

(** Longest prefix of characters satisfying [p], and the rest. *)
Fixpoint span (p : ascii -> bool) (s : string) : string * string :=
  match s with
  | EmptyString => ("", "")
  | String c r =>
      if p c then let (a, b) := span p r in (String c a, b) else ("", s)
  end.

Definition chr_is (n : nat) (c : ascii) : bool := Nat.eqb (nat_of_ascii c) n.

(** A match of [_link_re] starting at the head of [s]:
    [(uri, param_type, param_value)] and the text after the match. *)
Definition match_link (s : string) : option ((string * string * string) * string) :=
  match s with
  | String c0 r0 =>
    if negb (chr_is 60 c0) then None else
    let (uri, r1) := span (fun c => negb (is_gt c)) r0 in
    if String.eqb uri "" then None else
    match r1 with
    | String c1 (String c2 r2) =>
      if negb (chr_is 62 c1 && chr_is 59 c2) then None else
      let r3 := snd (span is_space r2) in
      let (ptype, r4) := span is_word r3 in
      if String.eqb ptype "" then None else
      match r4 with
      | String c3 (String c4 r5) =>
        if negb (chr_is 61 c3 && chr_is 34 c4) then None else
        let (pvalue, r6) := span is_word r5 in
        if String.eqb pvalue "" then None else
        match r6 with
        | String c5 r7 =>
          if negb (chr_is 34 c5) then None else
          let r8 := match r7 with
                    | String c6 r9 => if chr_is 44 c6 then snd (span is_space r9) else r7
                    | EmptyString => r7
                    end in
          Some ((uri, ptype, pvalue), r8)
        | EmptyString => None
        end
      | _ => None
      end
    | _ => None
    end
  | EmptyString => None
  end.

(** [_link_re.finditer(s)]: on a failed attempt the scan moves one
    character on, after a match it resumes where the match ended; a match
    consumes at least one character, so [String.length s] steps suffice. *)
Fixpoint finditer_from (fuel : nat) (s : string) : list (string * string * string) :=
  match fuel with
  | O => []
  | S f =>
    match s with
    | EmptyString => []
    | String _ r =>
      match match_link s with
      | Some (m, rest) => m :: finditer_from f rest
      | None => finditer_from f r
      end
    end
  end.

Definition finditer_link (s : string) : list (string * string * string) :=
  finditer_from (String.length s) s.

Fixpoint first_next (ms : list (string * string * string)) : option string :=
  match ms with
  | [] => None
  | (uri, ptype, pvalue) :: r =>
      if String.eqb ptype "rel" && String.eqb pvalue "next" then Some uri
      else first_next r
  end.

(** [_next_link(link)] *)
Definition _next_link (link : option string) : option string :=
  match link with
  | None => None
  | Some l => first_next (finditer_link l)
  end.

(** [RateLimit.__bool__] at wall-clock instant [now]. *)
Definition RateLimit_bool (now : Q) (r : RateLimit) : bool :=
  (0 <? remaining r) || negb (Qle_bool now (reset_datetime r)).

Section Sansio.

Context (L : pylib).

(** [_parse_content_type(content_type)] *)
Definition _parse_content_type (content_type : option string) : option string * string :=
  match content_type with
  | None => (None, "utf-8")
  | Some ct =>
      if String.eqb ct "" then (None, "utf-8")
      else let (type_, parameters) := cgi_parse_header L ct in
           (Some type_, match assoc "charset" parameters with
                        | Some e => e
                        | None => "utf-8"
                        end)
  end.

Definition opt_str_truthy (s : option string) : bool :=
  match s with
  | None => false
  | Some x => negb (String.eqb x "")
  end.

Definition opt_eqb (a : option string) (b : string) : bool :=
  match a with Some x => String.eqb x b | None => false end.

(** [_decode_body(content_type, body, strict=strict)] *)
Definition _decode_body (content_type : option string) (body : string) (strict : bool)
  : res json :=
  let (type_, encoding) := _parse_content_type content_type in
  if Nat.eqb (String.length body) 0 || negb (opt_str_truthy content_type) then Ok JNull
  else
    decoded_body <- bytes_decode L encoding body ;;
    if opt_eqb type_ "application/json" then json_loads L decoded_body
    else if opt_eqb type_ "application/x-www-form-urlencoded" then
      vs <- match assoc "payload" (parse_qs L decoded_body) with
            | Some vs => Ok vs
            | None => Err KeyError
            end ;;
      match vs with
      | v :: _ => json_loads L v
      | [] => Err IndexError
      end
    else if strict then Err ValueError
    else Ok (JStr decoded_body).

(** [RateLimit.from_http(headers)]: only a missing header ([KeyError]) is
    turned into [None]; a value [int] or [float] rejects propagates. *)
Definition RateLimit_from_http (h : headers) : res (option RateLimit) :=
  match hget "ratelimit-limit" h with
  | None => Ok None
  | Some sl =>
    lim <- py_int L sl ;;
    match hget "ratelimit-remaining" h with
    | None => Ok None
    | Some sr =>
      rem <- py_int L sr ;;
      match hget "ratelimit-reset" h with
      | None => Ok None
      | Some se =>
        reset_epoch <- py_float L se ;;
        reset <- utc_fromtimestamp L reset_epoch ;;
        Ok (Some (mkRateLimit lim rem reset))
      end
    end
  end.

Definition is_success (status_code : Z) : bool :=
  (status_code =? 200) || (status_code =? 201) || (status_code =? 202)
  || (status_code =? 204).

(** The tail of [decipher_response]: [exc_type(HTTPStatus(status_code), *args)]. *)
Definition raise_http {A : Type} (k : http_kind) (status_code : Z) (message : json) : res A :=
  match http_status_phrase status_code with
  | None => Err ValueError
  | Some _ => Err (HTTPError k status_code (if truthy message then Some message else None))
  end.

(** [decipher_response(status_code, headers, body)]; [now] is the instant
    at which [RateLimit.__bool__] reads the clock. *)
Definition decipher_response (now : Q) (status_code : Z) (h : headers) (body : string)
  : res (json * option RateLimit * option string) :=
  data <- _decode_body (hget "content-type" h) body false ;;
  if is_success status_code then
    rl <- RateLimit_from_http h ;;
    Ok (data, rl, _next_link (hget "link" h))
  else
    message <- match py_getitem data "message" with
               | Ok m => Ok m
               | Err TypeError | Err KeyError => Ok JNull
               | Err e => Err e
               end ;;
    if 500 <=? status_code then raise_http GitLabBroken status_code message
    else if 400 <=? status_code then
      if status_code =? 403 then
        rate_limit <- RateLimit_from_http h ;;
        match rate_limit with
        | Some r =>
            if RateLimit_bool now r && (remaining r =? 0)
            then Err (RateLimitExceeded r message)
            else raise_http BadRequest status_code message
        | None => raise_http BadRequest status_code message
        end
      else if status_code =? 422 then
        errors <- py_get data "errors" JNull ;;
        if truthy errors then
          es <- py_iter errors ;;
          fields <- mapM (fun e => f <- py_getitem e "field" ;; Ok (py_repr f)) es ;;
          Err (InvalidField errors (JStr (py_str message +++ " for " +++ join ", " fields)))
        else
          m <- py_getitem data "message" ;;
          Err (InvalidField errors m)
      else raise_http BadRequest status_code message
    else if 300 <=? status_code then raise_http RedirectionException status_code message
    else raise_http HTTPException status_code message.

End Sansio.

(** ** Webhook events (sansio.Event) *)

Record Event : Type := mkEvent {
  data : json;
  event : string;
  secret : option string
}.

Definition content_type_error : exn :=
  HTTPError BadRequest 415
    (Some (JStr ("expected a content-type of " +++ squote +++ "application/json" +++ squote
                 +++ " or " +++ squote +++ "application/x-www-form-urlencoded" +++ squote))).

Section EventFromHttp.

Context (L : pylib).

(** The part of [Event.from_http] after the signature check. *)
Definition decode_event (h : headers) (body : string) (secret : option string) : res Event :=
  d <- match (ct <- match hget "content-type" h with
                    | Some ct => Ok ct
                    | None => Err KeyError
                    end ;;
              _decode_body L (Some ct) body true) with
       | Ok d => Ok d
       | Err e =>
           match e with
           | KeyError => Err content_type_error
           | _ => if is_value_error e then Err content_type_error else Err e
           end
       end ;;
  match hget "x-gitlab-event" h with
  | Some ev => Ok (mkEvent d ev secret)
  | None => Err KeyError
  end.

(** [Event.from_http(headers, body, secret=secret)] *)
Definition Event_from_http (h : headers) (body : string) (secret : option string) : res Event :=
  match hget "x-gitlab-token" h with
  | Some token =>
      match secret with
      | None => Err (ValidationFailure "secret not provided")
      | Some sec =>
          if negb (String.eqb token sec) then Err (ValidationFailure "invalid secret")
          else decode_event h body secret
      end
  | None =>
      match secret with
      | Some _ => Err (ValidationFailure "x-gitlab-token is missing")
      | None => decode_event h body secret
      end
  end.

End EventFromHttp.

(** [Event.project_id]: [data["project"]["id"]], a [KeyError] turned into
    [AttributeError]; other exceptions propagate. *)
Definition project_id (ev : Event) : res json :=
  match (p <- py_getitem (data ev) "project" ;; py_getitem p "id") with
  | Ok i => Ok i
  | Err KeyError => Err AttributeError
  | Err e => Err e
  end.

(** [sansio.create_headers(requester, access_token=access_token)] *)
Definition create_headers (requester : string) (access_token : option string) : headers :=
  [("user-agent", requester); ("accept", "application/json")]
  ++ match access_token with
     | Some t => [("private-token", t)]
     | None => []
     end.

(** ** The request orchestrator (abc.GitLabAPI) *)

(** The configuration fixed by [GitLabAPI.__init__]. *)
Record GitLabAPI : Type := mkGitLabAPI {
  requester : string;
  access_token : option string;
  api_url : string
}.

(** A cache value: etag, last-modified, data and next page ([CACHE_TYPE]). *)
Definition cache_entry : Type := (option string * option string * json * option string)%type.

Record request : Type := mkRequest {
  rq_method : string;
  rq_url : string;
  rq_headers : headers;
  rq_body : string
}.

Record response : Type := mkResponse {
  rs_status : Z;
  rs_headers : headers;
  rs_body : string
}.

(** Accesses to the cache mapping, in order. *)
Inductive cache_op : Type :=
| CacheGet (url : string)
| CacheSet (url : string) (entry : cache_entry).

(** The mutable state a request touches: the instance's [_cache] and
    [rate_limit], the transport (responses it will return, requests it was
    given), the log of cache accesses, and what [getiter] has yielded. *)
Record state : Type := mkState {
  cache : option (list (string * cache_entry));
  rate_limit : option RateLimit;
  pending : list response;
  sent : list request;
  cache_log : list cache_op;
  yielded : list json
}.

Definition M (A : Type) : Type := state -> res A * state.

Definition ret {A : Type} (a : A) : M A := fun s => (Ok a, s).

Definition mbind {A B : Type} (m : M A) (k : A -> M B) : M B :=
  fun s => match m s with
           | (Ok a, s') => k a s'
           | (Err e, s') => (Err e, s')
           end.

Notation "x <-- m ;; k" := (mbind m (fun x => k))
  (at level 61, m at next level, right associativity).

Definition lift {A : Type} (r : res A) : M A := fun s => (r, s).

Definition get_state : M state := fun s => (Ok s, s).

Definition set_rate_limit (r : option RateLimit) : M unit :=
  fun s => (Ok tt, mkState (cache s) r (pending s) (sent s) (cache_log s) (yielded s)).

(** [self._cache[url]] *)
Definition cache_get (url : string) : M (option cache_entry) :=
  fun s =>
    match cache s with
    | None => (Err TypeError, s)
    | Some c =>
        (Ok (assoc url c),
         mkState (cache s) (rate_limit s) (pending s) (sent s)
                 (cache_log s ++ [CacheGet url]) (yielded s))
    end.

(** [self._cache[url] = entry] *)
Definition cache_set (url : string) (entry : cache_entry) : M unit :=
  fun s =>
    match cache s with
    | None => (Err TypeError, s)
    | Some c =>
        (Ok tt,
         mkState (Some (dset url entry c)) (rate_limit s) (pending s) (sent s)
                 (cache_log s ++ [CacheSet url entry]) (yielded s))
    end.

(** The abstract [_request]: the transport records the request and returns
    its next response; with none left the exchange fails. *)
Definition _request (rq : request) : M response :=
  fun s =>
    match pending s with
    | [] => (Err TransportError,
             mkState (cache s) (rate_limit s) [] (sent s ++ [rq]) (cache_log s) (yielded s))
    | r :: rest =>
        (Ok r, mkState (cache s) (rate_limit s) rest (sent s ++ [rq]) (cache_log s) (yielded s))
    end.

Definition yield_item (x : json) : M unit :=
  fun s => (Ok tt, mkState (cache s) (rate_limit s) (pending s) (sent s) (cache_log s)
                           (yielded s ++ [x])).

(** The [data] argument: the [b""] sentinel, or a JSON value. *)
Inductive req_data : Type :=
| NoData
| Data (j : json).

Fixpoint lstrip_slash (s : string) : string :=
  match s with
  | String c r => if chr_is 47 c then lstrip_slash r else s
  | EmptyString => EmptyString
  end.

Section Client.

Context (L : pylib) (now : Q).

(** [query.update(params)] *)
Definition query_update (query : list (string * qvalue)) (params : list (string * string))
  : list (string * qvalue) :=
  fold_left (fun q kv => dset (fst kv) (QStr (snd kv)) q) params query.

(** [GitLabAPI.format_url(url, params)] *)
Definition format_url (api : GitLabAPI) (url : string) (params : list (string * string))
  : res string :=
  u <- urljoin L (api_url api) (lstrip_slash url) ;;
  match params with
  | [] => Ok u
  | _ :: _ =>
      url_parts <- urlparse L u ;;
      let query := map (fun kv => (fst kv, QList (snd kv))) (parse_qs L (u_query url_parts)) in
      let query := query_update query params in
      Ok (urlunparse L (mkURL (u_scheme url_parts) (u_netloc url_parts) (u_path url_parts)
                              (u_params url_parts) (urlencode_doseq L query)
                              (u_fragment url_parts)))
  end.

Definition decrement (r : RateLimit) : RateLimit :=
  mkRateLimit (limit r) (remaining r - 1) (reset_datetime r).

(** The part of [_make_request] before the rate-limit bookkeeping: the
    request headers, the [data == b""] branch with its cache lookup, and the
    body. It returns the body, the headers, [cacheable] and the cached
    [(data, more)] when [cached] is set. *)
Definition prepare_request (api : GitLabAPI) (method filled_url : string) (data : req_data)
  : M (string * headers * bool * option (json * option string)) :=
  let request_headers := create_headers (requester api) (access_token api) in
  st <-- get_state ;;
  match data with
  | NoData =>
      let request_headers := dset "content-length" "0" request_headers in
      if String.eqb method "GET" && match cache st with Some _ => true | None => false end
      then
        hit <-- cache_get filled_url ;;
        match hit with
        | Some (etag, last_modified, cdata, cmore) =>
            let h1 := match etag with
                      | Some e => dset "if-none-match" e request_headers
                      | None => request_headers
                      end in
            let h2 := match last_modified with
                      | Some lm => dset "if-modified-since" lm h1
                      | None => h1
                      end in
            ret ("", h2, true, Some (cdata, cmore))
        | None => ret ("", request_headers, true, None)
        end
      else ret ("", request_headers, false, None)
  | Data j =>
      let body := json_dumps L j in
      let h1 := dset "content-type" "application/json; charset=utf-8" request_headers in
      let h2 := dset "content-length" (z_to_dec (Z.of_nat (String.length body))) h1 in
      ret (body, h2, false, None)
  end.

(** The [decipher_response] branch of [_make_request]: update
    [self.rate_limit] and, for a cacheable request whose response carries a
    validator, store the cache entry. *)
Definition store_response (filled_url : string) (cacheable : bool) (resp : response)
  : M (json * option string) :=
  d <-- lift (decipher_response L now (rs_status resp) (rs_headers resp) (rs_body resp)) ;;
  let '(d, rl, more) := d in
  _ <-- set_rate_limit rl ;;
  st <-- get_state ;;
  _ <-- (if match cache st with Some _ => true | None => false end && cacheable
            && (mem "etag" (rs_headers resp) || mem "last-modified" (rs_headers resp))
         then cache_set filled_url (hget "etag" (rs_headers resp),
                                    hget "last-modified" (rs_headers resp), d, more)
         else ret tt) ;;
  ret (d, more).

(** [GitLabAPI._make_request(method, url, params, data)] *)
Definition _make_request (api : GitLabAPI) (method url : string)
  (params : list (string * string)) (data : req_data) : M (json * option string) :=
  filled_url <-- lift (format_url api url params) ;;
  prep <-- prepare_request api method filled_url data ;;
  let '(body, request_headers, cacheable, cached) := prep in
  st <-- get_state ;;
  _ <-- match rate_limit st with
        | Some r => set_rate_limit (Some (decrement r))
        | None => ret tt
        end ;;
  resp <-- _request (mkRequest method filled_url request_headers body) ;;
  match cached with
  | Some (cdata, cmore) =>
      if rs_status resp =? 304 then ret (cdata, cmore)
      else store_response filled_url cacheable resp
  | None => store_response filled_url cacheable resp
  end.

Fixpoint yield_all (items : list json) : M unit :=
  match items with
  | [] => ret tt
  | x :: r => _ <-- yield_item x ;; yield_all r
  end.

(** [GitLabAPI.getiter(url, params)]; [fuel] bounds the nesting of the
    recursive generators (Python's recursion limit). *)
Fixpoint getiter (fuel : nat) (api : GitLabAPI) (url : string)
  (params : list (string * string)) : M unit :=
  match fuel with
  | O => lift (Err RecursionError)
  | S f =>
      r <-- _make_request api "GET" url params NoData ;;
      let '(d, more) := r in
      items <-- lift (py_iter d) ;;
      _ <-- yield_all items ;;
      if opt_str_truthy more then
        match more with
        | Some m => getiter f api m params
        | None => ret tt
        end
      else ret tt
  end.

(** [GitLabAPI.getitem(url, params)] *)
Definition getitem (api : GitLabAPI) (url : string) (params : list (string * string)) : M json :=
  r <-- _make_request api "GET" url params NoData ;;
  ret (fst r).

(** [GitLabAPI.post(url, params, data=data)] *)
Definition post (api : GitLabAPI) (url : string) (params : list (string * string)) (d : req_data)
  : M json :=
  r <-- _make_request api "POST" url params d ;;
  ret (fst r).

(** [GitLabAPI.patch(url, params, data=data)] *)
Definition patch (api : GitLabAPI) (url : string) (params : list (string * string)) (d : req_data)
  : M json :=
  r <-- _make_request api "PATCH" url params d ;;
  ret (fst r).

(** [GitLabAPI.put(url, params, data=data)]; [data] defaults to [b""]. *)
Definition put (api : GitLabAPI) (url : string) (params : list (string * string)) (d : req_data)
  : M json :=
  r <-- _make_request api "PUT" url params d ;;
  ret (fst r).

(** [GitLabAPI.delete(url, params, data=data)]; [data] defaults to [b""]
    and the call returns [None]. *)
Definition delete (api : GitLabAPI) (url : string) (params : list (string * string)) (d : req_data)
  : M unit :=
  _ <-- _make_request api "DELETE" url params d ;;
  ret tt.

End Client.

(** ** The webhook router (routing.Router) *)

Section Routing.

Context {Callback Arg : Type}.

(** [_shallow_routes]: event type -> callbacks; [_deep_routes]: event type
    -> data key -> data value -> callbacks. The innermost dict is keyed by
    hashable values compared with Python's [==]. *)
Record Router : Type := mkRouter {
  _shallow_routes : list (string * list Callback);
  _deep_routes : list (string * list (string * list (json * list Callback)))
}.

Definition Router_init : Router := mkRouter [] [].

Fixpoint jassoc {V : Type} (k : json) (d : list (json * V)) : option V :=
  match d with
  | [] => None
  | (k', v) :: r => if key_eqb k k' then Some v else jassoc k r
  end.

(** [d.setdefault(k, []).append(f)] on a dict keyed by hashable values: an
    existing equal key keeps its place (and its first spelling). *)
Fixpoint jappend (k : json) (f : Callback) (d : list (json * list Callback))
  : list (json * list Callback) :=
  match d with
  | [] => [(k, [f])]
  | (k', fs) :: r => if key_eqb k k' then (k', fs ++ [f]) :: r else (k', fs) :: jappend k f r
  end.

Definition get_or_empty {V : Type} (k : string) (d : list (string * list V)) : list V :=
  match assoc k d with Some l => l | None => [] end.

(** [Router.add(func, event_type, **object_attribute)]: the call's outcome
    and the router after it (the dicts are mutated in place, so an
    exception raised half-way leaves the [setdefault]s already done). *)
Definition add (r : Router) (func : Callback) (event_type : string)
  (object_attribute : list (string * json)) : res unit * Router :=
  match object_attribute with
  | [] =>
      (Ok tt,
       mkRouter (dset event_type (get_or_empty event_type (_shallow_routes r) ++ [func])
                      (_shallow_routes r))
                (_deep_routes r))
  | [(data_key, data_value)] =>
      let object_attributes := get_or_empty event_type (_deep_routes r) in
      let specific_detail := get_or_empty data_key object_attributes in
      if hashable data_value then
        (Ok tt,
         mkRouter (_shallow_routes r)
                  (dset event_type
                        (dset data_key (jappend data_value func specific_detail) object_attributes)
                        (_deep_routes r)))
      else
        (Err TypeError,
         mkRouter (_shallow_routes r)
                  (dset event_type (dset data_key specific_detail object_attributes)
                        (_deep_routes r)))
  | _ :: _ :: _ => (Err TypeError, r)
  end.

(** [event.object_attributes] *)
Definition object_attributes (ev : Event) : res json :=
  py_get (data ev) "object_attributes" (JObj []).

(** The loop over [details.items()] in [Router.dispatch]. *)
Fixpoint collect_deep (ev : Event) (details : list (string * list (json * list Callback)))
  : res (list Callback) :=
  match details with
  | [] => Ok []
  | (data_key, data_values) :: rest =>
      oa <- object_attributes ev ;;
      present <- py_contains oa data_key ;;
      here <- (if present then
                 oa' <- object_attributes ev ;;
                 event_value <- py_getitem oa' data_key ;;
                 if hashable event_value then
                   Ok (match jassoc event_value data_values with
                       | Some cbs => cbs
                       | None => []
                       end)
                 else Err TypeError
               else Ok []) ;;
      more <- collect_deep ev rest ;;
      Ok (here ++ more)
  end.

(** [found_callbacks] of [Router.dispatch]. *)
Definition found_callbacks (r : Router) (ev : Event) : res (list Callback) :=
  let shallow := get_or_empty (event ev) (_shallow_routes r) in
  match assoc (event ev) (_deep_routes r) with
  | None => Ok shallow
  | Some details => deep <- collect_deep ev details ;; Ok (shallow ++ deep)
  end.

Section Dispatch.

(** Awaiting a callback: it returns normally or raises. *)
Context (call : Callback -> Event -> list Arg -> res unit).

Fixpoint run_callbacks (cbs : list Callback) (ev : Event) (args : list Arg)
  : list (Callback * Event * list Arg) * res unit :=
  match cbs with
  | [] => ([], Ok tt)
  | f :: rest =>
      match call f ev args with
      | Ok _ => let (t, o) := run_callbacks rest ev args in ((f, ev, args) :: t, o)
      | Err e => ([(f, ev, args)], Err e)
      end
  end.

(** [Router.dispatch(event, *args, **kwargs)]: the callbacks awaited, with
    their arguments, in order, and the outcome. *)
Definition dispatch (r : Router) (ev : Event) (args : list Arg)
  : list (Callback * Event * list Arg) * res unit :=
  match found_callbacks r ev with
  | Err e => ([], Err e)
  | Ok cbs => run_callbacks cbs ev args
  end.

End Dispatch.

(** The router after a sequence of [add] calls on a fresh router. *)
Definition registration : Type := (Callback * string * list (string * json))%type.

Fixpoint add_all (r : Router) (regs : list registration) : Router :=
  match regs with
  | [] => r
  | (f, et, attrs) :: rest => add_all (snd (add r f et attrs)) rest
  end.

(** [add] calls in sequence, stopping at the first that raises. *)
Fixpoint add_seq (r : Router) (regs : list registration) : res unit * Router :=
  match regs with
  | [] => (Ok tt, r)
  | (f, et, attrs) :: rest =>
      match add r f et attrs with
      | (Ok _, r') => add_seq r' rest
      | (Err e, r') => (Err e, r')
      end
  end.

(** The [add] calls [Router.__init__] makes for one other router: its
    shallow routes, then its deep routes, in dict order. *)
Definition shallow_items (o : Router) : list registration :=
  flat_map (fun ec => map (fun f => (f, fst ec, [])) (snd ec)) (_shallow_routes o).

Definition deep_items (o : Router) : list registration :=
  flat_map (fun eo =>
    flat_map (fun ks =>
      flat_map (fun vc => map (fun f => (f, fst eo, [(fst ks, fst vc)])) (snd vc))
               (snd ks))
             (snd eo))
           (_deep_routes o).

Definition router_items (o : Router) : list registration := shallow_items o ++ deep_items o.

(** [Router.__init__] over the varargs [other_routers]. *)
Definition Router_new (other_routers : list Router) : res Router :=
  match add_seq Router_init (flat_map router_items other_routers) with
  | (Ok _, r) => Ok r
  | (Err e, _) => Err e
  end.

End Routing.

(** ** A concrete standard library (CPython 3.11, on Latin-1 text)

    Used to run the embedding on concrete inputs. [urllib.parse]'s
    [urlsplit], [urlparse], [urlunparse] and [urljoin] follow CPython
    3.11.2 line by line (the bracketed-IPv6 host validation and the NFKC
    check of non-ASCII netlocs are left out). The others are exact on ASCII
    text: [json.loads] reads integers but no fractions or exponents and
    only [\u00XX] unicode escapes; [bytes.decode] knows the UTF-8, ASCII and
    Latin-1 codecs; [cgi.parse_header] does not special-case a [;] inside a
    quoted parameter; [float] reads decimal notation; [fromtimestamp] does
    not round to microseconds. *)
Module CPython.

Definition code (c : ascii) : nat := nat_of_ascii c.

Fixpoint lstrip_by (p : ascii -> bool) (s : string) : string :=
  match s with
  | String c r => if p c then lstrip_by p r else s
  | EmptyString => s
  end.

Fixpoint srev (s : string) : string :=
  match s with
  | EmptyString => EmptyString
  | String c r => srev r +++ String c ""
  end.

Definition strip_by (p : ascii -> bool) (s : string) : string :=
  srev (lstrip_by p (srev (lstrip_by p s))).

Fixpoint remove_by (p : ascii -> bool) (s : string) : string :=
  match s with
  | EmptyString => EmptyString
  | String c r => if p c then remove_by p r else String c (remove_by p r)
  end.

Fixpoint all_by (p : ascii -> bool) (s : string) : bool :=
  match s with
  | EmptyString => true
  | String c r => p c && all_by p r
  end.

(** [s.split(c, 1)] when [c] occurs in [s]. *)
Fixpoint split_once (p : ascii -> bool) (s : string) : option (string * string) :=
  match s with
  | EmptyString => None
  | String c r =>
      if p c then Some ("", r)
      else match split_once p r with
           | Some (a, b) => Some (String c a, b)
           | None => None
           end
  end.

(** [s.split(c)] *)
Fixpoint split_all (p : ascii -> bool) (s : string) : list string :=
  match s with
  | EmptyString => [""]
  | String c r =>
      let rest := split_all p r in
      if p c then "" :: rest
      else match rest with
           | h :: t => String c h :: t
           | [] => [String c ""]
           end
  end.

Definition lower_char (c : ascii) : ascii :=
  let n := code c in
  if Nat.leb 65 n && Nat.leb n 90 then ascii_of_nat (n + 32) else c.

Fixpoint lower (s : string) : string :=
  match s with
  | EmptyString => EmptyString
  | String c r => String (lower_char c) (lower r)
  end.

Definition in_list (s : string) (l : list string) : bool := existsb (String.eqb s) l.

Definition is_c (n : nat) (c : ascii) : bool := Nat.eqb (code c) n.

Definition is_alpha_ascii (c : ascii) : bool :=
  let n := code c in (Nat.leb 65 n && Nat.leb n 90) || (Nat.leb 97 n && Nat.leb n 122).

Definition is_digit (c : ascii) : bool := let n := code c in Nat.leb 48 n && Nat.leb n 57.

Definition is_scheme_char (c : ascii) : bool :=
  is_alpha_ascii c || is_digit c || is_c 43 c || is_c 45 c || is_c 46 c.

Definition has (p : ascii -> bool) (s : string) : bool := negb (all_by (fun c => negb (p c)) s).

Definition uses_relative : list string :=
  [""; "ftp"; "http"; "gopher"; "nntp"; "imap"; "wais"; "file"; "https"; "shttp"; "mms";
   "prospero"; "rtsp"; "rtspu"; "sftp"; "svn"; "svn+ssh"; "ws"; "wss"].
Definition uses_netloc : list string :=
  [""; "ftp"; "http"; "gopher"; "nntp"; "telnet"; "imap"; "wais"; "file"; "mms"; "https";
   "shttp"; "snews"; "prospero"; "rtsp"; "rtspu"; "rsync"; "svn"; "svn+ssh"; "sftp"; "nfs";
   "git"; "git+ssh"; "ws"; "wss"].
Definition uses_params : list string :=
  [""; "ftp"; "hdl"; "prospero"; "http"; "imap"; "https"; "shttp"; "rtsp"; "rtspu"; "sip";
   "sips"; "mms"; "sftp"; "tel"].

Definition c0_or_space (c : ascii) : bool := Nat.leb (code c) 32.
Definition unsafe_byte (c : ascii) : bool := is_c 9 c || is_c 13 c || is_c 10 c.
Definition netloc_delim (c : ascii) : bool := is_c 47 c || is_c 63 c || is_c 35 c.

(** [urlsplit(url, scheme)]: (scheme, netloc, path, query, fragment). *)
Definition urlsplit (url scheme : string) : res (string * string * string * string * string) :=
  let url := remove_by unsafe_byte (lstrip_by c0_or_space url) in
  let scheme := remove_by unsafe_byte (strip_by c0_or_space scheme) in
  let '(scheme, url) :=
    match url, split_once (is_c 58) url with
    | String c0 _, Some (pre, post) =>
        if negb (String.eqb pre "") && Nat.ltb (code c0) 128 && is_alpha_ascii c0
           && all_by is_scheme_char pre
        then (lower pre, post) else (scheme, url)
    | _, _ => (scheme, url)
    end in
  let '(netloc, url) :=
    match url with
    | String a (String b rest) =>
        if is_c 47 a && is_c 47 b then span (fun c => negb (netloc_delim c)) rest else ("", url)
    | _ => ("", url)
    end in
  if xorb (has (is_c 91) netloc) (has (is_c 93) netloc) then Err ValueError
  else
    let '(url, fragment) := match split_once (is_c 35) url with
                            | Some (a, b) => (a, b)
                            | None => (url, "")
                            end in
    let '(url, query) := match split_once (is_c 63) url with
                         | Some (a, b) => (a, b)
                         | None => (url, "")
                         end in
    Ok (scheme, netloc, url, query, fragment).

(** [_splitparams(url)] *)
Definition _splitparams (url : string) : string * string :=
  match split_once (is_c 47) (srev url) with
  | Some (last_rev, dir_rev) =>
      let last := srev last_rev in
      match split_once (is_c 59) last with
      | Some (a, b) => (srev dir_rev +++ "/" +++ a, b)
      | None => (url, "")
      end
  | None =>
      match split_once (is_c 59) url with
      | Some (a, b) => (a, b)
      | None => (url, "")
      end
  end.

(** [urlparse(url, scheme)] *)
Definition urlparse_with (url scheme : string) : res urlparts :=
  p <- urlsplit url scheme ;;
  let '(scheme, netloc, path, query, fragment) := p in
  let '(path, params) :=
    if in_list scheme uses_params && has (is_c 59) path then _splitparams path else (path, "") in
  Ok (mkURL scheme netloc path params query fragment).

Definition urlparse (url : string) : res urlparts := urlparse_with url "".

(** [urlunsplit((scheme, netloc, url, query, fragment))] *)
Definition urlunsplit (scheme netloc url query fragment : string) : string :=
  let starts_2slash := match url with
                       | String a (String b _) => is_c 47 a && is_c 47 b
                       | _ => false
                       end in
  let url :=
    if negb (String.eqb netloc "")
       || (negb (String.eqb scheme "") && in_list scheme uses_netloc && negb starts_2slash)
    then
      let url := match url with
                 | String a _ => if is_c 47 a then url else "/" +++ url
                 | EmptyString => url
                 end in
      "//" +++ netloc +++ url
    else url in
  let url := if String.eqb scheme "" then url else scheme +++ ":" +++ url in
  let url := if String.eqb query "" then url else url +++ "?" +++ query in
  if String.eqb fragment "" then url else url +++ "#" +++ fragment.

(** [urlunparse(parts)] *)
Definition urlunparse (p : urlparts) : string :=
  let url := if String.eqb (u_params p) "" then u_path p else u_path p +++ ";" +++ u_params p in
  urlunsplit (u_scheme p) (u_netloc p) url (u_query p) (u_fragment p).

(** [segments[1:-1] = filter(None, segments[1:-1])] *)
Definition filter_middle (segs : list string) : list string :=
  match segs with
  | [] => []
  | first :: rest =>
      match rev rest with
      | [] => [first]
      | last :: mid_rev =>
          first :: filter (fun s => negb (String.eqb s "")) (rev mid_rev) ++ [last]
      end
  end.

Fixpoint resolve (segs : list string) (acc : list string) : list string :=
  match segs with
  | [] => acc
  | seg :: r =>
      if String.eqb seg ".." then resolve r (removelast acc)
      else if String.eqb seg "." then resolve r acc
      else resolve r (acc ++ [seg])
  end.

(** [urljoin(base, url)] *)
Definition urljoin (base url : string) : res string :=
  if String.eqb base "" then Ok url
  else if String.eqb url "" then Ok base
  else
    b <- urlparse_with base "" ;;
    u <- urlparse_with url (u_scheme b) ;;
    let scheme := u_scheme u in
    if negb (String.eqb scheme (u_scheme b)) || negb (in_list scheme uses_relative) then Ok url
    else if in_list scheme uses_netloc && negb (String.eqb (u_netloc u) "") then
      Ok (urlunparse u)
    else
      let netloc := if in_list scheme uses_netloc then u_netloc b else u_netloc u in
      if String.eqb (u_path u) "" && String.eqb (u_params u) "" then
        Ok (urlunparse (mkURL scheme netloc (u_path b) (u_params b)
                              (if String.eqb (u_query u) "" then u_query b else u_query u)
                              (u_fragment u)))
      else
        let base_parts := split_all (is_c 47) (u_path b) in
        let base_parts := match rev base_parts with
                          | last :: r => if String.eqb last "" then base_parts else rev r
                          | [] => []
                          end in
        let segments := match u_path u with
                        | String a _ =>
                            if is_c 47 a then split_all (is_c 47) (u_path u)
                            else filter_middle (base_parts ++ split_all (is_c 47) (u_path u))
                        | EmptyString => filter_middle (base_parts ++ split_all (is_c 47) (u_path u))
                        end in
        let resolved := resolve segments [] in
        let resolved := match rev segments with
                        | last :: _ => if String.eqb last "." || String.eqb last ".."
                                       then resolved ++ [""] else resolved
                        | [] => resolved
                        end in
        let path := join "/" resolved in
        Ok (urlunparse (mkURL scheme netloc (if String.eqb path "" then "/" else path)
                              (u_params u) (u_query u) (u_fragment u))).


(** [json.loads]: a recursive-descent reader of the JSON grammar. *)
Definition json_ws (c : ascii) : bool := is_c 32 c || is_c 9 c || is_c 10 c || is_c 13 c.

Fixpoint prefix_of (p s : string) : option string :=
  match p, s with
  | EmptyString, _ => Some s
  | String a p', String b s' => if Ascii.eqb a b then prefix_of p' s' else None
  | _, _ => None
  end.

Definition hex_val (c : ascii) : option nat :=
  let n := code c in
  if Nat.leb 48 n && Nat.leb n 57 then Some (n - 48)%nat
  else if Nat.leb 97 n && Nat.leb n 102 then Some (n - 87)%nat
  else if Nat.leb 65 n && Nat.leb n 70 then Some (n - 55)%nat
  else None.

(** The body of a JSON string after its opening quote. *)
Fixpoint json_string (s : string) : option (string * string) :=
  match s with
  | EmptyString => None
  | String c r =>
      if is_c 34 c then Some ("", r)
      else if Nat.ltb (code c) 32 then None
      else if is_c 92 c then
        match r with
        | String e r' =>
            let k := fun (ch : ascii) (rest : string) =>
                       match json_string rest with
                       | Some (t, rest') => Some (String ch t, rest')
                       | None => None
                       end in
            if is_c 34 e || is_c 92 e || is_c 47 e then k e r'
            else if is_c 98 e then k (ascii_of_nat 8) r'
            else if is_c 102 e then k (ascii_of_nat 12) r'
            else if is_c 110 e then k (ascii_of_nat 10) r'
            else if is_c 114 e then k (ascii_of_nat 13) r'
            else if is_c 116 e then k (ascii_of_nat 9) r'
            else if is_c 117 e then
              match r' with
              | String h1 (String h2 (String h3 (String h4 r''))) =>
                  match hex_val h1, hex_val h2, hex_val h3, hex_val h4 with
                  | Some O, Some O, Some a, Some b => k (ascii_of_nat (16 * a + b)%nat) r''
                  | _, _, _, _ => None
                  end
              | _ => None
              end
            else None
        | EmptyString => None
        end
      else
        match json_string r with
        | Some (t, rest) => Some (String c t, rest)
        | None => None
        end
  end.

Fixpoint digits_val (s : string) (acc : Z) : Z * string :=
  match s with
  | String c r => if is_digit c then digits_val r (10 * acc + Z.of_nat (code c - 48)%nat) else (acc, s)
  | EmptyString => (acc, s)
  end.

(** An optional minus sign, then [0] or a non-zero digit followed by digits,
    not followed by a fraction or an exponent. *)
Definition json_int (s : string) : option (Z * string) :=
  let '(neg, s) := match s with
                   | String c r => if is_c 45 c then (true, r) else (false, s)
                   | EmptyString => (false, s)
                   end in
  match s with
  | String c r =>
      if is_c 48 c then
        match r with
        | String d _ => if is_digit d || is_c 46 d || is_c 101 d || is_c 69 d then None
                        else Some (0, r)
        | EmptyString => Some (0, r)
        end
      else if is_digit c then
        let '(n, rest) := digits_val s 0 in
        match rest with
        | String d _ => if is_c 46 d || is_c 101 d || is_c 69 d then None
                        else Some (if neg then - n else n, rest)
        | EmptyString => Some (if neg then - n else n, rest)
        end
      else None
  | EmptyString => None
  end.

Fixpoint json_value (fuel : nat) (s : string) : option (json * string) :=
  match fuel with
  | O => None
  | S f =>
    let s := lstrip_by json_ws s in
    match prefix_of "null" s, prefix_of "true" s, prefix_of "false" s with
    | Some r, _, _ => Some (JNull, r)
    | _, Some r, _ => Some (JBool true, r)
    | _, _, Some r => Some (JBool false, r)
    | None, None, None =>
      match s with
      | String c r =>
          if is_c 34 c then
            match json_string r with Some (t, r') => Some (JStr t, r') | None => None end
          else if is_c 91 c then
            match lstrip_by json_ws r with
            | String d r' => if is_c 93 d then Some (JArr [], r') else json_items f r []
            | EmptyString => None
            end
          else if is_c 123 c then
            match lstrip_by json_ws r with
            | String d r' => if is_c 125 d then Some (JObj [], r') else json_members f r []
            | EmptyString => None
            end
          else match json_int s with Some (n, r') => Some (JNum n, r') | None => None end
      | EmptyString => None
      end
    end
  end
with json_items (fuel : nat) (s : string) (acc : list json) : option (json * string) :=
  match fuel with
  | O => None
  | S f =>
    match json_value f s with
    | Some (v, r) =>
        match lstrip_by json_ws r with
        | String d r' =>
            if is_c 44 d then json_items f r' (acc ++ [v])
            else if is_c 93 d then Some (JArr (acc ++ [v]), r')
            else None
        | EmptyString => None
        end
    | None => None
    end
  end
with json_members (fuel : nat) (s : string) (acc : list (string * json))
  : option (json * string) :=
  match fuel with
  | O => None
  | S f =>
    match lstrip_by json_ws s with
    | String q r =>
        if negb (is_c 34 q) then None else
        match json_string r with
        | Some (k, r1) =>
            match lstrip_by json_ws r1 with
            | String colon r2 =>
                if negb (is_c 58 colon) then None else
                match json_value f r2 with
                | Some (v, r3) =>
                    match lstrip_by json_ws r3 with
                    | String d r4 =>
                        if is_c 44 d then json_members f r4 (dset k v acc)
                        else if is_c 125 d then Some (JObj (dset k v acc), r4)
                        else None
                    | EmptyString => None
                    end
                | None => None
                end
            | EmptyString => None
            end
        | None => None
        end
    | EmptyString => None
    end
  end.

Definition json_loads (s : string) : res json :=
  match json_value (S (String.length s)) s with
  | Some (v, rest) =>
      if String.eqb (lstrip_by json_ws rest) "" then Ok v else Err JSONDecodeError
  | None => Err JSONDecodeError
  end.

(** [json.dumps(v)] with the default [ensure_ascii] and separators. *)
Definition json_escape_char (c : ascii) : string :=
  let n := code c in
  if Nat.eqb n 34 then backslash +++ dquote
  else if Nat.eqb n 92 then backslash +++ backslash
  else if Nat.eqb n 10 then backslash +++ "n"
  else if Nat.eqb n 13 then backslash +++ "r"
  else if Nat.eqb n 9 then backslash +++ "t"
  else if Nat.eqb n 8 then backslash +++ "b"
  else if Nat.eqb n 12 then backslash +++ "f"
  else if Nat.ltb n 32 || Nat.leb 128 n then
    backslash +++ "u00" +++ hex_digit (Nat.div n 16) +++ hex_digit (Nat.modulo n 16)
  else String c "".

Fixpoint json_escape (s : string) : string :=
  match s with
  | EmptyString => ""
  | String c r => json_escape_char c +++ json_escape r
  end.

Fixpoint json_dumps (v : json) : string :=
  match v with
  | JNull => "null"
  | JBool b => if b then "true" else "false"
  | JNum z => z_to_dec z
  | JStr s => dquote +++ json_escape s +++ dquote
  | JArr l => "[" +++ join ", " (map json_dumps l) +++ "]"
  | JObj fs =>
      "{" +++ join ", " (map (fun kv => dquote +++ json_escape (fst kv) +++ dquote +++ ": "
                                        +++ json_dumps (snd kv)) fs) +++ "}"
  end.

(** [bytes.decode(encoding)] *)
Definition bytes_decode (encoding body : string) : res string :=
  let e := lower encoding in
  if in_list e ["utf-8"; "utf8"; "ascii"; "us-ascii"] then
    if all_by (fun c => Nat.ltb (code c) 128) body then Ok body else Err UnicodeDecodeError
  else if in_list e ["latin-1"; "latin1"; "iso-8859-1"] then Ok body
  else Err LookupError.

(** [cgi.parse_header(line)] *)
Definition drop_first (s : string) : string :=
  match s with String _ r => r | EmptyString => EmptyString end.

Definition drop_last (s : string) : string := srev (drop_first (srev s)).

(** [s.replace(chr(a) + chr(b), chr(b))], scanning left to right. *)
Fixpoint replace2 (a b : nat) (s : string) : string :=
  match s with
  | String c r =>
      match r with
      | String d r' => if is_c a c && is_c b d then String d (replace2 a b r')
                       else String c (replace2 a b r)
      | EmptyString => s
      end
  | EmptyString => s
  end.

Definition cgi_parse_header (line : string) : string * list (string * string) :=
  match split_all (is_c 59) line with
  | [] => ("", [])
  | key :: parts =>
      (strip_by c0_or_space key,
       fold_left
         (fun d p =>
            let p := strip_by c0_or_space p in
            match split_once (is_c 61) p with
            | Some (name, value) =>
                let name := lower (strip_by c0_or_space name) in
                let value := strip_by c0_or_space value in
                let value :=
                  match value, srev value with
                  | String a (String _ _), String b _ =>
                      if is_c 34 a && is_c 34 b
                      then replace2 92 34 (replace2 92 92 (drop_last (drop_first value)))
                      else value
                  | _, _ => value
                  end in
                dset name value d
            | None => d
            end)
         parts [])
  end.

(** [int(s)] for decimal digits with an optional sign. *)
Definition py_int (s : string) : res Z :=
  let s := strip_by c0_or_space s in
  let '(neg, s) := match s with
                   | String c r => if is_c 45 c then (true, r)
                                   else if is_c 43 c then (false, r) else (false, s)
                   | EmptyString => (false, s)
                   end in
  if String.eqb s "" || negb (all_by is_digit s) then Err ValueError
  else let n := fst (digits_val s 0) in Ok (if neg then - n else n).

(** [float(s)] for [digits] or [digits.digits] with an optional sign. *)
Definition py_float (s : string) : res Q :=
  let s := strip_by c0_or_space s in
  let '(neg, s) := match s with
                   | String c r => if is_c 45 c then (true, r)
                                   else if is_c 43 c then (false, r) else (false, s)
                   | EmptyString => (false, s)
                   end in
  let '(ip, fp) := match split_once (is_c 46) s with
                   | Some (a, b) => (a, b)
                   | None => (s, "")
                   end in
  if (String.eqb ip "" && String.eqb fp "") || negb (all_by is_digit ip)
     || negb (all_by is_digit fp) then Err ValueError
  else
    let q := (inject_Z (fst (digits_val (ip +++ fp) 0))
              / inject_Z (10 ^ Z.of_nat (String.length fp)))%Q in
    Ok (if neg then Qopp q else q).

(** [datetime.fromtimestamp(t, timezone.utc)]: years 1 to 9999. *)
Definition utc_fromtimestamp (t : Q) : res Q :=
  if Qle_bool (inject_Z (-62135596800)) t && negb (Qle_bool (inject_Z 253402300800) t)
  then Ok t else Err OverflowError.

Definition pct_decode (s : string) : string :=
  let fix go (s : string) : string :=
    match s with
    | String c r =>
        if is_c 37 c then
          match r with
          | String h1 (String h2 r') =>
              match hex_val h1, hex_val h2 with
              | Some a, Some b => String (ascii_of_nat (16 * a + b)%nat) (go r')
              | _, _ => String c (go r)
              end
          | _ => String c (go r)
          end
        else if is_c 43 c then String " "%char (go r)
        else String c (go r)
    | EmptyString => EmptyString
    end in go s.

(** [urllib.parse.parse_qs(qs)] *)
Definition parse_qs (qs : string) : list (string * list string) :=
  let pairs := if String.eqb qs "" then [] else split_all (is_c 38) qs in
  fold_left
    (fun d nv =>
       match split_once (is_c 61) nv with
       | Some (n, v) =>
           if String.eqb v "" then d
           else let n := pct_decode n in
                dset n (match assoc n d with Some l => l | None => [] end ++ [pct_decode v]) d
       | None => d
       end)
    pairs [].

Definition quote_plus (s : string) : string :=
  let hexu := fun n => if Nat.ltb n 10 then chr (48 + n)%nat else chr (55 + n)%nat in
  let pct := fun n => "%" +++ hexu (Nat.div n 16) +++ hexu (Nat.modulo n 16) in
  let fix go (s : string) : string :=
    match s with
    | String c r =>
        let n := code c in
        if is_alpha_ascii c || is_digit c || is_c 95 c || is_c 46 c || is_c 45 c || is_c 126 c
        then String c (go r)
        else if Nat.eqb n 32 then "+" +++ go r
        else if Nat.ltb n 128 then pct n +++ go r
        else pct (192 + Nat.div n 64)%nat +++ pct (128 + Nat.modulo n 64)%nat +++ go r
    | EmptyString => EmptyString
    end in go s.

(** [urlencode(query, doseq=True)] *)
Definition urlencode_doseq (query : list (string * qvalue)) : string :=
  join "&" (flat_map (fun kv =>
                        match snd kv with
                        | QStr v => [quote_plus (fst kv) +++ "=" +++ quote_plus v]
                        | QList vs => map (fun v => quote_plus (fst kv) +++ "=" +++ quote_plus v) vs
                        end) query).

Definition lib : pylib :=
  Build_pylib cgi_parse_header bytes_decode json_loads json_dumps parse_qs py_int py_float
    utc_fromtimestamp urljoin urlparse urlunparse urlencode_doseq.

End CPython.

(** ** The order in which [Router.dispatch] awaits callbacks

    Both orders are read off the sequence of [add] calls that built the
    router. [spec_dispatch_order] is the order as the webhook routing
    specification words it: the matching shallow registrations, then the
    matching deep registrations, each in registration order.
    [grouped_dispatch_order] groups the deep registrations by attribute key,
    the keys in the order of their first registration for the event type. *)

Section DispatchOrder.

Context {Callback : Type}.

Definition reg_cb (reg : registration (Callback := Callback)) : Callback :=
  let '(f, _, _) := reg in f.

(** [add(f, et)] without an attribute pair. *)
Definition shallow_for (et : string) (reg : registration (Callback := Callback)) : bool :=
  let '(_, et', attrs) := reg in
  String.eqb et' et && match attrs with [] => true | _ => false end.

(** [add(f, et, k=v)] with [v == value]. *)
Definition deep_for (et k : string) (value : json) (reg : registration (Callback := Callback))
  : bool :=
  let '(_, et', attrs) := reg in
  String.eqb et' et
  && match attrs with [(k', v)] => String.eqb k' k && key_eqb value v | _ => false end.

(** [add(f, et, k=v)] matched by object attributes [oa]: [k] is one of
    them and its value equals [v]. *)
Definition deep_match (et : string) (oa : list (string * json))
  (reg : registration (Callback := Callback)) : bool :=
  let '(_, et', attrs) := reg in
  String.eqb et' et
  && match attrs with
     | [(k, v)] => match assoc k oa with Some x => key_eqb x v | None => false end
     | _ => false
     end.

Definition spec_dispatch_order (regs : list (registration (Callback := Callback)))
  (et : string) (oa : list (string * json)) : list Callback :=
  map reg_cb (filter (shallow_for et) regs) ++ map reg_cb (filter (deep_match et oa) regs).

Definition deep_key_step (et : string) (ks : list string)
  (reg : registration (Callback := Callback)) : list string :=
  let '(_, et', attrs) := reg in
  match attrs with
  | [(k, _)] => if String.eqb et' et && negb (existsb (String.eqb k) ks) then ks ++ [k] else ks
  | _ => ks
  end.

(** The attribute keys registered for [et], in order of first registration. *)
Definition deep_keys (et : string) (regs : list (registration (Callback := Callback)))
  : list string :=
  fold_left (deep_key_step et) regs [].

Definition grouped_dispatch_order (regs : list (registration (Callback := Callback)))
  (et : string) (oa : list (string * json)) : list Callback :=
  map reg_cb (filter (shallow_for et) regs)
  ++ concat (map (fun k => match assoc k oa with
                           | Some x => map reg_cb (filter (deep_for et k x) regs)
                           | None => []
                           end) (deep_keys et regs)).

(** A registration whose single attribute value, if any, is hashable. *)
Definition valid_registration (reg : registration (Callback := Callback)) : bool :=
  let '(_, _, attrs) := reg in
  match attrs with [(_, v)] => hashable v | _ => true end.

End DispatchOrder.

(** What Python's [==] compares between hashable JSON values. *)
Inductive key_repr : Type :=
| KNull
| KNum (z : Z)
| KStr (s : string).

Definition key_of (v : json) : option key_repr :=
  match v with
  | JNull => Some KNull
  | JBool b => Some (KNum (if b then 1 else 0))
  | JNum z => Some (KNum z)
  | JStr s => Some (KStr s)
  | JArr _ | JObj _ => None
  end.

(** The callbacks stored for [value] in an inner dict ([] when absent). *)
Definition jlookup {C : Type} (value : json) (d : list (json * list C)) : list C :=
  match jassoc value d with Some l => l | None => [] end.

(** The router tables agree with a registration list: the shallow table
    holds the shallow registrations of each event type in order, the deep
    table of each event type holds the keys of [deep_keys], and each key and
    value the matching deep registrations in order. *)
Definition tables_match {C : Type} (R : @Router C) (regs : list (registration (Callback := C)))
  : Prop :=
  (forall et, get_or_empty et (_shallow_routes R) = map reg_cb (filter (shallow_for et) regs)) /\
  (forall et, map fst (get_or_empty et (_deep_routes R)) = deep_keys et regs) /\
  (forall et k value,
     jlookup value (get_or_empty k (get_or_empty et (_deep_routes R)))
     = map reg_cb (filter (deep_for et k value) regs)).

(** A sample router and event: three deep registrations on one event type. *)
Definition issue_registrations : list (registration (Callback := Z)) :=
  [(1, "Issue Hook", [("action", JStr "open")]);
   (2, "Issue Hook", [("state", JStr "opened")]);
   (3, "Issue Hook", [("action", JStr "open")])].

Definition issue_event : Event :=
  mkEvent (JObj [("object_attributes", JObj [("action", JStr "open"); ("state", JStr "opened")])])
          "Issue Hook" None.

(** Frame conditions on the request monad: [preserves m] leaves the cache
    as it finds it; [err_preserves m] does when it fails; [never_fails m]
    always returns. *)
Definition preserves {A : Type} (m : M A) : Prop :=
  forall s, cache (snd (m s)) = cache s.

Definition err_preserves {A : Type} (m : M A) : Prop :=
  forall s e, fst (m s) = Err e -> cache (snd (m s)) = cache s.

Definition never_fails {A : Type} (m : M A) : Prop :=
  forall s, exists a, fst (m s) = Ok a.

(** A sample client: the default [api_url] of [GitLabAPI.__init__], a cache
    holding one entry, and a transport with one response left. *)
Definition sample_api : GitLabAPI := mkGitLabAPI "bot" None "https://gitlab.com/api/v4/".

Definition sample_state (responses : list response) : state :=
  mkState (Some [("https://gitlab.com/api/v4/projects", (Some "abc", None, JArr [], None))])
          None responses [] [] [].

(** The second page of a paginated [projects] listing. *)
Definition next_page_url : string := "https://gitlab.com/api/v4/projects?page=2".

(** The cache-eligibility condition of [_make_request]: a [GET] without a
    body, with a cache configured. *)
Definition is_no_data (data : req_data) : bool :=
  match data with NoData => true | Data _ => false end.

Definition cache_configured (s : state) : bool :=
  match cache s with Some _ => true | None => false end.

Definition cache_eligible (method : string) (data : req_data) (s : state) : bool :=
  String.eqb method "GET" && is_no_data data && cache_configured s.

(** [log_grows m]: [m] only appends to the log of cache accesses. *)
Definition log_grows {A : Type} (m : M A) : Prop :=
  forall s, exists t, cache_log (snd (m s)) = cache_log s ++ t.

(** ** Pagination *)

(** One entry [<uri>; param_type="param_value"] of an RFC 5988 [link]
    header, and a header of entries joined by [", "]. *)
Definition render_link (e : string * string * string) : string :=
  let '(uri, ptype, pvalue) := e in
  "<" +++ uri +++ ">; " +++ ptype +++ "=" +++ dquote +++ pvalue +++ dquote.

Fixpoint link_header (es : list (string * string * string)) : string :=
  match es with
  | [] => ""
  | [e] => render_link e
  | e :: r => render_link e +++ ", " +++ link_header r
  end.

(** An entry [_link_re] can read: a non-empty URI without [>], and
    non-empty word-character parameter name and value. *)
Definition link_wf (e : string * string * string) : bool :=
  let '(uri, ptype, pvalue) := e in
  negb (String.eqb uri "") && forallb (fun c => negb (is_gt c)) (list_ascii_of_string uri)
  && negb (String.eqb ptype "") && forallb is_word (list_ascii_of_string ptype)
  && negb (String.eqb pvalue "") && forallb is_word (list_ascii_of_string pvalue).

(** The entry the pagination follows: the first whose relation is
    [rel="next"]. *)
Definition spec_next_entry (es : list (string * string * string)) : option string :=
  option_map (fun e => fst (fst e))
    (find (fun e => String.eqb (snd (fst e)) "rel" && String.eqb (snd e) "next") es).

(** A chain of pages as [getiter] meets them: each page [(u, resp, items)]
    is the response to a request for [url] (resolved to [u] with the
    params), its body deciphers to the JSON list [items], and its next-page
    URL, if truthy, is the [url] of the following page. *)
Fixpoint page_chain (L : pylib) (now : Q) (api : GitLabAPI) (params : list (string * string))
  (url : string) (pages : list (string * response * list json)) : Prop :=
  match pages with
  | [] => False
  | (u, resp, items) :: rest =>
      format_url L api url params = Ok u /\
      exists rl more,
        decipher_response L now (rs_status resp) (rs_headers resp) (rs_body resp)
        = Ok (JArr items, rl, more) /\
        match rest with
        | [] => opt_str_truthy more = false
        | _ :: _ => exists m, more = Some m /\ opt_str_truthy more = true /\
                              page_chain L now api params m rest
        end
  end.

(** ** Response classification *)

(** The exception class by status range, as the classification reads. *)
Definition spec_kind (st : Z) : http_kind :=
  if 500 <=? st then GitLabBroken
  else if 400 <=? st then BadRequest
  else if 300 <=? st then RedirectionException
  else HTTPException.

(** [data["message"]], [None] when the body has no such key. *)
Definition body_message (data : json) : json :=
  match py_getitem data "message" with Ok m => m | Err _ => JNull end.

(** Rate-limit headers of an exhausted quota that resets on 2100-01-01. *)
Definition exhausted_headers : headers :=
  [("ratelimit-limit", "2"); ("ratelimit-remaining", "0"); ("ratelimit-reset", "4102444800")].

(** ** Router invariants and views *)

(** Two registration lists the router tables cannot tell apart: the same
    shallow callbacks per event type, the same attribute keys per event
    type, and the same callbacks per event type, key and value. *)
Definition same_views {C : Type} (regs1 regs2 : list (registration (Callback := C))) : Prop :=
  (forall et, map reg_cb (filter (shallow_for et) regs1)
              = map reg_cb (filter (shallow_for et) regs2)) /\
  (forall et, deep_keys et regs1 = deep_keys et regs2) /\
  (forall et k value, map reg_cb (filter (deep_for et k value) regs1)
                      = map reg_cb (filter (deep_for et k value) regs2)).

(** [deep_key_step] on a bare key: append [k] unless present. *)
Definition add_key (ks : list string) (k : string) : list string :=
  if existsb (String.eqb k) ks then ks else ks ++ [k].

(** An [add] call that returns normally: no attribute pair, or one with a
    hashable value. *)
Definition add_succeeds {C : Type} (reg : registration (Callback := C)) : bool :=
  let '(_, _, attrs) := reg in
  match attrs with [] => true | [(_, v)] => hashable v | _ => false end.

(** An inner dict of the deep table: pairwise different ([==]) hashable
    keys, each with a non-empty callback list. *)
Definition inner_ok {C : Type} (d : list (json * list C)) : Prop :=
  ForallOrdPairs (fun a b => key_eqb (fst a) (fst b) = false) d /\
  Forall (fun vc => hashable (fst vc) = true /\ snd vc <> []) d.

(** The shape of the tables [add] builds: no repeated key at any level, and
    every attribute key with a non-empty dict of values. *)
Definition router_wf {C : Type} (R : @Router C) : Prop :=
  NoDup (map fst (_shallow_routes R)) /\ NoDup (map fst (_deep_routes R)) /\
  Forall (fun eo => NoDup (map fst (snd eo)) /\
                    Forall (fun ks => snd ks <> [] /\ inner_ok (snd ks)) (snd eo))
         (_deep_routes R).

(** * Properties *)

(** ** Webhook events *)

Module EventProps.

(** [_decode_body] returns [None] on an empty body, whatever the
    content-type and the strictness. *)
Lemma decode_body_empty (L : pylib) (ct : option string) (strict : bool) :
  _decode_body L ct "" strict = Ok JNull.
Proof.
  unfold _decode_body. destruct (_parse_content_type L ct). reflexivity.
Qed.

(** C10: for every header mapping holding a content-type (any value) and
    an [x-gitlab-event] header but no [x-gitlab-token] header, an empty body
    and no configured secret, [Event.from_http] does not raise: it returns
    the event whose data is [None] and whose secret is [None]. *)
Lemma from_http_empty_body_ok (L : pylib) (h : headers) (ct ev : string) :
  hget "content-type" h = Some ct ->
  hget "x-gitlab-event" h = Some ev ->
  hget "x-gitlab-token" h = None ->
  Event_from_http L h "" None = Ok (mkEvent JNull ev None).
Proof.
  intros Hct Hev Htok. unfold Event_from_http, decode_event.
  rewrite Htok, Hct, Hev. simpl. rewrite decode_body_empty. reflexivity.
Qed.

Lemma from_http_empty_body_ok_witness :
  Event_from_http CPython.lib [("content-type", "text/plain"); ("x-gitlab-event", "Push Hook")]
    "" None = Ok (mkEvent JNull "Push Hook" None).
Proof.
  apply (from_http_empty_body_ok CPython.lib _ "text/plain"); reflexivity.
Defined.

(** The validation and decoding steps of [Event.from_http], in order. *)
Lemma from_http_validation_cases (L : pylib) (h : headers) (body : string)
  (secret : option string) :
  Event_from_http L h body secret =
  match hget "x-gitlab-token" h, secret with
  | Some _, None => Err (ValidationFailure "secret not provided")
  | Some t, Some s =>
      if String.eqb t s then decode_event L h body secret
      else Err (ValidationFailure "invalid secret")
  | None, Some _ => Err (ValidationFailure "x-gitlab-token is missing")
  | None, None => decode_event L h body secret
  end.
Proof.
  unfold Event_from_http.
  destruct (hget "x-gitlab-token" h) as [t|], secret as [s|]; try reflexivity.
  destruct (String.eqb t s); reflexivity.
Qed.

(** C3 (as amended): with an [x-gitlab-token] header and no secret,
    [Event.from_http] raises [ValidationFailure]; with the header differing
    from the secret it raises [ValidationFailure]; with a secret but no
    header it raises [ValidationFailure]; with neither, when the
    content-type header is present, the body decodes under it, and the
    [x-gitlab-event] header is present, it returns the event carrying the
    decoded data, that event type and the secret [None]; when that header
    is missing it raises [KeyError]. *)
Theorem from_http_validation (L : pylib) (h : headers) (body : string) :
  (forall t, hget "x-gitlab-token" h = Some t ->
     exists msg, Event_from_http L h body None = Err (ValidationFailure msg)) /\
  (forall t s, hget "x-gitlab-token" h = Some t -> t <> s ->
     exists msg, Event_from_http L h body (Some s) = Err (ValidationFailure msg)) /\
  (forall s, hget "x-gitlab-token" h = None ->
     exists msg, Event_from_http L h body (Some s) = Err (ValidationFailure msg)) /\
  (forall ct d ev, hget "x-gitlab-token" h = None ->
     hget "content-type" h = Some ct ->
     _decode_body L (Some ct) body true = Ok d ->
     hget "x-gitlab-event" h = Some ev ->
     Event_from_http L h body None = Ok (mkEvent d ev None)) /\
  (forall ct d, hget "x-gitlab-token" h = None ->
     hget "content-type" h = Some ct ->
     _decode_body L (Some ct) body true = Ok d ->
     hget "x-gitlab-event" h = None ->
     Event_from_http L h body None = Err KeyError).
Proof.
  repeat split.
  - intros t Ht. rewrite from_http_validation_cases, Ht. eexists; reflexivity.
  - intros t s Ht Hne. rewrite from_http_validation_cases, Ht.
    destruct (String.eqb_spec t s) as [E|_]; [contradiction | eexists; reflexivity].
  - intros s Ht. rewrite from_http_validation_cases, Ht. eexists; reflexivity.
  - intros ct d ev Ht Hct Hd Hev. rewrite from_http_validation_cases, Ht.
    unfold decode_event. rewrite Hct. simpl. rewrite Hd, Hev. reflexivity.
  - intros ct d Ht Hct Hd Hev. rewrite from_http_validation_cases, Ht.
    unfold decode_event. rewrite Hct. simpl. rewrite Hd, Hev. reflexivity.
Qed.

Lemma from_http_validation_witness :
  (exists msg, Event_from_http CPython.lib [("x-gitlab-token", "a")] "" (Some "b")
               = Err (ValidationFailure msg)) /\
  Event_from_http CPython.lib
    [("content-type", "application/json"); ("x-gitlab-event", "Issue Hook")] "{}" None
  = Ok (mkEvent (JObj []) "Issue Hook" None).
Proof.
  split.
  - apply (proj1 (proj2 (from_http_validation CPython.lib [("x-gitlab-token", "a")] ""))
             "a" "b"); [reflexivity | discriminate].
  - apply (proj1 (proj2 (proj2 (proj2 (from_http_validation CPython.lib
             [("content-type", "application/json"); ("x-gitlab-event", "Issue Hook")] "{}")))))
      with (ct := "application/json"); reflexivity.
Defined.

(** C3 counterexample: no signature header, no secret and a body that
    decodes, but no [x-gitlab-event] header: [Event.from_http] raises
    [KeyError] instead of returning an event. *)
Lemma from_http_missing_event_cex :
  _decode_body CPython.lib (Some "application/json") "{}" true = Ok (JObj []) /\
  Event_from_http CPython.lib [("content-type", "application/json")] "{}" None = Err KeyError.
Proof. split; reflexivity. Qed.

End EventProps.

(** ** Dictionary lemmas *)

Module DictFacts.

Lemma assoc_dset_same {V : Type} (k : string) (v : V) (d : list (string * V)) :
  assoc k (dset k v d) = Some v.
Proof.
  induction d as [|[k' v'] r IH]; simpl.
  - rewrite String.eqb_refl. reflexivity.
  - destruct (String.eqb_spec k k') as [->|Hne]; simpl.
    + rewrite String.eqb_refl. reflexivity.
    + apply String.eqb_neq in Hne. rewrite Hne. exact IH.
Qed.

Lemma assoc_dset_other {V : Type} (k k' : string) (v : V) (d : list (string * V)) :
  k' <> k -> assoc k' (dset k v d) = assoc k' d.
Proof.
  intros Hne. induction d as [|[k0 v0] r IH]; simpl.
  - apply String.eqb_neq in Hne. rewrite Hne. reflexivity.
  - destruct (String.eqb_spec k k0) as [->|Hk]; simpl.
    + apply String.eqb_neq in Hne. rewrite Hne. reflexivity.
    + destruct (String.eqb k' k0); [reflexivity | exact IH].
Qed.

Lemma get_or_empty_dset_same {V : Type} (k : string) (v : list V) (d : list (string * list V)) :
  get_or_empty k (dset k v d) = v.
Proof. unfold get_or_empty. rewrite assoc_dset_same. reflexivity. Qed.

Lemma key_eqb_refl (v : json) : hashable v = true -> key_eqb v v = true.
Proof.
  destruct v; simpl; intros H; try discriminate;
    first [reflexivity | apply Z.eqb_refl | apply String.eqb_refl].
Qed.

Lemma jassoc_jappend {C : Type} (k : json) (f : C) (d : list (json * list C)) :
  hashable k = true ->
  jassoc k (jappend k f d) =
  Some (match jassoc k d with Some l => l | None => [] end ++ [f]).
Proof.
  intros Hk. induction d as [|[k' fs] r IH]; simpl.
  - rewrite (key_eqb_refl k Hk). reflexivity.
  - destruct (key_eqb k k') eqn:E; simpl; rewrite ?E; [reflexivity | exact IH].
Qed.

Lemma key_eqb_spec (a b : json) :
  key_eqb a b = true <-> key_of a <> None /\ key_of a = key_of b.
Proof.
  destruct a as [|ba|za|sa|la|fa], b as [|bb|zb|sb|lb|fb];
    try destruct ba; try destruct bb; cbn [key_eqb key_num key_of];
    rewrite ?Z.eqb_eq, ?String.eqb_eq; split;
    try (intros H; discriminate H); try (intros [H1 H2]; congruence);
    try (intros H; split; congruence); try (intros [_ H]; congruence).
Qed.

Lemma key_eqb_sym (a b : json) : key_eqb a b = key_eqb b a.
Proof.
  destruct (key_eqb a b) eqn:E1, (key_eqb b a) eqn:E2; try reflexivity.
  - apply key_eqb_spec in E1. destruct E1 as [H1 H2].
    assert (key_eqb b a = true) by (apply key_eqb_spec; split; congruence). congruence.
  - apply key_eqb_spec in E2. destruct E2 as [H1 H2].
    assert (key_eqb a b = true) by (apply key_eqb_spec; split; congruence). congruence.
Qed.

Lemma key_eqb_trans (a b c : json) :
  key_eqb a b = true -> key_eqb b c = true -> key_eqb a c = true.
Proof.
  rewrite !key_eqb_spec. intros [H1 H2] [H3 H4]. split; congruence.
Qed.

(** [jappend] leaves the callbacks of a value that is not an equal key
    alone. *)
Lemma jassoc_jappend_other {C : Type} (k v : json) (f : C) (d : list (json * list C)) :
  key_eqb v k = false -> jassoc v (jappend k f d) = jassoc v d.
Proof.
  intros Hvk. induction d as [|[k' fs] r IH]; simpl.
  - rewrite Hvk. reflexivity.
  - destruct (key_eqb k k') eqn:E; simpl.
    + destruct (key_eqb v k') eqn:E'; [|reflexivity].
      rewrite key_eqb_sym in E. rewrite (key_eqb_trans _ _ _ E' E) in Hvk. discriminate.
    + destruct (key_eqb v k'); [reflexivity | exact IH].
Qed.

End DictFacts.

(** ** Registering callbacks (Router.add) *)

Module RouterAdd.

Import DictFacts.

(** C8 (as amended): [Router.add] with two or more attribute pairs raises
    [TypeError] and leaves the router unchanged; with no pair it succeeds,
    appends the callback to the shallow callbacks of the event type and
    changes nothing else; with one pair whose value is hashable it succeeds,
    appends the callback to the deep callbacks of that event type, key and
    value, and changes no other event type, no other key of that event type,
    no other value of that key and nothing in the shallow table; with one
    pair whose value is unhashable it raises [TypeError], after storing
    under the event type and key the callbacks found there before (an empty
    entry when there were none), changing nothing else. *)
Theorem add_attribute_arity {C : Type} (r : @Router C) (f : C) (et : string)
  (attrs : list (string * json)) :
  ((2 <= length attrs)%nat -> add r f et attrs = (Err TypeError, r)) /\
  (attrs = [] ->
     fst (add r f et attrs) = Ok tt /\
     get_or_empty et (_shallow_routes (snd (add r f et attrs)))
       = get_or_empty et (_shallow_routes r) ++ [f] /\
     (forall et', et' <> et ->
        assoc et' (_shallow_routes (snd (add r f et attrs))) = assoc et' (_shallow_routes r)) /\
     _deep_routes (snd (add r f et attrs)) = _deep_routes r) /\
  (forall k v, attrs = [(k, v)] -> hashable v = true ->
     fst (add r f et attrs) = Ok tt /\
     _shallow_routes (snd (add r f et attrs)) = _shallow_routes r /\
     jassoc v (get_or_empty k (get_or_empty et (_deep_routes (snd (add r f et attrs)))))
       = Some (match jassoc v (get_or_empty k (get_or_empty et (_deep_routes r))) with
               | Some l => l
               | None => []
               end ++ [f]) /\
     (forall et', et' <> et ->
        assoc et' (_deep_routes (snd (add r f et attrs))) = assoc et' (_deep_routes r)) /\
     (forall k', k' <> k ->
        assoc k' (get_or_empty et (_deep_routes (snd (add r f et attrs))))
        = assoc k' (get_or_empty et (_deep_routes r))) /\
     (forall v', key_eqb v' v = false ->
        jassoc v' (get_or_empty k (get_or_empty et (_deep_routes (snd (add r f et attrs)))))
        = jassoc v' (get_or_empty k (get_or_empty et (_deep_routes r))))) /\
  (forall k v, attrs = [(k, v)] -> hashable v = false ->
     fst (add r f et attrs) = Err TypeError /\
     _shallow_routes (snd (add r f et attrs)) = _shallow_routes r /\
     assoc k (get_or_empty et (_deep_routes (snd (add r f et attrs))))
       = Some (get_or_empty k (get_or_empty et (_deep_routes r))) /\
     (forall et', et' <> et ->
        assoc et' (_deep_routes (snd (add r f et attrs))) = assoc et' (_deep_routes r)) /\
     (forall k', k' <> k ->
        assoc k' (get_or_empty et (_deep_routes (snd (add r f et attrs))))
        = assoc k' (get_or_empty et (_deep_routes r)))).
Proof.
  split; [|split; [|split]].
  - destruct attrs as [|[k v] [|a rest]]; simpl; intros H; [lia | lia | reflexivity].
  - intros ->. cbn [add fst snd _shallow_routes _deep_routes].
    split; [reflexivity|]. split; [apply get_or_empty_dset_same|].
    split; [|reflexivity]. intros et' Hne. apply assoc_dset_other. exact Hne.
  - intros k v -> Hv. cbn [add]. rewrite Hv. cbn [fst snd _shallow_routes _deep_routes].
    split; [reflexivity|]. split; [reflexivity|].
    rewrite !get_or_empty_dset_same. split; [apply jassoc_jappend; exact Hv|].
    split; [|split].
    + intros et' Hne. apply assoc_dset_other. exact Hne.
    + intros k' Hne. apply assoc_dset_other. exact Hne.
    + intros v' Hv'. apply jassoc_jappend_other. exact Hv'.
  - intros k v -> Hv. cbn [add]. rewrite Hv. cbn [fst snd _shallow_routes _deep_routes].
    split; [reflexivity|]. split; [reflexivity|].
    rewrite get_or_empty_dset_same. split; [apply assoc_dset_same|].
    split.
    + intros et' Hne. apply assoc_dset_other. exact Hne.
    + intros k' Hne. apply assoc_dset_other. exact Hne.
Qed.

Lemma add_attribute_arity_witness :
  add (Router_init (Callback := Z)) 7 "Issue Hook"
      [("action", JStr "open"); ("state", JStr "opened")]
  = (Err TypeError, Router_init) /\
  jassoc (JStr "open")
    (get_or_empty "action"
       (get_or_empty "Issue Hook"
          (_deep_routes (snd (add (Router_init (Callback := Z)) 7 "Issue Hook"
                                  [("action", JStr "open")])))))
  = Some [7].
Proof.
  split.
  - apply (proj1 (add_attribute_arity Router_init 7 "Issue Hook"
                    [("action", JStr "open"); ("state", JStr "opened")])).
    simpl. lia.
  - destruct (proj1 (proj2 (proj2 (add_attribute_arity (Router_init (Callback := Z))
                7 "Issue Hook" [("action", JStr "open")]))) "action" (JStr "open")
                eq_refl eq_refl) as (_ & _ & H & _).
    exact H.
Defined.

(** C8 counterexample: one attribute pair whose value is a list (not
    hashable) makes [Router.add] raise [TypeError], after its
    [setdefault]s have added an empty entry for the event type and key. *)
Lemma add_unhashable_cex :
  add (Router_init (Callback := Z)) 7 "Issue Hook" [("labels", JArr [JStr "bug"])]
  = (Err TypeError, mkRouter [] [("Issue Hook", [("labels", [])])]).
Proof. reflexivity. Qed.

End RouterAdd.

(** ** Dispatching events (Router.dispatch) *)

Module RouterDispatch.

Import DictFacts.

Lemma jlookup_jappend {C : Type} (value v0 : json) (f : C) (d : list (json * list C)) :
  jlookup value (jappend v0 f d)
  = if key_eqb value v0 then jlookup value d ++ [f] else jlookup value d.
Proof.
  unfold jlookup. induction d as [|[k' fs] r IH]; simpl.
  - destruct (key_eqb value v0); reflexivity.
  - destruct (key_eqb v0 k') eqn:E0; simpl.
    + destruct (key_eqb value v0) eqn:E1.
      * rewrite (key_eqb_trans _ _ _ E1 E0). reflexivity.
      * destruct (key_eqb value k') eqn:E2; [|reflexivity].
        rewrite key_eqb_sym in E0.
        rewrite (key_eqb_trans _ _ _ E2 E0) in E1. discriminate.
    + destruct (key_eqb value k') eqn:E2.
      * destruct (key_eqb value v0) eqn:E1; [|reflexivity].
        rewrite key_eqb_sym in E1.
        rewrite (key_eqb_trans _ _ _ E1 E2) in E0. discriminate.
      * exact IH.
Qed.

Lemma get_or_empty_dset {V : Type} (k k' : string) (v : list V) (d : list (string * list V)) :
  get_or_empty k' (dset k v d) = if String.eqb k' k then v else get_or_empty k' d.
Proof.
  destruct (String.eqb_spec k' k) as [->|Hne].
  - apply get_or_empty_dset_same.
  - unfold get_or_empty. rewrite assoc_dset_other by exact Hne. reflexivity.
Qed.

Lemma mem_keys {V : Type} (k : string) (d : list (string * V)) :
  mem k d = existsb (String.eqb k) (map fst d).
Proof.
  unfold mem. induction d as [|[k' v'] r IH]; simpl; [reflexivity|].
  destruct (String.eqb k k'); [reflexivity | exact IH].
Qed.

Lemma keys_dset {V : Type} (k : string) (v : V) (d : list (string * V)) :
  map fst (dset k v d) = if mem k d then map fst d else map fst d ++ [k].
Proof.
  rewrite mem_keys. induction d as [|[k' v'] r IH]; simpl; [reflexivity|].
  destruct (String.eqb_spec k k') as [->|Hne]; simpl; [reflexivity|].
  rewrite IH. destruct (existsb (String.eqb k) (map fst r)); reflexivity.
Qed.

Lemma add_all_app {C : Type} (r : @Router C) (l1 l2 : list registration) :
  add_all r (l1 ++ l2) = add_all (add_all r l1) l2.
Proof.
  revert r. induction l1 as [|[[f et] attrs] rest IH]; intros r; simpl; [reflexivity|].
  apply IH.
Qed.

Lemma deep_keys_snoc {C : Type} (et : string) (regs : list (registration (Callback := C)))
  (x : C * string * list (string * json)) :
  deep_keys et (regs ++ @cons (C * string * list (string * json)) x nil)
  = deep_key_step et (deep_keys et regs) x.
Proof. unfold deep_keys. rewrite fold_left_app. reflexivity. Qed.

Lemma deep_keys_nodup_from {C : Type} (et : string) (regs : list (registration (Callback := C)))
  (ks : list string) :
  NoDup ks -> NoDup (fold_left (deep_key_step et) regs ks).
Proof.
  revert ks. induction regs as [|[[f et'] attrs] rest IH]; intros ks Hks; simpl; [exact Hks|].
  apply IH. destruct attrs as [|[k v] [|a l]]; simpl; try exact Hks.
  destruct (String.eqb et' et && negb (existsb (String.eqb k) ks)) eqn:E; [|exact Hks].
  apply andb_prop in E. destruct E as [_ E]. apply negb_true_iff in E.
  apply NoDup_app; [exact Hks | constructor; [intros [] | constructor] |].
  intros y Hy [<-|[]]. apply Bool.not_true_iff_false in E. apply E.
  apply existsb_exists. exists k. split; [exact Hy | apply String.eqb_refl].
Qed.

Lemma filter_snoc {A : Type} (p : A -> bool) (l : list A) (x : A) :
  filter p (l ++ [x]) = filter p l ++ (if p x then [x] else []).
Proof. rewrite filter_app. simpl. destruct (p x); reflexivity. Qed.

Lemma tables_match_init {C : Type} : tables_match (Router_init (Callback := C)) [].
Proof. repeat split. Qed.

Ltac eqb_cases :=
  repeat match goal with
         | |- context [String.eqb ?a ?b] => destruct (String.eqb_spec a b); subst
         end.

Lemma tables_match_add {C : Type} (R : @Router C) (regs : list registration)
  (f : C) (et0 : string) (attrs : list (string * json)) :
  valid_registration (f, et0, attrs) = true ->
  tables_match R regs -> tables_match (snd (add R f et0 attrs)) (regs ++ [(f, et0, attrs)]).
Proof.
  intros Hv (HS & HK & HV). unfold tables_match.
  destruct attrs as [|[k0 v0] [|a l]].
  - cbn -[deep_keys]. split; [|split].
    + intros et. rewrite get_or_empty_dset, filter_snoc, map_app, <- HS. cbn [shallow_for].
      eqb_cases; simpl; rewrite ?app_nil_r; congruence.
    + intros et. rewrite deep_keys_snoc, <- HK. reflexivity.
    + intros et k value. rewrite filter_snoc, map_app, <- HV. cbn [deep_for].
      rewrite andb_false_r. simpl. rewrite app_nil_r. reflexivity.
  - simpl in Hv. cbn [add]. rewrite Hv. cbn -[deep_keys]. split; [|split].
    + intros et. rewrite filter_snoc, map_app, <- HS. cbn [shallow_for].
      rewrite andb_false_r. simpl. rewrite app_nil_r. reflexivity.
    + intros et. rewrite deep_keys_snoc, <- HK. cbn [deep_key_step].
      rewrite get_or_empty_dset. eqb_cases; simpl; try congruence.
      rewrite keys_dset, mem_keys. destruct (existsb _ _); reflexivity.
    + intros et k value. rewrite filter_snoc, map_app, <- HV. cbn [deep_for].
      rewrite get_or_empty_dset. eqb_cases; simpl; try (rewrite ?app_nil_r; congruence).
      all: rewrite ?get_or_empty_dset; eqb_cases; simpl;
        rewrite ?jlookup_jappend, ?app_nil_r; try congruence.
      all: destruct (key_eqb value v0); simpl; rewrite ?app_nil_r; reflexivity.
  - cbn -[deep_keys]. split; [|split].
    + intros et. rewrite filter_snoc, map_app, <- HS. cbn [shallow_for].
      rewrite andb_false_r. simpl. rewrite app_nil_r. reflexivity.
    + intros et. rewrite deep_keys_snoc, <- HK. reflexivity.
    + intros et k value. rewrite filter_snoc, map_app, <- HV. cbn [deep_for].
      rewrite andb_false_r. simpl. rewrite app_nil_r. reflexivity.
Qed.

Lemma tables_match_add_all {C : Type} (regs : list (registration (Callback := C))) :
  forallb valid_registration regs = true -> tables_match (add_all Router_init regs) regs.
Proof.
  induction regs as [|x regs IH] using rev_ind; intros Hv.
  - apply tables_match_init.
  - rewrite forallb_app in Hv. apply andb_prop in Hv. destruct Hv as [Hv Hx].
    rewrite add_all_app. destruct x as [[f et0] attrs]. simpl.
    simpl in Hx. rewrite andb_true_r in Hx.
    apply tables_match_add; [exact Hx | apply IH; exact Hv].
Qed.

Lemma collect_deep_eval {C : Type} (ev : Event) (oa : list (string * json))
  (details : list (string * list (json * list C))) :
  object_attributes ev = Ok (JObj oa) ->
  (forall k x, In k (map fst details) -> assoc k oa = Some x -> hashable x = true) ->
  collect_deep ev details =
  Ok (concat (map (fun kd => match assoc (fst kd) oa with
                             | Some x => jlookup x (snd kd)
                             | None => []
                             end) details)).
Proof.
  intros Hoa Hh. induction details as [|[k dvs] rest IH]; simpl; [reflexivity|].
  assert (IH' : collect_deep ev rest =
                Ok (concat (map (fun kd => match assoc (fst kd) oa with
                                           | Some x => jlookup x (snd kd)
                                           | None => []
                                           end) rest))).
  { apply IH. intros k' x Hk' Hx. apply (Hh k' x); [right; exact Hk' | exact Hx]. }
  rewrite Hoa. simpl. unfold mem. destruct (assoc k oa) as [x|] eqn:Ex; simpl.
  - rewrite (Hh k x (or_introl eq_refl) Ex). simpl.
    rewrite IH'. reflexivity.
  - rewrite IH'. reflexivity.
Qed.

Lemma map_by_keys {V W : Type} (g : string -> list V -> W) (d : list (string * list V)) :
  NoDup (map fst d) ->
  map (fun kd => g (fst kd) (snd kd)) d = map (fun k => g k (get_or_empty k d)) (map fst d).
Proof.
  induction d as [|[k v] r IH]; simpl; intros Hnd; [reflexivity|].
  inversion Hnd as [|? ? Hk Hr]; subst. f_equal.
  - unfold get_or_empty. simpl. rewrite String.eqb_refl. reflexivity.
  - rewrite IH by exact Hr. apply map_ext_in. intros k' Hk'.
    unfold get_or_empty. simpl.
    destruct (String.eqb_spec k' k) as [->|_]; [contradiction | reflexivity].
Qed.

Lemma run_callbacks_all_ok {C A : Type} (call : C -> Event -> list A -> res unit)
  (cbs : list C) (ev : Event) (args : list A) :
  (forall f, call f ev args = Ok tt) ->
  run_callbacks call cbs ev args = (map (fun f => (f, ev, args)) cbs, Ok tt).
Proof.
  intros H. induction cbs as [|f rest IH]; simpl; [reflexivity|].
  rewrite H, IH. reflexivity.
Qed.

Lemma found_callbacks_add_all {C : Type} (regs : list (registration (Callback := C)))
  (ev : Event) (oa : list (string * json)) :
  forallb valid_registration regs = true ->
  object_attributes ev = Ok (JObj oa) ->
  (forall k x, In k (deep_keys (event ev) regs) -> assoc k oa = Some x -> hashable x = true) ->
  found_callbacks (add_all Router_init regs) ev = Ok (grouped_dispatch_order regs (event ev) oa).
Proof.
  intros Hv Hoa Hh. destruct (tables_match_add_all regs Hv) as (HS & HK & HV).
  unfold found_callbacks, grouped_dispatch_order. rewrite HS.
  specialize (HK (event ev)). specialize (HV (event ev)).
  destruct (assoc (event ev) (_deep_routes (add_all Router_init regs))) as [details|] eqn:E;
    unfold get_or_empty at 2 in HV; rewrite E in HV;
    assert (HD : get_or_empty (event ev) (_deep_routes (add_all Router_init regs))
                 = match assoc (event ev) (_deep_routes (add_all Router_init regs)) with
                   | Some l => l
                   | None => []
                   end) by reflexivity;
    rewrite E in HD; rewrite HD in HK.
  - rewrite (collect_deep_eval ev oa details Hoa) by (rewrite HK; exact Hh). simpl.
    do 2 f_equal.
    rewrite (map_by_keys (fun k dvs => match assoc k oa with
                                       | Some x => jlookup x dvs
                                       | None => []
                                       end) details)
      by (rewrite HK; apply deep_keys_nodup_from; constructor).
    rewrite HK. f_equal. apply map_ext. intros k. destruct (assoc k oa) as [x|]; [apply HV | reflexivity].
  - simpl in HK. rewrite <- HK. simpl. rewrite app_nil_r. reflexivity.
Qed.

Lemma filter_none {A : Type} (p : A -> bool) (l : list A) :
  (forall x, In x l -> p x = false) -> filter p l = [].
Proof.
  induction l as [|x r IH]; simpl; intros H; [reflexivity|].
  rewrite (H x (or_introl eq_refl)). apply IH. intros y Hy. apply H. right. exact Hy.
Qed.

Lemma deep_keys_none {C : Type} (et : string) (regs : list (registration (Callback := C)))
  (ks : list string) :
  (forall f et' attrs, In (f, et', attrs) regs -> et' <> et) ->
  fold_left (deep_key_step et) regs ks = ks.
Proof.
  revert ks. induction regs as [|[[f et'] attrs] rest IH]; intros ks H; [reflexivity|].
  cbn [fold_left].
  assert (Hne : String.eqb et' et = false)
    by (apply String.eqb_neq; apply (H f et' attrs); left; reflexivity).
  assert (Hs : deep_key_step et ks (f, et', attrs) = ks)
    by (destruct attrs as [|[k v] [|a l]]; simpl; rewrite ?Hne; reflexivity).
  rewrite Hs. apply IH. intros f0 et0 a0 Hin. apply (H f0 et0 a0). right. exact Hin.
Qed.

Lemma found_callbacks_unregistered {C : Type} (regs : list (registration (Callback := C)))
  (ev : Event) :
  forallb valid_registration regs = true ->
  (forall f et' attrs, In (f, et', attrs) regs -> et' <> event ev) ->
  found_callbacks (add_all Router_init regs) ev = Ok [].
Proof.
  intros Hv Hno. destruct (tables_match_add_all regs Hv) as (HS & HK & _).
  unfold found_callbacks. rewrite HS.
  rewrite filter_none.
  2:{ intros [[f et'] attrs] Hin. simpl.
      rewrite (proj2 (String.eqb_neq et' (event ev)) (Hno f et' attrs Hin)). reflexivity. }
  specialize (HK (event ev)). unfold deep_keys in HK.
  rewrite deep_keys_none in HK by exact Hno.
  unfold get_or_empty in HK.
  destruct (assoc (event ev) (_deep_routes (add_all Router_init regs))) as [details|];
    [|reflexivity].
  destruct details as [|d ds]; [reflexivity | discriminate HK].
Qed.

(** C4 (as amended): for a router built by [add] calls on a fresh router,
    where every single attribute value registered is hashable, and every
    event: if no registration names the event's type, [dispatch] awaits
    nothing and raises nothing; if the event data is a dict whose
    [object_attributes] is absent or a dict [oa], the values of [oa] at the
    keys registered for the event type are hashable, and every callback
    returns normally, [dispatch] awaits, each with the event and the extra
    arguments unmodified, the shallow callbacks of the event type in
    registration order, then for each attribute key registered for the event
    type, in the order of the key's first registration, and present in [oa],
    the callbacks registered for that key and a value equal to [oa]'s value,
    in registration order; and it raises nothing. *)
Theorem dispatch_grouped_order {C A : Type} (call : C -> Event -> list A -> res unit)
  (regs : list (registration (Callback := C))) (ev : Event) (args : list A) :
  forallb valid_registration regs = true ->
  ((forall f et' attrs, In (f, et', attrs) regs -> et' <> event ev) ->
     dispatch call (add_all Router_init regs) ev args = ([], Ok tt)) /\
  (forall oa, object_attributes ev = Ok (JObj oa) ->
     (forall k x, In k (deep_keys (event ev) regs) -> assoc k oa = Some x -> hashable x = true) ->
     (forall f, call f ev args = Ok tt) ->
     dispatch call (add_all Router_init regs) ev args
     = (map (fun f => (f, ev, args)) (grouped_dispatch_order regs (event ev) oa), Ok tt)).
Proof.
  intros Hv. split.
  - intros Hno. unfold dispatch. rewrite found_callbacks_unregistered by assumption.
    reflexivity.
  - intros oa Hoa Hh Hcall. unfold dispatch.
    rewrite (found_callbacks_add_all regs ev oa Hv Hoa Hh).
    apply run_callbacks_all_ok. exact Hcall.
Qed.

Lemma dispatch_grouped_order_witness :
  dispatch (fun (_ : Z) (_ : Event) (_ : list Z) => Ok tt)
    (add_all Router_init issue_registrations) issue_event [42]
  = ([(1, issue_event, [42]); (3, issue_event, [42]); (2, issue_event, [42])], Ok tt).
Proof.
  rewrite (proj2 (dispatch_grouped_order (fun (_ : Z) (_ : Event) (_ : list Z) => Ok tt)
                    issue_registrations issue_event [42] eq_refl)
             [("action", JStr "open"); ("state", JStr "opened")] eq_refl).
  - reflexivity.
  - intros k x _ Hx. simpl in Hx.
    destruct (String.eqb k "action"); [|destruct (String.eqb k "state")];
      (injection Hx as <- || discriminate Hx); reflexivity.
  - reflexivity.
Defined.

(** C4 counterexample: callbacks 1, 2 and 3 registered for [action=open],
    [state=opened] and [action=open] on one event type, and an event
    matching all three: [dispatch] awaits 1, 3, 2, while registration order
    (the claim's order) is 1, 2, 3. *)
Lemma dispatch_order_cex :
  map (fun c => let '(f, _, _) := c in f)
    (fst (dispatch (fun (_ : Z) (_ : Event) (_ : list Z) => Ok tt)
            (add_all Router_init issue_registrations) issue_event []))
  = [1; 3; 2] /\
  spec_dispatch_order issue_registrations "Issue Hook"
    [("action", JStr "open"); ("state", JStr "opened")]
  = [1; 2; 3].
Proof. split; reflexivity. Qed.

End RouterDispatch.

(** ** Responses that raise (decipher_response) *)

Module Decipher.

(** C6 failing inputs: a 422 response with an empty body (so the decoded
    body is [None]) raises [AttributeError] from [data.get("errors")]; a
    422 response whose JSON body has neither [errors] nor [message] raises
    [KeyError] from [data["message"]]; neither is an [HTTPException]. *)
Theorem decipher_422_empty_body (L : pylib) (now : Q) (h : headers) :
  decipher_response L now 422 h "" = Err AttributeError /\
  decipher_response CPython.lib now 422 [("content-type", "application/json")]
    ("{" +++ dquote +++ "x" +++ dquote +++ ": 1}") = Err KeyError.
Proof.
  split.
  - unfold decipher_response. rewrite EventProps.decode_body_empty. reflexivity.
  - vm_compute. reflexivity.
Qed.

End Decipher.

(** ** The cache of the request orchestrator (GitLabAPI._make_request) *)

Module Cache.

Lemma preserves_err {A : Type} (m : M A) : preserves m -> err_preserves m.
Proof. intros H s e _. apply H. Qed.

Lemma preserves_bind {A B : Type} (m : M A) (k : A -> M B) :
  preserves m -> (forall a, preserves (k a)) -> preserves (mbind m k).
Proof.
  intros Hm Hk s. unfold mbind. specialize (Hm s).
  destruct (m s) as [[a|e] s'] eqn:E; simpl in *; [rewrite Hk|]; exact Hm.
Qed.

Lemma err_preserves_bind {A B : Type} (m : M A) (k : A -> M B) :
  preserves m -> (forall a, err_preserves (k a)) -> err_preserves (mbind m k).
Proof.
  intros Hm Hk s e. unfold mbind. specialize (Hm s).
  destruct (m s) as [[a|e'] s'] eqn:E; simpl in *.
  - intros H. rewrite (Hk a s' e H). exact Hm.
  - intros _. exact Hm.
Qed.

Lemma err_preserves_bind_total {A B : Type} (m : M A) (k : A -> M B) :
  err_preserves m -> (forall a, never_fails (k a)) -> err_preserves (mbind m k).
Proof.
  intros Hm Hk s e. unfold mbind.
  destruct (m s) as [[a|e'] s'] eqn:E; simpl.
  - destruct (Hk a s') as [b Hb]. rewrite Hb. discriminate.
  - intros _. specialize (Hm s e'). rewrite E in Hm. apply Hm. reflexivity.
Qed.

Lemma preserves_ret {A : Type} (a : A) : preserves (ret a).
Proof. intros s. reflexivity. Qed.

Lemma never_fails_ret {A : Type} (a : A) : never_fails (ret a).
Proof. intros s. exists a. reflexivity. Qed.

Lemma preserves_lift {A : Type} (r : res A) : preserves (lift r).
Proof. intros s. reflexivity. Qed.

Lemma preserves_get_state : preserves get_state.
Proof. intros s. reflexivity. Qed.

Lemma preserves_set_rate_limit (r : option RateLimit) : preserves (set_rate_limit r).
Proof. intros s. reflexivity. Qed.

Lemma preserves_cache_get (u : string) : preserves (cache_get u).
Proof. intros s. unfold cache_get. destruct (cache s) eqn:E; simpl; congruence. Qed.

Lemma preserves_request (rq : request) : preserves (_request rq).
Proof. intros s. unfold _request. destruct (pending s); reflexivity. Qed.

Lemma err_preserves_cache_set (u : string) (en : cache_entry) : err_preserves (cache_set u en).
Proof.
  intros s e. unfold cache_set. destruct (cache s) eqn:E; simpl; intros H; [discriminate H | congruence].
Qed.

Create HintDb cache_frame.
#[local] Hint Resolve preserves_ret preserves_lift preserves_get_state preserves_set_rate_limit
  preserves_cache_get preserves_request never_fails_ret preserves_err
  err_preserves_cache_set : cache_frame.

Ltac frame_pres :=
  cbv beta iota zeta;
  match goal with
  | |- preserves (mbind _ _) => apply preserves_bind; [frame_pres | intros ?; frame_pres]
  | |- preserves (match ?x with _ => _ end) => destruct x; frame_pres
  | |- preserves _ => eauto with cache_frame
  end.

Ltac frame_err :=
  cbv beta iota zeta;
  match goal with
  | |- err_preserves (mbind _ _) =>
      first [ apply err_preserves_bind; [solve [frame_pres] | intros ?; frame_err]
            | apply err_preserves_bind_total; [frame_err | intros ?; apply never_fails_ret] ]
  | |- err_preserves (match ?x with _ => _ end) => destruct x; frame_err
  | |- err_preserves _ => first [ apply err_preserves_cache_set | apply preserves_err; frame_pres ]
  end.

(** A failed [_make_request] leaves the cache as it found it. *)
Lemma make_request_err_preserves (L : pylib) (now : Q) (api : GitLabAPI) (method url : string)
  (params : list (string * string)) (data : req_data) :
  err_preserves (_make_request L now api method url params data).
Proof. unfold _make_request, prepare_request, store_response. frame_err. Qed.

(** C7: whenever [_make_request] raises (in particular when
    [decipher_response] raises a typed HTTP exception for the response), the
    cache mapping after the call is the one before it: no entry is added,
    overwritten or removed. *)
Theorem make_request_error_keeps_cache (L : pylib) (now : Q) (api : GitLabAPI)
  (method url : string) (params : list (string * string)) (data : req_data) (s : state)
  (e : exn) :
  fst (_make_request L now api method url params data s) = Err e ->
  cache (snd (_make_request L now api method url params data s)) = cache s.
Proof. apply make_request_err_preserves. Qed.

Lemma make_request_error_keeps_cache_witness :
  fst (_make_request CPython.lib 0 sample_api "GET" "projects" [] NoData
         (sample_state [mkResponse 404 [("etag", "def")] ""]))
  = Err (HTTPError BadRequest 404 None) /\
  cache (snd (_make_request CPython.lib 0 sample_api "GET" "projects" [] NoData
                (sample_state [mkResponse 404 [("etag", "def")] ""])))
  = cache (sample_state [mkResponse 404 [("etag", "def")] ""]).
Proof.
  split.
  - vm_compute. reflexivity.
  - apply (make_request_error_keeps_cache CPython.lib 0 sample_api "GET" "projects" [] NoData
             (sample_state [mkResponse 404 [("etag", "def")] ""]) (HTTPError BadRequest 404 None)).
    vm_compute. reflexivity.
Defined.

End Cache.

(** ** Reading and writing the cache (GitLabAPI._make_request) *)

Module CacheUse.

Import DictFacts.

Lemma log_grows_bind {A B : Type} (m : M A) (k : A -> M B) :
  log_grows m -> (forall a, log_grows (k a)) -> log_grows (mbind m k).
Proof.
  intros Hm Hk s. unfold mbind. destruct (Hm s) as [t Ht].
  destruct (m s) as [[a|e] s'] eqn:E; simpl in *.
  - destruct (Hk a s') as [t' Ht']. exists (t ++ t'). rewrite Ht', Ht, app_assoc. reflexivity.
  - exists t. exact Ht.
Qed.

Lemma log_grows_preserving {A : Type} (m : M A) :
  (forall s, cache_log (snd (m s)) = cache_log s) -> log_grows m.
Proof. intros H s. exists []. rewrite app_nil_r. apply H. Qed.

Lemma log_grows_cache_get (u : string) : log_grows (cache_get u).
Proof.
  intros s. unfold cache_get. destruct (cache s); simpl; [eexists; reflexivity|].
  exists []. rewrite app_nil_r. reflexivity.
Qed.

Lemma log_grows_cache_set (u : string) (en : cache_entry) : log_grows (cache_set u en).
Proof.
  intros s. unfold cache_set. destruct (cache s); simpl; [eexists; reflexivity|].
  exists []. rewrite app_nil_r. reflexivity.
Qed.

Ltac log_frame :=
  cbv beta iota zeta;
  match goal with
  | |- log_grows (mbind _ _) => apply log_grows_bind; [log_frame | intros ?; log_frame]
  | |- log_grows (match ?x with _ => _ end) => destruct x; log_frame
  | |- log_grows (cache_get _) => apply log_grows_cache_get
  | |- log_grows (cache_set _ _) => apply log_grows_cache_set
  | |- log_grows _ =>
      apply log_grows_preserving; intros ?;
      unfold ret, lift, get_state, set_rate_limit, _request;
      repeat match goal with |- context [match ?x with _ => _ end] => destruct x end;
      reflexivity
  end.

Lemma store_response_log_grows (L : pylib) (now : Q) (u : string) (cacheable : bool)
  (resp : response) : log_grows (store_response L now u cacheable resp).
Proof. unfold store_response. log_frame. Qed.

(** A request that is not cache-eligible prepares no cached value, is not
    [cacheable], and leaves the state alone. *)
Lemma prepare_not_eligible (L : pylib) (api : GitLabAPI) (method u : string) (data : req_data)
  (s : state) :
  cache_eligible method data s = false ->
  exists b h, prepare_request L api method u data s = (Ok (b, h, false, None), s).
Proof.
  unfold cache_eligible, is_no_data, cache_configured, prepare_request, mbind, get_state, ret.
  intros Hne. destruct data as [|j]; cbn in Hne |- *.
  - rewrite !andb_true_r in Hne. rewrite Hne. eexists; eexists; reflexivity.
  - eexists; eexists; reflexivity.
Qed.

(** A cache-eligible request reads the cache entry of its URL once, and
    sends the validators of a stored entry. *)
Lemma prepare_eligible (L : pylib) (api : GitLabAPI) (method u : string) (data : req_data)
  (s : state) (c : list (string * cache_entry)) :
  cache_eligible method data s = true -> cache s = Some c ->
  exists h cached,
    prepare_request L api method u data s
    = (Ok ("", h, true, cached),
       mkState (cache s) (rate_limit s) (pending s) (sent s) (cache_log s ++ [CacheGet u])
               (yielded s)) /\
    (assoc u c = None -> cached = None) /\
    (forall etag lm d m, assoc u c = Some (etag, lm, d, m) ->
       cached = Some (d, m) /\
       (forall e, etag = Some e -> hget "if-none-match" h = Some e) /\
       (forall l, lm = Some l -> hget "if-modified-since" h = Some l)).
Proof.
  unfold cache_eligible, is_no_data, cache_configured, prepare_request, mbind, get_state, ret,
    cache_get.
  intros He Hc. rewrite Hc in He.
  destruct data as [|j]; cbn in He; [|rewrite andb_false_r in He; discriminate].
  rewrite !andb_true_r in He. cbn. rewrite He, Hc. cbn. rewrite Hc. cbn.
  destruct (assoc u c) as [[[[etag lm] d] m]|] eqn:Ea.
  - eexists; eexists; split; [reflexivity|]. split; [discriminate|].
    intros etag' lm' d' m' Heq. injection Heq as <- <- <- <-. split; [reflexivity|].
    unfold hget. split.
    + intros e ->. destruct lm as [l|].
      * rewrite assoc_dset_other by discriminate. apply assoc_dset_same.
      * apply assoc_dset_same.
    + intros l ->. apply assoc_dset_same.
  - eexists; eexists; split; [reflexivity|]. split; [reflexivity | discriminate].
Qed.


Lemma mbind_Ok {A B : Type} (m : M A) (k : A -> M B) (s : state) (a : A) (s' : state) :
  m s = (Ok a, s') -> mbind m k s = k a s'.
Proof. intros H. unfold mbind. rewrite H. reflexivity. Qed.

Lemma mbind_Err {A B : Type} (m : M A) (k : A -> M B) (s : state) (e : exn) (s' : state) :
  m s = (Err e, s') -> mbind m k s = (Err e, s').
Proof. intros H. unfold mbind. rewrite H. reflexivity. Qed.

(** [store_response] never touches the transport. *)
Lemma store_response_sent (L : pylib) (now : Q) (u : string) (cb : bool) (resp : response)
  (s : state) : sent (snd (store_response L now u cb resp s)) = sent s.
Proof.
  unfold store_response, mbind, lift, set_rate_limit, get_state, ret, cache_set.
  destruct (decipher_response _ _ _ _ _) as [[[d rl] more]|e]; cbn; [|reflexivity].
  destruct (_ && _ && _); cbn; [destruct (cache s)|]; reflexivity.
Qed.

(** Without [cacheable], [store_response] neither reads nor writes the cache. *)
Lemma store_response_not_cacheable (L : pylib) (now : Q) (u : string) (resp : response)
  (s : state) :
  cache (snd (store_response L now u false resp s)) = cache s /\
  cache_log (snd (store_response L now u false resp s)) = cache_log s.
Proof.
  unfold store_response, mbind, lift, set_rate_limit, get_state, ret, cache_set.
  destruct (decipher_response _ _ _ _ _) as [[[d rl] more]|e]; cbn;
    [rewrite !andb_false_r|]; split; reflexivity.
Qed.

(** A cacheable, successfully deciphered response carrying a validator
    overwrites the cache entry of its URL. *)
Lemma store_response_store (L : pylib) (now : Q) (u : string) (resp : response)
  (s : state) (c : list (string * cache_entry)) d rl more :
  cache s = Some c ->
  (mem "etag" (rs_headers resp) || mem "last-modified" (rs_headers resp)) = true ->
  decipher_response L now (rs_status resp) (rs_headers resp) (rs_body resp) = Ok (d, rl, more) ->
  cache (snd (store_response L now u true resp s))
  = Some (dset u (hget "etag" (rs_headers resp), hget "last-modified" (rs_headers resp), d, more) c).
Proof.
  intros Hc Hm Hd.
  unfold store_response.
  rewrite (mbind_Ok _ _ s (d, rl, more) s) by (unfold lift; rewrite Hd; reflexivity).
  cbv beta iota.
  erewrite mbind_Ok by reflexivity. erewrite mbind_Ok by reflexivity.
  cbn. rewrite Hc, Hm. cbn.
  unfold mbind, cache_set, ret. cbn. rewrite ?Hc. reflexivity.
Qed.

(** [_make_request] after the URL is resolved and the request prepared:
    the rate limit is decremented, the request is sent, and the response is
    either the cached value (a [304] on a cache hit) or deciphered. *)
Lemma make_request_shape (L : pylib) (now : Q) (api : GitLabAPI) (method url : string)
  (params : list (string * string)) (data : req_data) (s : state) (u b : string) (h : headers)
  (cb : bool) (cached : option (json * option string)) (s1 : state) :
  format_url L api url params = Ok u ->
  prepare_request L api method u data s = (Ok (b, h, cb, cached), s1) ->
  let s2 := mkState (cache s1) (option_map decrement (rate_limit s1)) (tl (pending s1))
                    (sent s1 ++ [mkRequest method u h b]) (cache_log s1) (yielded s1) in
  _make_request L now api method url params data s =
  match pending s1 with
  | [] => (Err TransportError, s2)
  | resp :: _ =>
      match cached with
      | Some (cd, cm) =>
          if rs_status resp =? 304 then (Ok (cd, cm), s2) else store_response L now u cb resp s2
      | None => store_response L now u cb resp s2
      end
  end.
Proof.
  intros Hu Hp s2. unfold _make_request.
  rewrite (mbind_Ok _ _ s u s) by (unfold lift; rewrite Hu; reflexivity).
  rewrite (mbind_Ok _ _ _ _ _ Hp). cbv beta iota.
  rewrite (mbind_Ok _ _ s1 s1 s1) by reflexivity.
  unfold s2; clear s2.
  destruct (rate_limit s1) as [r|] eqn:Er;
    (erewrite mbind_Ok by reflexivity); unfold _request at 1; cbn;
    (destruct (pending s1) as [|resp rest] eqn:Ep;
    [ erewrite mbind_Err by (cbn; rewrite ?Ep; reflexivity); cbn; rewrite ?Er; reflexivity
    | erewrite mbind_Ok by (cbn; rewrite ?Ep; reflexivity); cbn; rewrite ?Er;
      destruct cached as [[cd cm]|]; [destruct (_ =? 304)|]; reflexivity ]).
Qed.


(** C2: with a configured cache, and the URL resolved to [u]:
    - a request is cache-eligible exactly when it is a [GET] without a body;
    - a cache-eligible request reads the cache entry of [u] first;
    - on a cache-eligible request whose URL has a stored entry, the one
      request sent to the transport goes to [u] with [if-none-match] set
      to the stored etag (when not [None]) and [if-modified-since] to the
      stored last-modified (when not [None]);
    - on a cache-eligible request, a deciphered [200] response carrying an
      [etag] or [last-modified] header overwrites the cache entry of [u]
      with (etag, last-modified, decoded payload, next page);
    - a request that is not cache-eligible neither reads nor writes the
      cache. *)
Theorem make_request_cache_use (L : pylib) (now : Q) (api : GitLabAPI) (method url : string)
  (params : list (string * string)) (data : req_data) (s : state) (u : string)
  (c : list (string * cache_entry)) :
  format_url L api url params = Ok u ->
  cache s = Some c ->
  cache_eligible method data s = String.eqb method "GET" && is_no_data data /\
  (cache_eligible method data s = true ->
   exists t, cache_log (snd (_make_request L now api method url params data s))
             = cache_log s ++ CacheGet u :: t) /\
  (cache_eligible method data s = true ->
   forall etag lm d m, assoc u c = Some (etag, lm, d, m) ->
   exists rq, sent (snd (_make_request L now api method url params data s)) = sent s ++ [rq] /\
     rq_method rq = method /\ rq_url rq = u /\
     (forall e, etag = Some e -> hget "if-none-match" (rq_headers rq) = Some e) /\
     (forall l, lm = Some l -> hget "if-modified-since" (rq_headers rq) = Some l)) /\
  (cache_eligible method data s = true ->
   forall resp rest d rl more, pending s = resp :: rest -> rs_status resp = 200 ->
   (mem "etag" (rs_headers resp) || mem "last-modified" (rs_headers resp)) = true ->
   decipher_response L now 200 (rs_headers resp) (rs_body resp) = Ok (d, rl, more) ->
   cache (snd (_make_request L now api method url params data s))
   = Some (dset u (hget "etag" (rs_headers resp), hget "last-modified" (rs_headers resp),
                   d, more) c)) /\
  (cache_eligible method data s = false ->
   cache_log (snd (_make_request L now api method url params data s)) = cache_log s /\
   cache (snd (_make_request L now api method url params data s)) = cache s).
Proof.
  intros Hu Hc.
  split; [unfold cache_eligible, cache_configured; rewrite Hc; apply andb_true_r|].
  destruct (cache_eligible method data s) eqn:He.
  - destruct (prepare_eligible L api method u data s c He Hc)
      as (h & cached & Hp & Hmiss & Hhit).
    rewrite (make_request_shape L now api method url params data s u "" h true cached _ Hu Hp).
    cbn -[store_response].
    split; [|split; [|split]].
    + intros _.
      destruct (pending s) as [|resp rest]; cbn -[store_response].
      * eexists; reflexivity.
      * match goal with |- context [store_response L now u true resp ?s2] =>
          destruct (store_response_log_grows L now u true resp s2) as [t Ht]
        end.
        destruct cached as [[cd cm]|]; [destruct (rs_status resp =? 304)|];
          cbn -[store_response]; rewrite ?Ht; cbn; rewrite <- ?app_assoc;
          eexists; reflexivity.
    + intros _ etag lm d m Ha. destruct (Hhit etag lm d m Ha) as (-> & He1 & He2).
      exists (mkRequest method u h ""). split; [|auto].
      destruct (pending s) as [|resp rest]; cbn -[store_response]; [reflexivity|].
      destruct (rs_status resp =? 304); cbn -[store_response];
        [reflexivity | rewrite store_response_sent; reflexivity].
    + intros _ resp rest d rl more Hps Hst Hm Hd. rewrite Hps.
      assert (Hs : forall s2, cache s2 = Some c ->
                cache (snd (store_response L now u true resp s2))
                = Some (dset u (hget "etag" (rs_headers resp),
                                hget "last-modified" (rs_headers resp), d, more) c)).
      { intros s2 Hc2. apply store_response_store with (rl := rl); auto.
        rewrite Hst. exact Hd. }
      destruct cached as [[cd cm]|]; [rewrite Hst; cbn -[store_response]|];
        apply Hs; cbn; exact Hc.
    + discriminate.
  - destruct (prepare_not_eligible L api method u data s He) as (b & h & Hp).
    rewrite (make_request_shape L now api method url params data s u b h false None _ Hu Hp).
    split; [discriminate|split; [discriminate|split; [discriminate|]]].
    intros _. destruct (pending s) as [|resp rest]; [split; reflexivity|].
    match goal with |- context [store_response L now u false resp ?s2] =>
      destruct (store_response_not_cacheable L now u resp s2) as [H1 H2]
    end.
    rewrite H1, H2. split; reflexivity.
Qed.

Lemma make_request_cache_use_witness :
  format_url CPython.lib sample_api "/projects" [] = Ok "https://gitlab.com/api/v4/projects" /\
  cache (sample_state [mkResponse 200 [("etag", "def")] "[]"])
  = Some [("https://gitlab.com/api/v4/projects", (Some "abc", None, JArr [], None))] /\
  cache_eligible "GET" NoData (sample_state [mkResponse 200 [("etag", "def")] "[]"])
  = String.eqb "GET" "GET" && is_no_data NoData.
Proof.
  assert (Hu : format_url CPython.lib sample_api "/projects" []
               = Ok "https://gitlab.com/api/v4/projects") by (vm_compute; reflexivity).
  assert (Hc : cache (sample_state [mkResponse 200 [("etag", "def")] "[]"])
               = Some [("https://gitlab.com/api/v4/projects",
                        (Some "abc", None, JArr [], None))]) by reflexivity.
  split; [exact Hu|split; [exact Hc|]].
  exact (proj1 (make_request_cache_use CPython.lib 0 sample_api "GET" "/projects" [] NoData
                  (sample_state [mkResponse 200 [("etag", "def")] "[]"])
                  "https://gitlab.com/api/v4/projects" _ Hu Hc)).
Defined.

End CacheUse.

(** ** Pagination *)

Module Pagination.

Import CacheUse.

(** [decipher_response] returns only on the success codes. *)
Lemma decipher_ok_success (L : pylib) (now : Q) (st : Z) (h : headers) (b : string) x :
  decipher_response L now st h b = Ok x -> is_success st = true.
Proof.
  unfold decipher_response, raise_http. intros H.
  destruct (_decode_body L _ b false) as [data|e]; [|discriminate]. cbn in H.
  destruct (is_success st); [reflexivity|].
  repeat (cbn in H; try discriminate H;
          match type of H with
          | context [match ?x with _ => _ end] => destruct x
          | context [bind ?m _] => destruct m
          end).
Qed.

Lemma store_response_ok (L : pylib) (now : Q) (u : string) (cb : bool) (resp : response)
  (s : state) d rl more :
  decipher_response L now (rs_status resp) (rs_headers resp) (rs_body resp) = Ok (d, rl, more) ->
  exists s', store_response L now u cb resp s = (Ok (d, more), s') /\
             sent s' = sent s /\ pending s' = pending s /\ yielded s' = yielded s.
Proof.
  intros Hd. unfold store_response.
  rewrite (mbind_Ok _ _ s (d, rl, more) s) by (unfold lift; rewrite Hd; reflexivity).
  cbv beta iota.
  erewrite mbind_Ok by reflexivity. erewrite mbind_Ok by reflexivity. cbn.
  destruct (cache s) eqn:Ec; cbn.
  - destruct (cb && _); cbn.
    + unfold mbind, cache_set, ret. cbn. rewrite ?Ec. cbn.
      eexists; split; [reflexivity|]. cbn. auto.
    + unfold mbind, ret. eexists; split; [reflexivity|]. cbn. auto.
  - unfold mbind, ret. eexists; split; [reflexivity|]. cbn. auto.
Qed.

(** One page request of [getiter]: a [GET] without a body to the resolved
    URL, answered by a successful response, returns the deciphered body and
    next link, whatever the cache holds. *)
Lemma make_request_page (L : pylib) (now : Q) (api : GitLabAPI) (url : string)
  (params : list (string * string)) (s : state) (u : string) resp rest d rl more :
  format_url L api url params = Ok u ->
  pending s = resp :: rest ->
  decipher_response L now (rs_status resp) (rs_headers resp) (rs_body resp) = Ok (d, rl, more) ->
  exists s' h, _make_request L now api "GET" url params NoData s = (Ok (d, more), s') /\
               sent s' = sent s ++ [mkRequest "GET" u h ""] /\ pending s' = rest /\
               yielded s' = yielded s.
Proof.
  intros Hu Hps Hd.
  assert (H304 : (rs_status resp =? 304) = false).
  { apply decipher_ok_success in Hd. unfold is_success in Hd.
    destruct (Z.eqb_spec (rs_status resp) 304) as [E|E]; [rewrite E in Hd; discriminate|].
    reflexivity. }
  destruct (cache_eligible "GET" NoData s) eqn:He.
  - assert (Hc : exists c, cache s = Some c).
    { unfold cache_eligible, cache_configured in He. destruct (cache s); [eauto|].
      rewrite andb_false_r in He. discriminate. }
    destruct Hc as [c Hc].
    destruct (prepare_eligible L api "GET" u NoData s c He Hc) as (h & cached & Hp & _ & _).
    rewrite (make_request_shape L now api "GET" url params NoData s u "" h true cached _ Hu Hp).
    cbn -[store_response]. rewrite Hps.
    match goal with |- context [store_response L now u true resp ?s2] =>
      destruct (store_response_ok L now u true resp s2 d rl more Hd) as (s' & Hs & Hs1 & Hs2 & Hs3)
    end.
    exists s', h.
    destruct cached as [[cd cm]|]; [rewrite H304|]; rewrite Hs; cbn in *;
      rewrite Hs1, Hs2, Hs3; auto.
  - destruct (prepare_not_eligible L api "GET" u NoData s He) as (b & h & Hp).
    assert (Hb : b = "").
    { unfold prepare_request, mbind, get_state, ret in Hp. cbn in Hp.
      unfold cache_eligible, cache_configured in He. cbn in He.
      destruct (cache s); [discriminate|]. cbn in Hp.
      injection Hp as <-. reflexivity. }
    subst b.
    rewrite (make_request_shape L now api "GET" url params NoData s u "" h false None _ Hu Hp).
    rewrite Hps.
    match goal with |- context [store_response L now u false resp ?s2] =>
      destruct (store_response_ok L now u false resp s2 d rl more Hd) as (s' & Hs & Hs1 & Hs2 & Hs3)
    end.
    exists s', h. rewrite Hs. cbn in *. rewrite Hs1, Hs2, Hs3. auto.
Qed.

Lemma yield_all_ok (items : list json) (s : state) :
  yield_all items s
  = (Ok tt, mkState (cache s) (rate_limit s) (pending s) (sent s) (cache_log s)
                    (yielded s ++ items)).
Proof.
  revert s. induction items as [|x r IH]; intros s.
  - cbn. rewrite app_nil_r. destruct s; reflexivity.
  - cbn [yield_all]. erewrite mbind_Ok by reflexivity. rewrite IH. cbn.
    rewrite <- app_assoc. reflexivity.
Qed.

(** [getiter] over a chain of pages: every page is requested once, in
    order, with a [GET] to its resolved URL, and the items of all pages are
    yielded in order. *)
Lemma getiter_chain (L : pylib) (now : Q) (api : GitLabAPI) (params : list (string * string)) :
  forall pages url s extra fuel,
  page_chain L now api params url pages -> (length pages <= fuel)%nat ->
  pending s = map (fun p => snd (fst p)) pages ++ extra ->
  exists s' rqs, getiter L now fuel api url params s = (Ok tt, s') /\
    yielded s' = yielded s ++ concat (map snd pages) /\ pending s' = extra /\
    sent s' = sent s ++ rqs /\ map rq_url rqs = map (fun p => fst (fst p)) pages /\
    Forall (fun rq => rq_method rq = "GET" /\ rq_body rq = "") rqs.
Proof.
  induction pages as [|[[u resp] items] rest IH]; intros url s extra fuel Hc Hf Hp;
    [destruct Hc|].
  destruct fuel as [|f]; [cbn in Hf; lia|].
  destruct Hc as (Hu & rl & more & Hd & Hrest).
  cbn in Hp.
  destruct (make_request_page L now api url params s u resp
              (map (fun p => snd (fst p)) rest ++ extra) (JArr items) rl more Hu Hp Hd)
    as (s1 & h & Hm & Hs1 & Hp1 & Hy1).
  cbn [getiter]. rewrite (mbind_Ok _ _ _ _ _ Hm). cbv beta iota.
  erewrite mbind_Ok by reflexivity.
  rewrite (mbind_Ok _ _ _ _ _ (yield_all_ok items s1)).
  destruct rest as [|p' rest'].
  - rewrite Hrest.
    eexists; exists [mkRequest "GET" u h ""]; split; [reflexivity|]. cbn.
    rewrite Hy1, Hs1, Hp1, app_nil_r. repeat split; auto.
  - destruct Hrest as (m & -> & Ht & Hc'). rewrite Ht.
    cbn in Hf.
    destruct (IH m (mkState (cache s1) (rate_limit s1) (pending s1) (sent s1) (cache_log s1)
                            (yielded s1 ++ items)) extra f Hc' ltac:(cbn; lia)
                 ltac:(cbn; exact Hp1))
      as (s' & rqs & Hg & Hy & Hp' & Hs & Hu' & Hget).
    exists s', (mkRequest "GET" u h "" :: rqs). split; [exact Hg|].
    cbn in Hy, Hs. rewrite Hy, Hs, Hy1, Hs1, <- !app_assoc. cbn.
    repeat split; auto. cbn. rewrite Hu'. reflexivity.
Qed.

Lemma str_app_assoc (a b c : string) : (a +++ b) +++ c = a +++ (b +++ c).
Proof. induction a as [|x a IH]; cbn; [reflexivity | rewrite IH; reflexivity]. Qed.

Lemma str_app_nil (a : string) : a +++ "" = a.
Proof. induction a as [|x a IH]; cbn; [reflexivity | rewrite IH; reflexivity]. Qed.

Lemma str_length_app (a b : string) :
  String.length (a +++ b) = (String.length a + String.length b)%nat.
Proof. induction a as [|x a IH]; cbn; [reflexivity | rewrite IH; reflexivity]. Qed.

(** [span p] stops at the first character [p] rejects. *)
Lemma span_app (p : ascii -> bool) (a b : string) :
  forallb p (list_ascii_of_string a) = true ->
  match b with EmptyString => True | String c _ => p c = false end ->
  span p (a +++ b) = (a, b).
Proof.
  intros Ha Hb. induction a as [|x a IH]; cbn in *.
  - destruct b as [|c r]; [reflexivity|]. cbn. rewrite Hb. reflexivity.
  - apply andb_prop in Ha as [Hx Ha]. rewrite Hx, (IH Ha). reflexivity.
Qed.

Lemma word_not_space (c : ascii) : is_word c = true -> is_space c = false.
Proof.
  destruct c as [[] [] [] [] [] [] [] []]; vm_compute; congruence.
Qed.

Lemma word_head_not_space (a b : string) :
  a <> "" -> forallb is_word (list_ascii_of_string a) = true ->
  match a +++ b with EmptyString => True | String c _ => is_space c = false end.
Proof.
  intros Hne Ha. destruct a as [|c r]; [congruence|]. cbn in *.
  apply andb_prop in Ha as [Hc _]. apply word_not_space. exact Hc.
Qed.

Lemma span_skip_space (x : string) :
  match x with EmptyString => True | String c _ => is_space c = false end ->
  snd (span is_space (String " " x)) = x.
Proof.
  intros H. cbn. destruct x as [|c r]; [reflexivity|]. cbn. rewrite H. reflexivity.
Qed.

(** [_link_re] reads a well-formed entry at the head of the text, and the
    separator after it. *)
Lemma match_link_render (e : string * string * string) (rest : string) :
  link_wf e = true ->
  match_link (render_link e +++ rest)
  = Some (e, match rest with
             | String c6 r9 => if chr_is 44 c6 then snd (span is_space r9) else rest
             | EmptyString => rest
             end).
Proof.
  destruct e as [[uri ptype] pvalue]. unfold link_wf, render_link. intros Hwf.
  apply andb_prop in Hwf as [Hwf Hv2]. apply andb_prop in Hwf as [Hwf Hv1].
  apply andb_prop in Hwf as [Hwf Ht2]. apply andb_prop in Hwf as [Hwf Ht1].
  apply andb_prop in Hwf as [Hu1 Hu2].
  apply negb_true_iff in Hu1, Ht1, Hv1.
  assert (Ht0 : ptype <> "") by (apply String.eqb_neq; exact Ht1).
  rewrite !str_app_assoc. unfold dquote, chr.
  cbn [String.append match_link].
  rewrite (span_app _ uri) by (exact Hu2 || reflexivity).
  cbv beta iota zeta. rewrite Hu1. cbv beta iota.
  rewrite span_skip_space by (apply word_head_not_space; assumption).
  rewrite (span_app _ ptype) by (exact Ht2 || reflexivity).
  cbv beta iota zeta. rewrite Ht1. cbv beta iota.
  rewrite (span_app _ pvalue) by (exact Hv2 || reflexivity).
  cbv beta iota zeta. rewrite Hv1. reflexivity.
Qed.

Lemma link_header_head (es : list (string * string * string)) :
  es <> [] -> exists x, link_header es = String "<" x.
Proof.
  intros Hne. destruct es as [|[[u t] v] r]; [congruence|].
  destruct r; cbn; eexists; reflexivity.
Qed.

Lemma finditer_step (f : nat) (s rest : string) m :
  s <> "" -> match_link s = Some (m, rest) -> finditer_from (S f) s = m :: finditer_from f rest.
Proof.
  intros Hne Hm. destruct s as [|a r]; [congruence|].
  change (finditer_from (S f) (String a r))
    with (match match_link (String a r) with
          | Some (m, rest) => m :: finditer_from f rest
          | None => finditer_from f r
          end).
  rewrite Hm. reflexivity.
Qed.

(** [_link_re.finditer] reads back every entry of a well-formed header. *)
Lemma finditer_link_header (es : list (string * string * string)) :
  Forall (fun e => link_wf e = true) es ->
  forall fuel, (String.length (link_header es) <= fuel)%nat ->
  finditer_from fuel (link_header es) = es.
Proof.
  induction es as [|e r IH]; intros Hwf fuel Hf.
  - destruct fuel; reflexivity.
  - inversion Hwf as [|? ? He Hr]; subst.
    destruct (link_header_head [e] ltac:(discriminate)) as [x Hx]. cbn [link_header] in Hx.
    destruct fuel as [|f].
    { destruct r; cbn [link_header] in Hf; [rewrite Hx in Hf; cbn in Hf; lia|].
      rewrite str_length_app, Hx in Hf. cbn in Hf. lia. }
    destruct r as [|e' r'].
    + change (link_header [e]) with (render_link e).
      rewrite (finditer_step f _ "" e) by
        ((rewrite Hx; discriminate) ||
         (rewrite <- (str_app_nil (render_link e)), match_link_render by exact He;
          reflexivity)).
      destruct f; reflexivity.
    + destruct (link_header_head (e' :: r') ltac:(discriminate)) as [y Hy].
      change (link_header (e :: e' :: r')) with (render_link e +++ ", " +++ link_header (e' :: r')).
      rewrite (finditer_step f _ (link_header (e' :: r')) e).
      * f_equal. apply IH; [exact Hr|].
        change (link_header (e :: e' :: r'))
          with (render_link e +++ ", " +++ link_header (e' :: r')) in Hf.
        rewrite !str_length_app, Hx in Hf. cbn [String.length] in Hf. lia.
      * rewrite Hx. discriminate.
      * rewrite match_link_render by exact He. rewrite Hy. reflexivity.
Qed.

Lemma first_next_find (es : list (string * string * string)) :
  first_next es = spec_next_entry es.
Proof.
  induction es as [|[[u t] v] r IH]; [reflexivity|].
  unfold spec_next_entry in *. cbn.
  destruct ((t =? "rel")%string && (v =? "next")%string); [reflexivity | exact IH].
Qed.

(** C5: [getiter] over a chain of pages, each answered by a successful
    response whose body is a JSON list, yields the items of every page in
    order; each page after the first is requested with a bodiless [GET] to
    the next-page URL extracted from the previous one, resolved with the
    same params. And on a [link] header of well-formed entries
    [<uri>; param="value"] joined by [", "], [_next_link] returns the URI of
    the first entry with [rel="next"], ignoring the others. *)
Theorem getiter_follows_next (L : pylib) (now : Q) (api : GitLabAPI)
  (params : list (string * string)) (pages : list (string * response * list json))
  (url : string) (s : state) (extra : list response) (fuel : nat) :
  page_chain L now api params url pages -> (length pages <= fuel)%nat ->
  pending s = map (fun p => snd (fst p)) pages ++ extra ->
  (exists s' rqs, getiter L now fuel api url params s = (Ok tt, s') /\
     yielded s' = yielded s ++ concat (map snd pages) /\ pending s' = extra /\
     sent s' = sent s ++ rqs /\ map rq_url rqs = map (fun p => fst (fst p)) pages /\
     Forall (fun rq => rq_method rq = "GET" /\ rq_body rq = "") rqs) /\
  (forall es, Forall (fun e => link_wf e = true) es ->
     _next_link (Some (link_header es)) = spec_next_entry es).
Proof.
  intros Hc Hf Hp. split.
  - apply getiter_chain; assumption.
  - intros es Hwf. unfold _next_link, finditer_link.
    rewrite finditer_link_header by (exact Hwf || lia). apply first_next_find.
Qed.

Lemma getiter_follows_next_witness :
  yielded (snd (getiter CPython.lib 0 2 sample_api "projects" []
     (mkState None None
        [mkResponse 200 [("content-type", "application/json");
                         ("link", link_header [(next_page_url, "rel", "next")])] "[1, 2]";
         mkResponse 200 [("content-type", "application/json")] "[1, 2]"] [] [] [])))
  = [JNum 1; JNum 2; JNum 1; JNum 2].
Proof.
  destruct (proj1 (getiter_follows_next CPython.lib 0 sample_api [] 
     [("https://gitlab.com/api/v4/projects",
       mkResponse 200 [("content-type", "application/json");
                       ("link", link_header [(next_page_url, "rel", "next")])] "[1, 2]",
       [JNum 1; JNum 2]);
      (next_page_url, mkResponse 200 [("content-type", "application/json")] "[1, 2]",
       [JNum 1; JNum 2])]
     "projects"
     (mkState None None
        [mkResponse 200 [("content-type", "application/json");
                         ("link", link_header [(next_page_url, "rel", "next")])] "[1, 2]";
         mkResponse 200 [("content-type", "application/json")] "[1, 2]"] [] [] [])
     [] 2
     ltac:(cbn [page_chain]; split; [vm_compute; reflexivity|];
           exists None, (Some next_page_url); split; [vm_compute; reflexivity|];
           exists next_page_url; split; [reflexivity|]; split; [reflexivity|];
           split; [vm_compute; reflexivity|];
           exists None, None; split; vm_compute; reflexivity)
     ltac:(cbn; lia) eq_refl))
    as (s' & rqs & Hg & Hy & _).
  rewrite Hg. exact Hy.
Defined.

End Pagination.

(** ** URL resolution (GitLabAPI.format_url) *)

Module FormatUrl.

Lemma lstrip_slash_slash (p : string) : lstrip_slash ("/" +++ p) = lstrip_slash p.
Proof. reflexivity. Qed.

Lemma urljoin_cpython (b u : string) : urljoin CPython.lib b u = CPython.urljoin b u.
Proof. reflexivity. Qed.

(** C9: a leading slash never changes the resolved URL (for every standard
    library); with CPython's [urljoin] and no params, an absolute URL whose
    scheme differs from [api_url]'s is returned unchanged, and one with the
    same (relative-capable, netloc-using) scheme and a non-empty netloc is
    returned re-assembled as [urlunparse(urlparse(url))]. *)
Theorem format_url_resolution :
  (forall (L : pylib) (api : GitLabAPI) (p : string) (params : list (string * string)),
     format_url L api ("/" +++ p) params = format_url L api p params) /\
  (forall (api : GitLabAPI) (url : string) (b u : urlparts),
     api_url api <> "" -> url <> "" -> lstrip_slash url = url ->
     CPython.urlparse_with (api_url api) "" = Ok b ->
     CPython.urlparse_with url (u_scheme b) = Ok u ->
     u_scheme u <> u_scheme b ->
     format_url CPython.lib api url [] = Ok url) /\
  (forall (api : GitLabAPI) (url : string) (b u : urlparts),
     api_url api <> "" -> url <> "" -> lstrip_slash url = url ->
     CPython.urlparse_with (api_url api) "" = Ok b ->
     CPython.urlparse_with url (u_scheme b) = Ok u ->
     u_scheme u = u_scheme b ->
     CPython.in_list (u_scheme u) CPython.uses_relative = true ->
     CPython.in_list (u_scheme u) CPython.uses_netloc = true ->
     u_netloc u <> "" ->
     format_url CPython.lib api url [] = Ok (CPython.urlunparse u)).
Proof.
  split; [|split].
  - intros L api p params. unfold format_url. rewrite lstrip_slash_slash. reflexivity.
  - intros api url b u Hb Hu Hl Hpb Hpu Hs.
    unfold format_url. rewrite Hl, urljoin_cpython. unfold CPython.urljoin.
    apply String.eqb_neq in Hb, Hu. rewrite Hb, Hu. cbn [bind].
    rewrite Hpb. cbn [bind]. rewrite Hpu. cbn [bind].
    apply String.eqb_neq in Hs. rewrite Hs. reflexivity.
  - intros api url b u Hb Hu Hl Hpb Hpu Hs Hr Hn Hne.
    unfold format_url. rewrite Hl, urljoin_cpython. unfold CPython.urljoin.
    apply String.eqb_neq in Hb, Hu. rewrite Hb, Hu. cbn [bind].
    rewrite Hpb. cbn [bind]. rewrite Hpu. cbn [bind].
    rewrite Hs, String.eqb_refl. rewrite <- Hs, Hr, Hn. cbn [negb orb andb].
    apply String.eqb_neq in Hne. rewrite Hne. reflexivity.
Qed.

Lemma format_url_resolution_witness :
  format_url CPython.lib sample_api "http://example.com/x" [] = Ok "http://example.com/x" /\
  format_url CPython.lib sample_api "HTTPS://gitlab.com/api/v4/projects" []
  = Ok "https://gitlab.com/api/v4/projects".
Proof.
  split.
  - apply (proj1 (proj2 format_url_resolution) sample_api "http://example.com/x"
             (mkURL "https" "gitlab.com" "/api/v4/" "" "" "")
             (mkURL "http" "example.com" "/x" "" "" ""));
      (discriminate || reflexivity || vm_compute; reflexivity || discriminate).
  - exact (proj2 (proj2 format_url_resolution) sample_api "HTTPS://gitlab.com/api/v4/projects"
             (mkURL "https" "gitlab.com" "/api/v4/" "" "" "")
             (mkURL "https" "gitlab.com" "/api/v4/projects" "" "" "")
             ltac:(discriminate) ltac:(discriminate) eq_refl
             ltac:(vm_compute; reflexivity) ltac:(vm_compute; reflexivity) eq_refl
             eq_refl eq_refl ltac:(discriminate)).
Defined.

(** An absolute URL of [api_url]'s scheme is not returned as given: the
    empty query of a trailing [?] is dropped. *)
Lemma format_url_absolute_cex :
  format_url CPython.lib sample_api "https://gitlab.com/api/v4/projects?" []
  = Ok "https://gitlab.com/api/v4/projects".
Proof. vm_compute. reflexivity. Qed.

End FormatUrl.

(** ** Response classification (decipher_response) *)

Module Classify.

Lemma py_getitem_cases (v : json) (k : string) :
  (exists m, py_getitem v k = Ok m) \/ py_getitem v k = Err KeyError \/
  py_getitem v k = Err TypeError.
Proof.
  unfold py_getitem. destruct v; auto. destruct (assoc k fields); eauto.
Qed.

Lemma message_step (data : json) :
  match py_getitem data "message" with
  | Ok m => Ok m
  | Err TypeError | Err KeyError => Ok JNull
  | Err e => Err e
  end = Ok (body_message data).
Proof.
  unfold body_message.
  destruct (py_getitem_cases data "message") as [[m Hm]|[Hm|Hm]]; rewrite Hm; reflexivity.
Qed.

(** C1: for a body that decodes to [data]:
    - a success code returns [(data, rate limit, next link)];
    - any other [HTTPStatus] code but 403 and 422 raises the class of its
      range, with the status and, when truthy, the body's message;
    - a 403 whose rate-limit headers show [remaining = 0] raises
      [RateLimitExceeded] only when [RateLimit.__bool__] holds, that is when
      the reset instant has passed; before it, [BadRequest] is raised. *)
Theorem decipher_classification (L : pylib) (now : Q) (st : Z) (h : headers) (body : string)
  (data : json) :
  _decode_body L (hget "content-type" h) body false = Ok data ->
  (is_success st = true -> forall rl, RateLimit_from_http L h = Ok rl ->
     decipher_response L now st h body = Ok (data, rl, _next_link (hget "link" h))) /\
  (is_success st = false -> http_status_phrase st <> None -> st <> 403 -> st <> 422 ->
     decipher_response L now st h body
     = Err (HTTPError (spec_kind st) st
              (if truthy (body_message data) then Some (body_message data) else None))) /\
  (st = 403 -> forall r, RateLimit_from_http L h = Ok (Some r) -> remaining r = 0 ->
     decipher_response L now st h body
     = if RateLimit_bool now r then Err (RateLimitExceeded r (body_message data))
       else Err (HTTPError BadRequest 403
                   (if truthy (body_message data) then Some (body_message data) else None))).
Proof.
  intros Hd. unfold decipher_response. rewrite Hd. cbn [bind].
  split; [|split].
  - intros Hs rl Hrl. rewrite Hs, Hrl. reflexivity.
  - intros Hs Hp H403 H422. rewrite Hs, message_step. cbn [bind].
    apply Z.eqb_neq in H403, H422.
    unfold spec_kind, raise_http.
    destruct (http_status_phrase st) as [ph|]; [|congruence].
    destruct (500 <=? st); [reflexivity|].
    destruct (400 <=? st); [rewrite H403, H422; reflexivity|].
    destruct (300 <=? st); reflexivity.
  - intros -> r Hr Hrem. cbn [is_success Z.eqb orb]. rewrite message_step. cbn [bind].
    cbn [Z.leb Z.compare Z.eqb Pos.eqb Pos.compare Pos.compare_cont].
    rewrite Hr. cbn [bind]. rewrite Hrem. cbn [Z.eqb].
    destruct (RateLimit_bool now r); reflexivity.
Qed.

Lemma decipher_classification_witness :
  decipher_response CPython.lib (inject_Z 1790000000) 403 exhausted_headers ""
  = Err (HTTPError BadRequest 403 None).
Proof.
  destruct (RateLimit_from_http CPython.lib exhausted_headers) as [[r|]|e] eqn:E;
    [|vm_compute in E; discriminate E|vm_compute in E; discriminate E].
  assert (Hrem : remaining r = 0) by (vm_compute in E; injection E as <-; reflexivity).
  rewrite (proj2 (proj2 (decipher_classification CPython.lib (inject_Z 1790000000) 403
                            exhausted_headers "" JNull ltac:(vm_compute; reflexivity)))
                 eq_refl r E Hrem).
  vm_compute in E. injection E as <-. vm_compute. reflexivity.
Defined.

End Classify.

(** ** Router tables: invariants, views and merging *)

Module RouterViews.

Import DictFacts RouterDispatch.

Lemma filter_flat_map {A B : Type} (p : B -> bool) (g : A -> list B) (l : list A) :
  filter p (flat_map g l) = flat_map (fun x => filter p (g x)) l.
Proof. induction l as [|x r IH]; simpl; [reflexivity|]. rewrite filter_app, IH. reflexivity. Qed.

Lemma map_flat_map {A B D : Type} (h : B -> D) (g : A -> list B) (l : list A) :
  map h (flat_map g l) = flat_map (fun x => map h (g x)) l.
Proof. induction l as [|x r IH]; simpl; [reflexivity|]. rewrite map_app, IH. reflexivity. Qed.

Lemma flat_map_ext_in {A B : Type} (g h : A -> list B) (l : list A) :
  (forall x, In x l -> g x = h x) -> flat_map g l = flat_map h l.
Proof.
  induction l as [|x r IH]; simpl; intros H; [reflexivity|].
  rewrite (H x (or_introl eq_refl)), IH; [reflexivity|]. intros y Hy. apply H. right. exact Hy.
Qed.

Lemma flat_map_if {A B : Type} (b : bool) (g : A -> list B) (l : list A) :
  flat_map (fun x => if b then g x else []) l = if b then flat_map g l else [].
Proof. destruct b; [reflexivity|]. induction l; simpl; [reflexivity | exact IHl]. Qed.

Lemma get_or_empty_cons {V : Type} (k k' : string) (v : list V) (r : list (string * list V)) :
  get_or_empty k ((k', v) :: r) = if String.eqb k k' then v else get_or_empty k r.
Proof. unfold get_or_empty. simpl. destruct (String.eqb k k'); reflexivity. Qed.

Lemma Forall_get_or_empty {V : Type} (Q : list V -> Prop) (k : string) (d : list (string * list V)) :
  Q [] -> Forall (fun e => Q (snd e)) d -> Q (get_or_empty k d).
Proof.
  unfold get_or_empty. induction d as [|[k' v] r IH]; simpl; intros H0 Hd; [exact H0|].
  inversion Hd as [|? ? Hv Hr]; subst. destruct (String.eqb k k'); [exact Hv | apply IH; assumption].
Qed.

Lemma select_absent {V W : Type} (F : list V -> list W) (k : string) (d : list (string * list V)) :
  ~ In k (map fst d) ->
  flat_map (fun e => if String.eqb (fst e) k then F (snd e) else []) d = [].
Proof.
  induction d as [|[k' v] r IH]; simpl; intros H; [reflexivity|].
  destruct (String.eqb_spec k' k); [exfalso; apply H; left; assumption|].
  apply IH. intros Hin. apply H. right. exact Hin.
Qed.

(** Selecting the entries of key [k] of a dict without repeated keys. *)
Lemma select_key {V W : Type} (F : list V -> list W) (k : string) (d : list (string * list V)) :
  F [] = [] -> NoDup (map fst d) ->
  flat_map (fun e => if String.eqb (fst e) k then F (snd e) else []) d = F (get_or_empty k d).
Proof.
  intros HF. induction d as [|[k' v] r IH]; simpl; intros Hnd; [symmetry; exact HF|].
  inversion Hnd as [|? ? Hk Hr]; subst. rewrite get_or_empty_cons.
  destruct (String.eqb_spec k' k) as [->|Hne].
  - rewrite String.eqb_refl, select_absent by exact Hk. apply app_nil_r.
  - rewrite (proj2 (String.eqb_neq k k')) by congruence. apply IH. exact Hr.
Qed.

Lemma select_value_absent {C : Type} (value : json) (d : list (json * list C)) :
  Forall (fun b => key_eqb value (fst b) = false) d ->
  flat_map (fun vc => if key_eqb value (fst vc) then snd vc else []) d = [].
Proof.
  induction d as [|[v cbs] r IH]; simpl; intros H; [reflexivity|].
  inversion H as [|? ? Hv Hr]; subst. simpl in Hv. rewrite Hv. apply IH. exact Hr.
Qed.

(** Selecting the values equal to [value] of an inner dict whose keys are
    pairwise different. *)
Lemma select_value {C : Type} (value : json) (d : list (json * list C)) :
  ForallOrdPairs (fun a b => key_eqb (fst a) (fst b) = false) d ->
  flat_map (fun vc => if key_eqb value (fst vc) then snd vc else []) d = jlookup value d.
Proof.
  induction d as [|[v cbs] r IH]; simpl; intros Hp; [reflexivity|].
  inversion Hp as [|? ? Hhd Htl]; subst. unfold jlookup. simpl.
  destruct (key_eqb value v) eqn:E.
  - rewrite select_value_absent; [apply app_nil_r|].
    apply Forall_forall. intros [v' cbs'] Hin. simpl.
    destruct (key_eqb value v') eqn:E'; [|reflexivity].
    rewrite Forall_forall in Hhd. specialize (Hhd (v', cbs') Hin). simpl in Hhd.
    rewrite key_eqb_sym in E. rewrite (key_eqb_trans _ _ _ E E') in Hhd. exact Hhd.
  - simpl. rewrite IH by exact Htl. reflexivity.
Qed.

Lemma filter_map_const {C : Type} (p : registration (Callback := C) -> bool)
  (mk : C -> registration (Callback := C)) (cbs : list C) (b : bool) :
  (forall f, p (mk f) = b) -> (forall f, reg_cb (mk f) = f) ->
  map reg_cb (filter p (map mk cbs)) = if b then cbs else [].
Proof.
  intros Hp Hc. destruct b; induction cbs as [|f r IH]; simpl; rewrite ?Hp; simpl;
    rewrite ?Hc, ?IH; reflexivity.
Qed.

(** The shallow callbacks of [Router.__init__]'s [add] calls for one router
    are its shallow table. *)
Lemma shallow_view {C : Type} (R : @Router C) (et : string) :
  NoDup (map fst (_shallow_routes R)) ->
  map reg_cb (filter (shallow_for et) (router_items R)) = get_or_empty et (_shallow_routes R).
Proof.
  intros Hnd. unfold router_items. rewrite filter_app, map_app.
  assert (Hd : filter (shallow_for et) (deep_items R) = []).
  { apply filter_none. intros [[f e] attrs] Hin. unfold deep_items in Hin.
    apply in_flat_map in Hin as (eo & _ & Hin). apply in_flat_map in Hin as (ks & _ & Hin).
    apply in_flat_map in Hin as (vc & _ & Hin). apply in_map_iff in Hin as (g & Heq & _).
    injection Heq as <- <- <-. simpl. apply andb_false_r. }
  rewrite Hd, app_nil_r. unfold shallow_items. rewrite filter_flat_map, map_flat_map.
  rewrite <- (select_key (fun x => x) et _ eq_refl Hnd). apply flat_map_ext.
  intros [e cbs]. simpl. apply filter_map_const; [|reflexivity].
  intros f. simpl. apply andb_true_r.
Qed.

(** The deep callbacks of [Router.__init__]'s [add] calls for one router are
    its deep table. *)
Lemma deep_view {C : Type} (R : @Router C) (et k : string) (value : json) :
  router_wf R ->
  map reg_cb (filter (deep_for et k value) (router_items R))
  = jlookup value (get_or_empty k (get_or_empty et (_deep_routes R))).
Proof.
  intros (_ & Hnd & Hf). unfold router_items. rewrite filter_app, map_app.
  assert (Hs : filter (deep_for et k value) (shallow_items R) = []).
  { apply filter_none. intros [[f e] attrs] Hin. unfold shallow_items in Hin.
    apply in_flat_map in Hin as (ec & _ & Hin). apply in_map_iff in Hin as (g & Heq & _).
    injection Heq as <- <- <-. simpl. apply andb_false_r. }
  rewrite Hs. simpl. unfold deep_items. rewrite filter_flat_map, map_flat_map.
  pose (G := fun (d : list (json * list C)) =>
               flat_map (fun vc => if key_eqb value (fst vc) then snd vc else []) d).
  pose (F := fun (oa : list (string * list (json * list C))) =>
               flat_map (fun ks => if String.eqb (fst ks) k then G (snd ks) else []) oa).
  transitivity (flat_map (fun eo => if String.eqb (fst eo) et then F (snd eo) else [])
                         (_deep_routes R)).
  - apply flat_map_ext. intros [e oa]. simpl.
    rewrite filter_flat_map, map_flat_map.
    unfold F. rewrite <- flat_map_if. apply flat_map_ext. intros [k' d]. simpl.
    rewrite filter_flat_map, map_flat_map.
    unfold G. rewrite <- !flat_map_if. apply flat_map_ext. intros [v cbs]. simpl.
    rewrite (filter_map_const _ _ cbs (String.eqb e et && (String.eqb k' k && key_eqb value v)))
      by reflexivity.
    destruct (String.eqb e et), (String.eqb k' k); reflexivity.
  - rewrite (select_key F et) by (reflexivity || exact Hnd).
    assert (Hoa : NoDup (map fst (get_or_empty et (_deep_routes R))) /\
                  Forall (fun ks => snd ks <> [] /\ inner_ok (snd ks))
                         (get_or_empty et (_deep_routes R))).
    { apply (Forall_get_or_empty
               (fun oa => NoDup (map fst oa) /\ Forall (fun ks => snd ks <> [] /\ inner_ok (snd ks)) oa));
        [split; constructor | exact Hf]. }
    destruct Hoa as [Hnd' Hf'].
    unfold F. rewrite (select_key G k) by (reflexivity || exact Hnd').
    unfold G. apply select_value.
    apply (Forall_get_or_empty (fun d => ForallOrdPairs (fun a b => key_eqb (fst a) (fst b) = false) d));
      [constructor|].
    eapply Forall_impl; [|exact Hf']. intros [k' d] [_ [Hp _]]. exact Hp.
Qed.

Lemma fold_steps_id {A B : Type} (g : A -> B -> A) (l : list B) (a : A) :
  (forall x, In x l -> forall a', g a' x = a') -> fold_left g l a = a.
Proof.
  revert a. induction l as [|x r IH]; intros a H; simpl; [reflexivity|].
  rewrite (H x (or_introl eq_refl)). apply IH. intros y Hy. apply H. right. exact Hy.
Qed.

Lemma existsb_eqb_in (k : string) (l : list string) :
  existsb (String.eqb k) l = true <-> In k l.
Proof.
  rewrite existsb_exists. split.
  - intros (x & Hx & E). apply String.eqb_eq in E. subst. exact Hx.
  - intros H. exists k. split; [exact H | apply String.eqb_refl].
Qed.

Lemma fold_key_present {C : Type} (et k : string) (l : list (C * string * list (string * json)))
  (acc : list string) :
  Forall (fun x => exists f v, x = (f, et, [(k, v)])) l -> In k acc ->
  @fold_left (list string) (C * string * list (string * json)) (deep_key_step et) l acc = acc.
Proof.
  intros Hf Hk. induction Hf as [|x r (f & v & ->) Hr IH]; simpl; [reflexivity|].
  rewrite String.eqb_refl. apply existsb_eqb_in in Hk. rewrite Hk. exact IH.
Qed.

(** The [add] calls for one attribute key [k] of event type [et], from a
    key list without [k], add [k] once. *)
Lemma fold_one_key {C : Type} (et k : string) (l : list (C * string * list (string * json)))
  (acc : list string) :
  l <> [] -> Forall (fun x => exists f v, x = (f, et, [(k, v)])) l -> ~ In k acc ->
  @fold_left (list string) (C * string * list (string * json)) (deep_key_step et) l acc = acc ++ [k].
Proof.
  destruct l as [|x r]; [intros H; exfalso; apply H; reflexivity|]. intros _ Hf Hk.
  inversion Hf as [|? ? (f & v & ->) Hr]; subst. simpl.
  rewrite String.eqb_refl. simpl.
  assert (E : existsb (String.eqb k) acc = false)
    by (apply Bool.not_true_iff_false; rewrite existsb_eqb_in; exact Hk).
  rewrite E. simpl. apply (fold_key_present et k); [exact Hr|].
  apply in_or_app. right. left. reflexivity.
Qed.

Lemma fold_keys {C : Type} (et : string) (oa : list (string * list (json * list C)))
  (acc : list string) :
  NoDup (acc ++ map fst oa) -> Forall (fun ks => snd ks <> [] /\ inner_ok (snd ks)) oa ->
  @fold_left (list string) (C * string * list (string * json)) (deep_key_step et)
    (flat_map (fun ks => flat_map (fun vc => map (fun f => (f, et, [(fst ks, fst vc)])) (snd vc))
                                  (snd ks)) oa) acc
  = acc ++ map fst oa.
Proof.
  revert acc. induction oa as [|[k d] r IH]; intros acc Hnd Hf; simpl; [symmetry; apply app_nil_r|].
  inversion Hf as [|? ? [Hne [_ Hv]] Hr]; subst. simpl in Hne, Hv.
  rewrite (@fold_left_app (list string) (C * string * list (string * json))). rewrite (fold_one_key et k (flat_map (fun vc => map (fun f => (f, et, [(k, fst vc)])) (snd vc)) d) acc).
  - rewrite IH; [rewrite <- app_assoc; reflexivity| |exact Hr].
    rewrite <- app_assoc. exact Hnd.
  - destruct d as [|[v cbs] d']; [exfalso; apply Hne; reflexivity|].
    inversion Hv as [|? ? [_ Hcbs] _]; subst. simpl in Hcbs.
    destruct cbs as [|f cbs']; [exfalso; apply Hcbs; reflexivity|]. simpl. discriminate.
  - apply Forall_forall. intros x Hin. apply in_flat_map in Hin as (vc & _ & Hin).
    apply in_map_iff in Hin as (f & <- & _). exists f, (fst vc). reflexivity.
  - intros Hk. apply (NoDup_remove_2 _ _ _ Hnd). apply in_or_app. left. exact Hk.
Qed.

Lemma deep_items_other {C : Type} (et : string) (eo : string * list (string * list (json * list C)))
  (x : C * string * list (string * json)) :
  In x (flat_map (fun ks => flat_map (fun vc => map (fun f => (f, fst eo, [(fst ks, fst vc)]))
                                                    (snd vc)) (snd ks)) (snd eo)) ->
  fst eo <> et -> forall ks', deep_key_step et ks' x = ks'.
Proof.
  intros Hin Hne ks'. apply in_flat_map in Hin as (ks & _ & Hin).
  apply in_flat_map in Hin as (vc & _ & Hin). apply in_map_iff in Hin as (f & <- & _).
  simpl. rewrite (proj2 (String.eqb_neq (fst eo) et) Hne). reflexivity.
Qed.

(** The attribute keys of [Router.__init__]'s [add] calls for one router are
    the keys of its deep table. *)
Lemma deep_keys_view {C : Type} (R : @Router C) (et : string) :
  router_wf R -> deep_keys et (router_items R) = map fst (get_or_empty et (_deep_routes R)).
Proof.
  intros (_ & Hnd & Hf). unfold deep_keys, router_items. rewrite fold_left_app.
  rewrite (fold_steps_id _ (shallow_items R)).
  2:{ intros x Hin ks'. unfold shallow_items in Hin. apply in_flat_map in Hin as (ec & _ & Hin).
      apply in_map_iff in Hin as (f & <- & _). reflexivity. }
  unfold deep_items. induction (_deep_routes R) as [|[e oa] r IH]; simpl; [reflexivity|].
  inversion Hnd as [|? ? He Hr]; subst. inversion Hf as [|? ? [Hoa Hks] Hfr]; subst.
  simpl in Hoa, Hks. rewrite fold_left_app, get_or_empty_cons.
  destruct (String.eqb_spec e et) as [->|Hne].
  - rewrite String.eqb_refl. rewrite (fold_keys et oa []) by assumption. simpl.
    apply fold_steps_id. intros x Hin ks'. apply in_flat_map in Hin as (eo & Heo & Hin).
    apply (deep_items_other et eo x Hin). intros E. apply He. rewrite <- E.
    apply in_map. exact Heo.
  - rewrite (proj2 (String.eqb_neq et e)) by congruence.
    rewrite (fold_steps_id _ (flat_map _ oa)).
    + apply IH; assumption.
    + intros x Hin ks'. apply (deep_items_other et (e, oa) x Hin). exact Hne.
Qed.

Lemma In_add_key (ks : list string) (k y : string) : In y (add_key ks k) <-> In y ks \/ k = y.
Proof.
  unfold add_key. destruct (existsb (String.eqb k) ks) eqn:E.
  - apply existsb_eqb_in in E. split; [left; exact H | intros [H|<-]; assumption].
  - rewrite in_app_iff. simpl. split; intros [H|H]; auto; destruct H as [H|[]]; auto.
Qed.

Lemma fold_add_key_in (l ks : list string) (y : string) :
  In y (fold_left add_key l ks) <-> In y ks \/ In y l.
Proof.
  revert ks. induction l as [|x r IH]; intros ks; simpl; [tauto|].
  rewrite IH, In_add_key. tauto.
Qed.

Lemma fold_step_merge {C : Type} (et : string) (b : list (registration (Callback := C))) :
  forall ks, fold_left (deep_key_step et) b ks
             = fold_left add_key (fold_left (deep_key_step et) b []) ks.
Proof.
  induction b as [|x b IH] using rev_ind; intros ks; [reflexivity|].
  rewrite !fold_left_app. simpl. rewrite (IH ks).
  set (K := fold_left (deep_key_step et) b []).
  destruct x as [[f e] attrs]. destruct attrs as [|[k v] [|a l]]; cbn [deep_key_step];
    try reflexivity.
  destruct (String.eqb e et); simpl; [|reflexivity].
  destruct (existsb (String.eqb k) K) eqn:E; simpl.
  - replace (existsb (String.eqb k) (fold_left add_key K ks)) with true; [reflexivity|].
    symmetry. apply existsb_eqb_in, fold_add_key_in. right. apply existsb_eqb_in. exact E.
  - rewrite fold_left_app. simpl.
    assert (Hu : forall a, add_key a k = if existsb (String.eqb k) a then a else a ++ [k])
      by reflexivity.
    rewrite Hu. destruct (existsb (String.eqb k) (fold_left add_key K ks)); reflexivity.
Qed.

(** The attribute keys of a concatenation: those of the first part, then
    the new ones of the second. *)
Lemma deep_keys_app {C : Type} (et : string) (a b : list (registration (Callback := C))) :
  deep_keys et (a ++ b) = fold_left add_key (deep_keys et b) (deep_keys et a).
Proof. unfold deep_keys. rewrite fold_left_app. apply fold_step_merge. Qed.

Lemma same_views_refl {C : Type} (regs : list (registration (Callback := C))) :
  same_views regs regs.
Proof. repeat split. Qed.

Lemma same_views_app {C : Type} (a1 b1 a2 b2 : list (registration (Callback := C))) :
  same_views a1 b1 -> same_views a2 b2 -> same_views (a1 ++ a2) (b1 ++ b2).
Proof.
  intros (S1 & K1 & V1) (S2 & K2 & V2). split; [|split].
  - intros et. rewrite !filter_app, !map_app, S1, S2. reflexivity.
  - intros et. rewrite !deep_keys_app, K1, K2. reflexivity.
  - intros et k v. rewrite !filter_app, !map_app, V1, V2. reflexivity.
Qed.

Lemma router_items_views {C : Type} (R : @Router C) (regs : list (registration (Callback := C))) :
  router_wf R -> tables_match R regs -> same_views (router_items R) regs.
Proof.
  intros Hwf (HS & HK & HV). split; [|split].
  - intros et. rewrite shallow_view by apply Hwf. apply HS.
  - intros et. rewrite deep_keys_view by exact Hwf. apply HK.
  - intros et k v. rewrite deep_view by exact Hwf. apply HV.
Qed.

Lemma found_callbacks_goe {C : Type} (R : @Router C) (ev : Event) :
  found_callbacks R ev
  = (deep <- collect_deep ev (get_or_empty (event ev) (_deep_routes R)) ;;
     Ok (get_or_empty (event ev) (_shallow_routes R) ++ deep)).
Proof.
  unfold found_callbacks.
  assert (G : get_or_empty (event ev) (_deep_routes R)
              = match assoc (event ev) (_deep_routes R) with Some l => l | None => [] end)
    by reflexivity.
  rewrite G. destruct (assoc (event ev) (_deep_routes R)); simpl; [reflexivity|].
  rewrite app_nil_r. reflexivity.
Qed.

Lemma get_or_empty_absent {V : Type} (k : string) (d : list (string * list V)) :
  ~ In k (map fst d) -> get_or_empty k d = [].
Proof.
  induction d as [|[k' v] r IH]; simpl; intros H; [reflexivity|].
  rewrite get_or_empty_cons. destruct (String.eqb_spec k k') as [->|_].
  - exfalso. apply H. left. reflexivity.
  - apply IH. intros Hin. apply H. right. exact Hin.
Qed.

(** The deep loop of [dispatch] reads an inner dict only through lookups. *)
Lemma collect_deep_congr {C : Type} (ev : Event) (d1 d2 : list (string * list (json * list C))) :
  NoDup (map fst d1) -> map fst d1 = map fst d2 ->
  (forall k v, jlookup v (get_or_empty k d1) = jlookup v (get_or_empty k d2)) ->
  collect_deep ev d1 = collect_deep ev d2.
Proof.
  revert d2. induction d1 as [|[k a] r IH]; intros d2 Hnd Hk H.
  - destruct d2; [reflexivity | discriminate Hk].
  - destruct d2 as [|[k2 a2] r2]; [discriminate Hk|]. injection Hk as <- Hr.
    inversion Hnd as [|? ? Hkr Hnr]; subst.
    assert (Hh : forall v, jlookup v a = jlookup v a2).
    { intros v. specialize (H k v). rewrite !get_or_empty_cons, String.eqb_refl in H. exact H. }
    assert (IH' : collect_deep ev r = collect_deep ev r2).
    { apply IH; [exact Hnr | exact Hr |]. intros k' v.
      destruct (String.eqb_spec k' k) as [->|Hne].
      - rewrite !get_or_empty_absent; [reflexivity | rewrite <- Hr; exact Hkr | exact Hkr].
      - specialize (H k' v). rewrite !get_or_empty_cons in H.
        rewrite (proj2 (String.eqb_neq k' k) Hne) in H. exact H. }
    cbn [collect_deep]. destruct (object_attributes ev) as [oa|e]; cbn [bind]; [|reflexivity].
    destruct (py_contains oa k) as [[|]|e]; cbn [bind]; [|rewrite IH'; reflexivity|reflexivity].
    destruct (py_getitem oa k) as [x|e]; cbn [bind]; [|reflexivity].
    destruct (hashable x); cbn [bind]; [|reflexivity].
    change (match jassoc x a with Some cbs => cbs | None => [] end) with (jlookup x a).
    change (match jassoc x a2 with Some cbs => cbs | None => [] end) with (jlookup x a2).
    rewrite Hh, IH'. reflexivity.
Qed.

(** Routers whose tables agree with registration lists of the same views
    find the same callbacks for every event. *)
Lemma found_callbacks_views {C : Type} (R1 R2 : @Router C)
  (regs1 regs2 : list (registration (Callback := C))) (ev : Event) :
  tables_match R1 regs1 -> tables_match R2 regs2 -> same_views regs1 regs2 ->
  found_callbacks R1 ev = found_callbacks R2 ev.
Proof.
  intros (HS1 & HK1 & HV1) (HS2 & HK2 & HV2) (Hs & Hk & Hv).
  rewrite !found_callbacks_goe, HS1, HS2, Hs.
  rewrite (collect_deep_congr ev (get_or_empty (event ev) (_deep_routes R1))
                              (get_or_empty (event ev) (_deep_routes R2))).
  - reflexivity.
  - rewrite HK1. apply deep_keys_nodup_from. constructor.
  - rewrite HK1, HK2. apply Hk.
  - intros k v. rewrite HV1, HV2. apply Hv.
Qed.

(** ** The invariant [router_wf] *)

Lemma nodup_keys_dset {V : Type} (k : string) (v : V) (d : list (string * V)) :
  NoDup (map fst d) -> NoDup (map fst (dset k v d)).
Proof.
  intros Hnd. rewrite keys_dset. destruct (mem k d) eqn:E; [exact Hnd|].
  rewrite mem_keys in E.
  apply NoDup_app; [exact Hnd | constructor; [intros [] | constructor] |].
  intros y Hy [<-|[]]. apply Bool.not_true_iff_false in E. apply E.
  apply existsb_eqb_in. exact Hy.
Qed.

Lemma Forall_dset {V : Type} (P : string * V -> Prop) (k : string) (v : V) (d : list (string * V)) :
  Forall P d -> P (k, v) -> Forall P (dset k v d).
Proof.
  induction d as [|[k' v'] r IH]; simpl; intros Hd Hk; [constructor; [exact Hk | constructor]|].
  inversion Hd as [|? ? Hh Hr]; subst.
  destruct (String.eqb_spec k k') as [<-|_]; constructor; auto.
Qed.

Lemma jappend_keys {C : Type} (v : json) (f : C) (d : list (json * list C)) (x : json) :
  In x (map fst (jappend v f d)) -> In x (map fst d) \/ x = v.
Proof.
  induction d as [|[v' fs] r IH]; simpl; intros H.
  - destruct H as [<-|[]]. right. reflexivity.
  - destruct (key_eqb v v'); simpl in H; destruct H as [H|H]; auto.
    destruct (IH H); auto.
Qed.

Lemma jappend_ok {C : Type} (v : json) (f : C) (d : list (json * list C)) :
  hashable v = true -> inner_ok d -> inner_ok (jappend v f d) /\ jappend v f d <> [].
Proof.
  unfold inner_ok. intros Hh. induction d as [|[v' fs] r IH]; simpl; intros [Hp Hf].
  - split; [split|discriminate].
    + constructor; constructor.
    + constructor; [split; [exact Hh | discriminate] | constructor].
  - inversion Hp as [|? ? Hhd Htl]; subst. inversion Hf as [|? ? [Hh' Hne] Hft]; subst.
    destruct (key_eqb v v') eqn:E; (split; [split|discriminate]).
    + constructor; [exact Hhd | exact Htl].
    + constructor; [|exact Hft]. split; [exact Hh'|].
      intros Hnil. apply app_eq_nil in Hnil. destruct Hnil as [_ Hnil]. discriminate Hnil.
    + destruct (IH (conj Htl Hft)) as [[Hp' _] _]. constructor; [|exact Hp'].
      apply Forall_forall. intros [x cb] Hin. simpl.
      destruct (jappend_keys v f r x) as [Hx | ->].
      * apply in_map_iff. exists (x, cb). split; [reflexivity | exact Hin].
      * rewrite Forall_forall in Hhd. apply in_map_iff in Hx as ([x' cb'] & Hx' & Hin').
        simpl in Hx'. subst x'. exact (Hhd (x, cb') Hin').
      * rewrite key_eqb_sym. exact E.
    + destruct (IH (conj Htl Hft)) as [[_ Hf'] _]. constructor; [split; assumption | exact Hf'].
Qed.

Lemma wf_init {C : Type} : router_wf (Router_init (Callback := C)).
Proof. repeat constructor. Qed.

Lemma wf_add {C : Type} (R : @Router C) (f : C) (et : string) (attrs : list (string * json)) :
  valid_registration (f, et, attrs) = true -> router_wf R -> router_wf (snd (add R f et attrs)).
Proof.
  intros Hv (Hs & Hd & Hf). destruct attrs as [|[k v] [|a l]].
  - split; [apply nodup_keys_dset; exact Hs | split; assumption].
  - simpl in Hv. cbn [add]. rewrite Hv. cbn [snd _shallow_routes _deep_routes].
    split; [exact Hs | split; [apply nodup_keys_dset; exact Hd|]].
    assert (Hoa : NoDup (map fst (get_or_empty et (_deep_routes R))) /\
                  Forall (fun ks => snd ks <> [] /\ inner_ok (snd ks))
                         (get_or_empty et (_deep_routes R))).
    { apply (Forall_get_or_empty
               (fun oa => NoDup (map fst oa)
                          /\ Forall (fun ks => snd ks <> [] /\ inner_ok (snd ks)) oa));
        [split; constructor | exact Hf]. }
    destruct Hoa as [Hnd' Hf'].
    apply Forall_dset; [exact Hf|]. cbn [snd]. split; [apply nodup_keys_dset; exact Hnd'|].
    apply Forall_dset; [exact Hf'|]. cbn [snd].
    destruct (jappend_ok v f (get_or_empty k (get_or_empty et (_deep_routes R))) Hv) as [H1 H2].
    + apply (Forall_get_or_empty inner_ok); [split; constructor|].
      eapply Forall_impl; [|exact Hf']. intros [k' d] [_ H]. exact H.
    + split; [exact H2 | exact H1].
  - split; [exact Hs | split; assumption].
Qed.

Lemma wf_add_all {C : Type} (R : @Router C) (regs : list (registration (Callback := C))) :
  forallb valid_registration regs = true -> router_wf R -> router_wf (add_all R regs).
Proof.
  revert R. induction regs as [|[[f et] attrs] rest IH]; intros R Hv Hwf; simpl; [exact Hwf|].
  simpl in Hv. apply andb_prop in Hv. destruct Hv as [Hx Hr].
  apply IH; [exact Hr | apply wf_add; assumption].
Qed.

(** Every [add] call [Router.__init__] makes for a well-formed router returns
    normally. *)
Lemma items_succeed {C : Type} (R : @Router C) :
  router_wf R -> forallb add_succeeds (router_items R) = true.
Proof.
  intros (_ & _ & Hf). apply forallb_forall. intros x Hin. unfold router_items in Hin.
  apply in_app_or in Hin as [Hin|Hin].
  - unfold shallow_items in Hin. apply in_flat_map in Hin as (ec & _ & Hin).
    apply in_map_iff in Hin as (f & <- & _). reflexivity.
  - unfold deep_items in Hin. apply in_flat_map in Hin as (eo & Heo & Hin).
    apply in_flat_map in Hin as (ks & Hks & Hin). apply in_flat_map in Hin as (vc & Hvc & Hin).
    apply in_map_iff in Hin as (f & <- & _). simpl.
    rewrite Forall_forall in Hf. destruct (Hf eo Heo) as [_ Hf2].
    rewrite Forall_forall in Hf2. destruct (Hf2 ks Hks) as [_ [_ Hf3]].
    rewrite Forall_forall in Hf3. apply (Hf3 vc Hvc).
Qed.

Lemma add_seq_all {C : Type} (r : @Router C) (regs : list (registration (Callback := C))) :
  forallb add_succeeds regs = true -> add_seq r regs = (Ok tt, add_all r regs).
Proof.
  revert r. induction regs as [|[[f et] attrs] rest IH]; intros r H; [reflexivity|].
  simpl in H. apply andb_prop in H. destruct H as [Hx Hr].
  destruct attrs as [|[k v] [|a l]]; [| |discriminate Hx].
  - cbn [add_seq add add_all]. apply IH. exact Hr.
  - cbn [add_seq add add_all]. rewrite Hx. apply IH. exact Hr.
Qed.

Lemma succeeds_valid {C : Type} (regs : list (registration (Callback := C))) :
  forallb add_succeeds regs = true -> forallb valid_registration regs = true.
Proof.
  induction regs as [|[[f et] attrs] rest IH]; simpl; intros H; [reflexivity|].
  apply andb_prop in H. destruct H as [Hx Hr]. rewrite IH by exact Hr.
  destruct attrs as [|[k v] [|a l]]; simpl in *; rewrite ?Hx; reflexivity.
Qed.

End RouterViews.

(** ** Router: merging, value equality, and failures of [dispatch] *)

Module RouterExtras.

Import DictFacts RouterDispatch RouterViews.

Lemma hashable_key_of (v : json) : hashable v = true <-> key_of v <> None.
Proof. destruct v; simpl; split; congruence. Qed.

Lemma key_eqb_congr (a v v' : json) : key_of v' = key_of v -> key_eqb a v' = key_eqb a v.
Proof.
  intros Hk. destruct (key_eqb a v) eqn:E.
  - apply key_eqb_spec in E. apply key_eqb_spec. destruct E. split; congruence.
  - destruct (key_eqb a v') eqn:E'; [|reflexivity].
    apply key_eqb_spec in E'. destruct E'.
    assert (key_eqb a v = true) by (apply key_eqb_spec; split; congruence). congruence.
Qed.

Lemma run_callbacks_fail {C A : Type} (call : C -> Event -> list A -> res unit)
  (pre post : list C) (f : C) (ev : Event) (args : list A) (e : exn) :
  (forall g, In g pre -> call g ev args = Ok tt) -> call f ev args = Err e ->
  run_callbacks call (pre ++ f :: post) ev args = (map (fun g => (g, ev, args)) (pre ++ [f]), Err e).
Proof.
  intros Hpre Hf. induction pre as [|g r IH]; simpl.
  - rewrite Hf. reflexivity.
  - rewrite (Hpre g (or_introl eq_refl)), IH; [reflexivity|].
    intros g' Hg'. apply Hpre. right. exact Hg'.
Qed.

Lemma collect_deep_unhashable {C : Type} (ev : Event) (oa : list (string * json))
  (d : list (string * list (json * list C))) (k : string) (x : json) :
  object_attributes ev = Ok (JObj oa) -> In k (map fst d) -> assoc k oa = Some x ->
  hashable x = false -> collect_deep ev d = Err TypeError.
Proof.
  intros Hoa Hin Hx Hh. induction d as [|[k' dv] r IH]; simpl in Hin |- *; [contradiction|].
  rewrite Hoa. cbn [bind py_contains]. unfold mem.
  destruct (assoc k' oa) as [y|] eqn:Ey; cbn [bind py_getitem].
  - rewrite ?Ey. destruct (hashable y) eqn:Ehy; simpl; rewrite ?Ehy; simpl; [|reflexivity].
    assert (Hr : In k (map fst r)).
    { destruct Hin as [->|Hin]; [congruence | exact Hin]. }
    rewrite (IH Hr). reflexivity.
  - assert (Hr : In k (map fst r)).
    { destruct Hin as [->|Hin]; [congruence | exact Hin]. }
    rewrite (IH Hr). reflexivity.
Qed.

(** Combining routers ([Router.__init__]): for routers built by [add] calls
    (each attribute value hashable) from registration lists [regs_1], ...,
    [regs_n], [Router(r_1, ..., r_n)] returns normally, and the new router
    dispatches every event exactly as the router built by all the
    registrations in sequence,
    [regs_1 ++ ... ++ regs_n]: same callbacks, same order, same
    exception. *)
Theorem router_merge {C A : Type} (regss : list (list (registration (Callback := C)))) :
  Forall (fun regs => forallb valid_registration regs = true) regss ->
  exists R, Router_new (map (add_all Router_init) regss) = Ok R /\
    forall (call : C -> Event -> list A -> res unit) (ev : Event) (args : list A),
      dispatch call R ev args = dispatch call (add_all Router_init (concat regss)) ev args.
Proof.
  intros Hv.
  set (items := flat_map router_items (map (add_all Router_init) regss)).
  assert (Hsucc : forallb add_succeeds items = true).
  { apply forallb_forall. intros x Hin. unfold items in Hin.
    apply in_flat_map in Hin as (o & Ho & Hin). apply in_map_iff in Ho as (regs & <- & Hr).
    rewrite Forall_forall in Hv.
    pose proof (items_succeed _ (wf_add_all Router_init regs (Hv regs Hr) wf_init)) as Hs.
    rewrite forallb_forall in Hs. apply Hs. exact Hin. }
  assert (Hviews : same_views items (concat regss)).
  { unfold items. clear items Hsucc. induction Hv as [|regs rest Hr Hrest IH]; simpl.
    - apply same_views_refl.
    - apply same_views_app; [|exact IH].
      apply router_items_views.
      + apply wf_add_all; [exact Hr | apply wf_init].
      + apply tables_match_add_all. exact Hr. }
  exists (add_all Router_init items). split.
  - unfold Router_new. fold items. rewrite add_seq_all by exact Hsucc. reflexivity.
  - intros call ev args. unfold dispatch.
    rewrite (found_callbacks_views (add_all Router_init items) (add_all Router_init (concat regss))
               items (concat regss) ev); [reflexivity | | | exact Hviews].
    + apply tables_match_add_all, succeeds_valid. exact Hsucc.
    + apply tables_match_add_all. clear Hviews Hsucc items.
      induction Hv as [|regs rest Hr Hrest IH]; simpl; [reflexivity|].
      rewrite forallb_app, Hr, IH. reflexivity.
Qed.

Lemma router_merge_witness :
  exists R, Router_new (map (add_all Router_init)
                         [[(1, "Issue Hook", [("action", JStr "open")])];
                          [(2, "Issue Hook", [("state", JStr "opened")]);
                           (3, "Issue Hook", [("action", JStr "open")])]]) = Ok R /\
    forall (call : Z -> Event -> list Z -> res unit) (ev : Event) (args : list Z),
      dispatch call R ev args = dispatch call (add_all Router_init issue_registrations) ev args.
Proof.
  apply (router_merge (C := Z) (A := Z)
           [[(1, "Issue Hook", [("action", JStr "open")])];
            [(2, "Issue Hook", [("state", JStr "opened")]);
             (3, "Issue Hook", [("action", JStr "open")])]]).
  repeat constructor.
Defined.

(** Registering with a value is registering with any value Python's [==]
    equates with it: replacing the value [v] of one registration by [v']
    with [v' == v] (e.g. [True] for [1]) changes nothing [dispatch] does. *)
Theorem dispatch_equal_values {C A : Type} (call : C -> Event -> list A -> res unit)
  (regs1 regs2 : list (registration (Callback := C))) (f : C) (et k : string) (v v' : json)
  (ev : Event) (args : list A) :
  forallb valid_registration (regs1 ++ (f, et, [(k, v)]) :: regs2) = true ->
  key_of v' = key_of v ->
  dispatch call (add_all Router_init (regs1 ++ (f, et, [(k, v')]) :: regs2)) ev args
  = dispatch call (add_all Router_init (regs1 ++ (f, et, [(k, v)]) :: regs2)) ev args.
Proof.
  intros Hv Hk.
  assert (Hv' : forallb valid_registration (regs1 ++ (f, et, [(k, v')]) :: regs2) = true).
  { rewrite forallb_app in Hv |- *. simpl in Hv |- *.
    apply andb_prop in Hv. destruct Hv as [H1 H2]. apply andb_prop in H2. destruct H2 as [H2 H3].
    rewrite H1, H3.
    assert (hashable v' = true) as ->
      by (apply hashable_key_of; rewrite Hk; apply hashable_key_of; exact H2).
    reflexivity. }
  unfold dispatch.
  rewrite (found_callbacks_views (add_all Router_init (regs1 ++ (f, et, [(k, v')]) :: regs2))
             (add_all Router_init (regs1 ++ (f, et, [(k, v)]) :: regs2))
             (regs1 ++ (f, et, [(k, v')]) :: regs2)
                                     (regs1 ++ (f, et, [(k, v)]) :: regs2) ev).
  - reflexivity.
  - apply tables_match_add_all. exact Hv'.
  - apply tables_match_add_all. exact Hv.
  - apply same_views_app; [apply same_views_refl|].
    apply (same_views_app [(f, et, [(k, v')])] [(f, et, [(k, v)])] regs2 regs2);
      [|apply same_views_refl].
    split; [|split].
    + intros et0. simpl. rewrite !andb_false_r. reflexivity.
    + intros et0. reflexivity.
    + intros et0 k0 value. simpl. rewrite (key_eqb_congr value v v' Hk).
      destruct (_ && (_ && key_eqb value v)); reflexivity.
Qed.

Lemma dispatch_equal_values_witness :
  dispatch (fun (_ : Z) (_ : Event) (_ : list Z) => Ok tt)
    (add_all Router_init [(1, "Merge Request Hook", [("work_in_progress", JNum 1)])])
    (mkEvent (JObj [("object_attributes", JObj [("work_in_progress", JBool true)])])
             "Merge Request Hook" None) []
  = dispatch (fun (_ : Z) (_ : Event) (_ : list Z) => Ok tt)
    (add_all Router_init [(1, "Merge Request Hook", [("work_in_progress", JBool true)])])
    (mkEvent (JObj [("object_attributes", JObj [("work_in_progress", JBool true)])])
             "Merge Request Hook" None) [].
Proof.
  apply (dispatch_equal_values (fun (_ : Z) (_ : Event) (_ : list Z) => Ok tt) [] []
           1 "Merge Request Hook" "work_in_progress" (JBool true) (JNum 1)); reflexivity.
Defined.

(** An event whose data is not a dict (an empty body decodes to [None]):
    [object_attributes] raises [AttributeError]; on a router built by
    [add] calls with hashable values, [dispatch] then raises that
    [AttributeError] without awaiting any callback, not even the shallow
    ones, as soon as an attribute key is registered for the event type; with
    none registered it awaits the shallow callbacks of the event type in
    registration order. *)
Theorem dispatch_non_dict_data {C A : Type} (call : C -> Event -> list A -> res unit)
  (regs : list (registration (Callback := C))) (ev : Event) (args : list A) :
  forallb valid_registration regs = true ->
  (forall fs, data ev <> JObj fs) ->
  object_attributes ev = Err AttributeError /\
  (deep_keys (event ev) regs <> [] ->
   dispatch call (add_all Router_init regs) ev args = ([], Err AttributeError)) /\
  (deep_keys (event ev) regs = [] ->
   dispatch call (add_all Router_init regs) ev args
   = run_callbacks call (map reg_cb (filter (shallow_for (event ev)) regs)) ev args).
Proof.
  intros Hv Hd.
  assert (Hoa : object_attributes ev = Err AttributeError).
  { unfold object_attributes, py_get. destruct (data ev) eqn:E; try reflexivity.
    exfalso. exact (Hd fields eq_refl). }
  destruct (tables_match_add_all regs Hv) as (HS & HK & _).
  specialize (HK (event ev)).
  split; [exact Hoa | split]; intros Hk; unfold dispatch; rewrite found_callbacks_goe.
  - destruct (get_or_empty (event ev) (_deep_routes (add_all Router_init regs)))
      as [|[k dv] rest] eqn:E.
    + exfalso. apply Hk. rewrite <- HK. reflexivity.
    + cbn [collect_deep]. rewrite Hoa. reflexivity.
  - destruct (get_or_empty (event ev) (_deep_routes (add_all Router_init regs)))
      as [|[k dv] rest] eqn:E.
    + cbn [collect_deep bind]. rewrite app_nil_r, HS. reflexivity.
    + rewrite Hk in HK. discriminate HK.
Qed.

Lemma dispatch_non_dict_data_witness :
  dispatch (fun (_ : Z) (_ : Event) (_ : list Z) => Ok tt)
    (add_all Router_init ((0, "Issue Hook", []) :: issue_registrations))
    (mkEvent JNull "Issue Hook" None) []
  = ([], Err AttributeError).
Proof.
  apply (proj1 (proj2 (dispatch_non_dict_data (fun (_ : Z) (_ : Event) (_ : list Z) => Ok tt)
                         ((0, "Issue Hook", []) :: issue_registrations)
                         (mkEvent JNull "Issue Hook" None) [] eq_refl
                         (fun fs H => ltac:(discriminate H))))).
  discriminate.
Defined.

(** An unhashable event value (a list or a dict) under an attribute key
    registered for the event type makes [dispatch] raise [TypeError] before
    awaiting any callback. *)
Theorem dispatch_unhashable_value {C A : Type} (call : C -> Event -> list A -> res unit)
  (regs : list (registration (Callback := C))) (ev : Event) (args : list A)
  (oa : list (string * json)) (k : string) (x : json) :
  forallb valid_registration regs = true ->
  object_attributes ev = Ok (JObj oa) ->
  In k (deep_keys (event ev) regs) -> assoc k oa = Some x -> hashable x = false ->
  dispatch call (add_all Router_init regs) ev args = ([], Err TypeError).
Proof.
  intros Hv Hoa Hk Hx Hh. destruct (tables_match_add_all regs Hv) as (_ & HK & _).
  unfold dispatch. rewrite found_callbacks_goe.
  rewrite (collect_deep_unhashable ev oa _ k x Hoa) by (rewrite ?HK; assumption).
  reflexivity.
Qed.

Lemma dispatch_unhashable_value_witness :
  dispatch (fun (_ : Z) (_ : Event) (_ : list Z) => Ok tt)
    (add_all Router_init issue_registrations)
    (mkEvent (JObj [("object_attributes", JObj [("action", JArr [])])]) "Issue Hook" None) []
  = ([], Err TypeError).
Proof.
  apply (dispatch_unhashable_value (fun (_ : Z) (_ : Event) (_ : list Z) => Ok tt)
           issue_registrations _ [] [("action", JArr [])] "action" (JArr []));
    try reflexivity.
  simpl. left. reflexivity.
Defined.

(** A callback that raises ends [dispatch]: the callbacks before it in the
    dispatch order have been awaited, the ones after it are not, and its
    exception propagates. *)
Theorem dispatch_stops_at_failure {C A : Type} (call : C -> Event -> list A -> res unit)
  (regs : list (registration (Callback := C))) (ev : Event) (args : list A)
  (oa : list (string * json)) (pre post : list C) (f : C) (e : exn) :
  forallb valid_registration regs = true ->
  object_attributes ev = Ok (JObj oa) ->
  (forall k x, In k (deep_keys (event ev) regs) -> assoc k oa = Some x -> hashable x = true) ->
  grouped_dispatch_order regs (event ev) oa = pre ++ f :: post ->
  (forall g, In g pre -> call g ev args = Ok tt) -> call f ev args = Err e ->
  dispatch call (add_all Router_init regs) ev args
  = (map (fun g => (g, ev, args)) (pre ++ [f]), Err e).
Proof.
  intros Hv Hoa Hh Hord Hpre Hf. unfold dispatch.
  rewrite (found_callbacks_add_all regs ev oa Hv Hoa Hh), Hord.
  apply run_callbacks_fail; assumption.
Qed.

Lemma dispatch_stops_at_failure_witness :
  dispatch (fun (f : Z) (_ : Event) (_ : list Z) => if Z.eqb f 3 then Err ValueError else Ok tt)
    (add_all Router_init issue_registrations) issue_event []
  = ([(1, issue_event, []); (3, issue_event, [])], Err ValueError).
Proof.
  apply (dispatch_stops_at_failure
           (fun (f : Z) (_ : Event) (_ : list Z) => if Z.eqb f 3 then Err ValueError else Ok tt)
           issue_registrations issue_event [] [("action", JStr "open"); ("state", JStr "opened")]
           [1] [2] 3 ValueError); try reflexivity.
  - intros k x _ Hx. simpl in Hx.
    destruct (String.eqb k "action"); [|destruct (String.eqb k "state")];
      (injection Hx as <- || discriminate Hx); reflexivity.
  - intros g [<-|[]]. reflexivity.
Defined.

End RouterExtras.

(** * Webhook events and responses: edge behaviour *)

Module SansioExtras.

Import Classify.

Lemma project_id_eq (ev : Event) :
  project_id ev =
  match data ev with
  | JObj fs =>
      match assoc "project" fs with
      | Some (JObj ps) =>
          match assoc "id" ps with Some i => Ok i | None => Err AttributeError end
      | Some _ => Err TypeError
      | None => Err AttributeError
      end
  | _ => Err TypeError
  end.
Proof.
  unfold project_id, py_getitem.
  destruct (data ev) as [| | | | |fs]; try reflexivity. cbn [bind].
  destruct (assoc "project" fs) as [[| | | | |ps]|]; try reflexivity. cbn [bind].
  destruct (assoc "id" ps); reflexivity.
Qed.

(** [Event.project_id]: the id is returned exactly when the data is a dict
    whose [project] is a dict holding [id]; a missing key gives
    [AttributeError] (never [KeyError]); a non-dict data or project gives
    [TypeError]. *)
Theorem project_id_cases (ev : Event) :
  (forall i, project_id ev = Ok i <->
     exists fs ps, data ev = JObj fs /\ assoc "project" fs = Some (JObj ps) /\
                   assoc "id" ps = Some i) /\
  project_id ev <> Err KeyError /\
  (forall fs, data ev = JObj fs -> assoc "project" fs = None ->
     project_id ev = Err AttributeError) /\
  (forall fs ps, data ev = JObj fs -> assoc "project" fs = Some (JObj ps) ->
     assoc "id" ps = None -> project_id ev = Err AttributeError) /\
  (forall fs p, data ev = JObj fs -> assoc "project" fs = Some p -> (forall ps, p <> JObj ps) ->
     project_id ev = Err TypeError) /\
  ((forall fs, data ev <> JObj fs) -> project_id ev = Err TypeError).
Proof.
  rewrite !project_id_eq.
  destruct (data ev) as [| | | | |fs] eqn:Ed;
    [| | | | | destruct (assoc "project" fs) as [p|] eqn:Ep;
                [destruct p as [| | | | |ps]; [| | | | | destruct (assoc "id" ps) eqn:Ei]|]];
    repeat split; intros; try discriminate;
    repeat match goal with
    | H : exists _, _ |- _ => destruct H
    | H : _ /\ _ |- _ => destruct H
    | H : JObj _ = JObj _ |- _ => injection H as <-
    | H : Some _ = Some _ |- _ => injection H as H
    | H : Some _ = None |- _ => discriminate H
    | H : None = Some _ |- _ => discriminate H
    | H : Ok _ = Ok _ |- _ => injection H as <-
    end; subst; try congruence; eauto 6;
    try (exfalso; match goal with H : forall _, _ <> _ |- _ => eapply H; reflexivity end).
Qed.

Lemma project_id_cases_witness :
  project_id (mkEvent (JObj [("project", JObj [("name", JStr "gidgetlab")])]) "Push Hook" None)
  = Err AttributeError.
Proof.
  apply (proj1 (proj2 (proj2 (proj2 (project_id_cases
           (mkEvent (JObj [("project", JObj [("name", JStr "gidgetlab")])]) "Push Hook" None)))))
           [("project", JObj [("name", JStr "gidgetlab")])] [("name", JStr "gidgetlab")]);
    reflexivity.
Defined.

Lemma length_nonempty (s : string) : s <> "" -> Nat.eqb (String.length s) 0 = false.
Proof. destruct s; [congruence | reflexivity]. Qed.

Lemma truthy_nonempty (s : string) : s <> "" -> opt_str_truthy (Some s) = true.
Proof. intros H. cbn. apply String.eqb_neq in H. rewrite H. reflexivity. Qed.

(** [_decode_body] on a non-empty body and a non-empty content-type, after
    the charset decoding. *)
Lemma decode_body_nonempty (L : pylib) (ct body : string) (strict : bool) type_ enc :
  ct <> "" -> body <> "" -> _parse_content_type L (Some ct) = (type_, enc) ->
  _decode_body L (Some ct) body strict =
  (decoded_body <- bytes_decode L enc body ;;
   if opt_eqb type_ "application/json" then json_loads L decoded_body
   else if opt_eqb type_ "application/x-www-form-urlencoded" then
     vs <- match assoc "payload" (parse_qs L decoded_body) with
           | Some vs => Ok vs
           | None => Err KeyError
           end ;;
     match vs with
     | v :: _ => json_loads L v
     | [] => Err IndexError
     end
   else if strict then Err ValueError
   else Ok (JStr decoded_body)).
Proof.
  intros Hct Hb Hp. unfold _decode_body. rewrite Hp.
  rewrite (length_nonempty _ Hb), (truthy_nonempty _ Hct). reflexivity.
Qed.

(** [_decode_body]: without a content-type, or with an empty one, any body
    decodes to [None]. Otherwise, on a non-empty body decoded with the
    charset, a type other than JSON or form data raises [ValueError] when
    [strict] and gives the text itself when not; a form body without a
    [payload] field raises [KeyError] whatever [strict], and with one the
    first [payload] value is parsed as JSON. *)
Theorem decode_body_edges (L : pylib) :
  (forall body strict, _decode_body L None body strict = Ok JNull) /\
  (forall body strict, _decode_body L (Some "") body strict = Ok JNull) /\
  (forall ct body type_ enc s strict, ct <> "" -> body <> "" ->
     _parse_content_type L (Some ct) = (type_, enc) -> bytes_decode L enc body = Ok s ->
     opt_eqb type_ "application/json" = false ->
     opt_eqb type_ "application/x-www-form-urlencoded" = false ->
     _decode_body L (Some ct) body strict = if strict then Err ValueError else Ok (JStr s)) /\
  (forall ct body enc s strict, ct <> "" -> body <> "" ->
     _parse_content_type L (Some ct) = (Some "application/x-www-form-urlencoded", enc) ->
     bytes_decode L enc body = Ok s ->
     (assoc "payload" (parse_qs L s) = None -> _decode_body L (Some ct) body strict = Err KeyError) /\
     (forall v vs, assoc "payload" (parse_qs L s) = Some (v :: vs) ->
        _decode_body L (Some ct) body strict = json_loads L v)).
Proof.
  split; [|split; [|split]].
  - intros body strict. unfold _decode_body. cbn. rewrite orb_true_r. reflexivity.
  - intros body strict. unfold _decode_body. cbn. rewrite orb_true_r. reflexivity.
  - intros ct body type_ enc s strict Hct Hb Hp Hs Hj Hf.
    rewrite (decode_body_nonempty L ct body strict type_ enc Hct Hb Hp), Hs. cbn [bind].
    rewrite Hj, Hf. reflexivity.
  - intros ct body enc s strict Hct Hb Hp Hs.
    rewrite (decode_body_nonempty L ct body strict _ enc Hct Hb Hp), Hs. cbn [bind opt_eqb].
    split; [intros Hq | intros v vs Hq]; rewrite Hq; reflexivity.
Qed.

Lemma decode_body_edges_witness :
  _decode_body CPython.lib (Some "text/plain") "hi" false = Ok (JStr "hi").
Proof.
  apply (proj1 (proj2 (proj2 (decode_body_edges CPython.lib))) "text/plain" "hi"
           (Some "text/plain") "utf-8" "hi" false);
    (discriminate || vm_compute; reflexivity).
Defined.

(** [Event.from_http] without a signature header or secret, whether or not
    the event type header is present: a missing content-type header raises
    the 415 [BadRequest]; on a non-empty body with a non-empty content-type, an
    unknown charset raises [LookupError], which is not caught, while a
    charset decoding error, a type other than JSON or form data, a JSON
    parse error and a form body without [payload] all raise the 415
    [BadRequest]. *)
Theorem from_http_decode_errors (L : pylib) (h : headers) (body : string) :
  hget "x-gitlab-token" h = None ->
  (hget "content-type" h = None -> Event_from_http L h body None = Err content_type_error) /\
  (forall ct type_ enc, hget "content-type" h = Some ct -> ct <> "" -> body <> "" ->
     _parse_content_type L (Some ct) = (type_, enc) ->
     (bytes_decode L enc body = Err LookupError ->
        Event_from_http L h body None = Err LookupError) /\
     (forall e, bytes_decode L enc body = Err e -> is_value_error e = true ->
        Event_from_http L h body None = Err content_type_error) /\
     (forall s, bytes_decode L enc body = Ok s -> opt_eqb type_ "application/json" = false ->
        opt_eqb type_ "application/x-www-form-urlencoded" = false ->
        Event_from_http L h body None = Err content_type_error) /\
     (forall s e, bytes_decode L enc body = Ok s -> opt_eqb type_ "application/json" = true ->
        json_loads L s = Err e -> is_value_error e = true ->
        Event_from_http L h body None = Err content_type_error) /\
     (forall s, bytes_decode L enc body = Ok s ->
        opt_eqb type_ "application/x-www-form-urlencoded" = true ->
        assoc "payload" (parse_qs L s) = None ->
        Event_from_http L h body None = Err content_type_error)).
Proof.
  intros Htok. unfold Event_from_http, decode_event. rewrite Htok.
  split; [intros Hct; rewrite Hct; reflexivity|].
  intros ct type_ enc Hct Hne Hb Hp. rewrite Hct. cbn [bind].
  rewrite (decode_body_nonempty L ct body true type_ enc Hne Hb Hp).
  split; [|split; [|split; [|split]]].
  - intros Hs. rewrite Hs. reflexivity.
  - intros e Hs He. rewrite Hs. cbn [bind].
    destruct e; try discriminate He; reflexivity.
  - intros s Hs Hj Hf. rewrite Hs. cbn [bind]. rewrite Hj, Hf. reflexivity.
  - intros s e Hs Hj Hl He. rewrite Hs. cbn [bind]. rewrite Hj, Hl.
    destruct e; try discriminate He; reflexivity.
  - intros s Hs Hf Hq. rewrite Hs. cbn [bind].
    destruct (opt_eqb type_ "application/json") eqn:Hj.
    + destruct type_ as [t|]; [|discriminate].
      cbn in Hj, Hf. apply String.eqb_eq in Hj, Hf. congruence.
    + rewrite Hf, Hq. reflexivity.
Qed.

Lemma from_http_decode_errors_witness :
  Event_from_http CPython.lib
    [("content-type", "text/plain; charset=foo"); ("x-gitlab-event", "Push Hook")] "x" None
  = Err LookupError.
Proof.
  apply (proj1 (proj2 (from_http_decode_errors CPython.lib
           [("content-type", "text/plain; charset=foo"); ("x-gitlab-event", "Push Hook")]
           "x" eq_refl)
           "text/plain; charset=foo" (Some "text/plain") "foo" eq_refl
           ltac:(discriminate) ltac:(discriminate) ltac:(vm_compute; reflexivity)));
    vm_compute; reflexivity.
Defined.

Lemma mapM_fields (es : list json) (fields : list json) :
  Forall2 (fun e f => py_getitem e "field" = Ok f) es fields ->
  mapM (fun e => f <- py_getitem e "field" ;; Ok (py_repr f)) es = Ok (map py_repr fields).
Proof.
  induction 1 as [|e f es fields Hf _ IH]; [reflexivity|].
  cbn. rewrite Hf. cbn [bind]. rewrite IH. reflexivity.
Qed.

(** [decipher_response] on a 422 whose body decodes to a dict: a non-empty
    [errors] list whose entries all have a [field] raises [InvalidField]
    with that list and the message [str(message) + " for " + ", ".join of
    the [repr] of the fields]; with [errors] absent or falsy and a
    [message] present, [InvalidField] carries [errors] (or [None]) and the
    message itself; an entry without [field] raises [KeyError]. *)
Theorem decipher_422_errors (L : pylib) (now : Q) (h : headers) (body : string)
  (fs : list (string * json)) :
  _decode_body L (hget "content-type" h) body false = Ok (JObj fs) ->
  (forall es fields, assoc "errors" fs = Some (JArr es) -> es <> [] ->
     Forall2 (fun e f => py_getitem e "field" = Ok f) es fields ->
     decipher_response L now 422 h body
     = Err (InvalidField (JArr es)
              (JStr (py_str (body_message (JObj fs)) +++ " for "
                     +++ join ", " (map py_repr fields))))) /\
  (forall m, match assoc "errors" fs with Some e => truthy e | None => false end = false ->
     assoc "message" fs = Some m ->
     decipher_response L now 422 h body
     = Err (InvalidField (match assoc "errors" fs with Some e => e | None => JNull end) m)) /\
  (forall es pre e post, assoc "errors" fs = Some (JArr es) -> es = pre ++ e :: post ->
     Forall (fun x => exists f, py_getitem x "field" = Ok f) pre ->
     py_getitem e "field" = Err KeyError ->
     decipher_response L now 422 h body = Err KeyError).
Proof.
  intros Hd. unfold decipher_response. rewrite Hd. cbn [bind is_success Z.eqb orb Pos.eqb].
  rewrite message_step. cbn [bind Z.leb Z.compare Pos.compare Pos.compare_cont Z.eqb Pos.eqb].
  cbn [py_get]. split; [|split].
  - intros es fields He Hne Hf. rewrite He.
    destruct es as [|x es']; [congruence|]. cbn [truthy py_iter bind].
    rewrite (mapM_fields _ _ Hf). reflexivity.
  - intros m Ht Hm. destruct (assoc "errors" fs) as [e|]; cbn [bind truthy]; rewrite ?Ht;
      cbn [py_getitem]; rewrite Hm; reflexivity.
  - intros es pre e post He -> Hpre Hk. rewrite He.
    assert (Hm : forall post', mapM (fun e => f <- py_getitem e "field" ;; Ok (py_repr f))
                                 (pre ++ e :: post') = Err KeyError).
    { clear He Hd. intros post'.
      induction Hpre as [|x pre [f Hf] _ IH]; cbn; [rewrite Hk; reflexivity|].
      rewrite Hf. cbn [bind]. rewrite IH. reflexivity. }
    destruct pre; cbn [app truthy py_iter bind];
      [cbn in Hm |- *; rewrite Hk; reflexivity|].
    specialize (Hm post). cbn [app] in Hm. rewrite Hm. reflexivity.
Qed.

Lemma decipher_422_errors_witness :
  decipher_response CPython.lib 0 422 [("content-type", "application/json")]
    ("{" +++ dquote +++ "errors" +++ dquote +++ ": [{" +++ dquote +++ "field" +++ dquote
     +++ ": " +++ dquote +++ "title" +++ dquote +++ "}]}")
  = Err (InvalidField (JArr [JObj [("field", JStr "title")]])
           (JStr ("None for " +++ squote +++ "title" +++ squote))).
Proof.
  apply (proj1 (decipher_422_errors CPython.lib 0 [("content-type", "application/json")]
           ("{" +++ dquote +++ "errors" +++ dquote +++ ": [{" +++ dquote +++ "field" +++ dquote
            +++ ": " +++ dquote +++ "title" +++ dquote +++ "}]}")
           [("errors", JArr [JObj [("field", JStr "title")]])] ltac:(vm_compute; reflexivity))
           [JObj [("field", JStr "title")]] [JStr "title"] eq_refl ltac:(discriminate)
           (Forall2_cons (JObj [("field", JStr "title")]) (JStr "title") eq_refl (Forall2_nil _))).
Defined.

(** [decipher_response] and the rate-limit headers: when they do not parse,
    a success response and a 403 raise the parse error instead of
    returning or raising [BadRequest]; a 403 without them, or with a
    non-zero [remaining], raises [BadRequest] with the status and the
    body's message when truthy. *)
Theorem decipher_rate_limit_headers (L : pylib) (now : Q) (st : Z) (h : headers)
  (body : string) (d : json) :
  _decode_body L (hget "content-type" h) body false = Ok d ->
  (forall e, RateLimit_from_http L h = Err e -> (is_success st = true \/ st = 403) ->
     decipher_response L now st h body = Err e) /\
  ((RateLimit_from_http L h = Ok None \/
    exists r, RateLimit_from_http L h = Ok (Some r) /\ remaining r <> 0) ->
   decipher_response L now 403 h body
   = Err (HTTPError BadRequest 403
            (if truthy (body_message d) then Some (body_message d) else None))).
Proof.
  intros Hd. unfold decipher_response. rewrite Hd. cbn [bind]. split.
  - intros e He [Hs | ->].
    + rewrite Hs, He. reflexivity.
    + cbn [is_success Z.eqb orb Pos.eqb]. rewrite message_step.
      cbn [bind Z.leb Z.compare Pos.compare Pos.compare_cont Z.eqb Pos.eqb].
      rewrite He. reflexivity.
  - intros Hr. cbn [is_success Z.eqb orb Pos.eqb]. rewrite message_step.
    cbn [bind Z.leb Z.compare Pos.compare Pos.compare_cont Z.eqb Pos.eqb].
    destruct Hr as [Hr | (r & Hr & Hrem)]; rewrite Hr; cbn [bind];
      [reflexivity|].
    apply Z.eqb_neq in Hrem. rewrite Hrem, andb_false_r. reflexivity.
Qed.

Lemma decipher_rate_limit_headers_witness :
  decipher_response CPython.lib 0 200 [("ratelimit-limit", "many")] "" = Err ValueError.
Proof.
  apply (proj1 (decipher_rate_limit_headers CPython.lib 0 200 [("ratelimit-limit", "many")]
                  "" JNull ltac:(vm_compute; reflexivity)) ValueError);
    [vm_compute; reflexivity | left; reflexivity].
Defined.

End SansioExtras.

(** * The request orchestrator: responses and requests *)

Module ClientExtras.

Import DictFacts CacheUse Pagination Classify.

(** What [prepare_request] builds and leaves in the state. *)
Lemma prepare_facts (L : pylib) (api : GitLabAPI) (method u : string) (data : req_data)
  (s : state) :
  exists b h cb cached s1,
    prepare_request L api method u data s = (Ok (b, h, cb, cached), s1) /\
    cache s1 = cache s /\ rate_limit s1 = rate_limit s /\ pending s1 = pending s /\
    sent s1 = sent s /\ yielded s1 = yielded s /\
    hget "user-agent" h = Some (requester api) /\
    hget "accept" h = Some "application/json" /\
    hget "private-token" h = access_token api /\
    (data = NoData -> b = "" /\ hget "content-length" h = Some "0" /\
                      hget "content-type" h = None) /\
    (forall j, data = Data j -> b = json_dumps L j /\
       hget "content-type" h = Some "application/json; charset=utf-8" /\
       hget "content-length" h = Some (z_to_dec (Z.of_nat (String.length (json_dumps L j))))) /\
    (cached = None \/ exists c, cache s = Some c /\ method = "GET" /\ data = NoData /\
       exists etag lm d m, assoc u c = Some (etag, lm, d, m) /\ cached = Some (d, m)).
Proof.
  unfold prepare_request, mbind, get_state, ret, cache_get.
  destruct (access_token api) as [t|] eqn:Et;
  destruct data as [|j]; cbn;
    [destruct (String.eqb method "GET") eqn:Em; cbn; [destruct (cache s) as [c|] eqn:Ec|];
       cbn; [rewrite Ec; cbn; destruct (assoc u c) as [[[[etag lm] d] m]|] eqn:Ea;
             [destruct etag, lm|] | |]
    | | destruct (String.eqb method "GET") eqn:Em; cbn; [destruct (cache s) as [c|] eqn:Ec|];
       cbn; [rewrite Ec; cbn; destruct (assoc u c) as [[[[etag lm] d] m]|] eqn:Ea;
             [destruct etag, lm|] | |]
    | ];
    do 5 eexists; (split; [reflexivity|]); cbn;
    repeat split; try reflexivity; try discriminate;
    try (intros ? Hj; injection Hj as <-; repeat split; reflexivity);
    try (match goal with H : Data _ = Data _ |- _ => injection H as <-; reflexivity end);
    try apply String.eqb_eq in Em;
    try (right; eexists; split; [reflexivity|]; split; [assumption|]; split; [reflexivity|];
         do 4 eexists; split; [eassumption | reflexivity]);
    eauto 10.
Qed.

(** [store_response] in one step: the deciphered payload and next link,
    with [self.rate_limit] replaced, or the error with the state untouched. *)
Lemma store_response_cases (L : pylib) (now : Q) (u : string) (cb : bool) (resp : response)
  (s : state) :
  exists s3,
    store_response L now u cb resp s
    = match decipher_response L now (rs_status resp) (rs_headers resp) (rs_body resp) with
      | Ok (d, _, more) => (Ok (d, more), s3)
      | Err e => (Err e, s)
      end /\
    pending s3 = pending s /\ yielded s3 = yielded s /\ sent s3 = sent s /\
    (forall d rl more,
       decipher_response L now (rs_status resp) (rs_headers resp) (rs_body resp)
       = Ok (d, rl, more) -> rate_limit s3 = rl).
Proof.
  unfold store_response, mbind, lift, set_rate_limit, get_state, ret, cache_set.
  destruct (decipher_response _ _ _ _ _) as [[[d rl] more]|e]; cbn.
  - destruct (cache s) eqn:Ec; cbn; [destruct (_ && _); cbn; rewrite ?Ec; cbn|];
      (eexists; split; [reflexivity|]); cbn; repeat split;
      intros ? ? ? Hd; injection Hd as _ <- _; reflexivity.
  - exists s. split; [reflexivity|]. repeat split. intros ? ? ? Hd; discriminate.
Qed.

(** One exchange of [_make_request] whose response is not a [304]: the
    result is what [decipher_response] gives, with [self.rate_limit] set
    from the response, or left decremented on an error. *)
Lemma make_request_response (L : pylib) (now : Q) (api : GitLabAPI) (method url : string)
  (params : list (string * string)) (data : req_data) (s : state) (u : string)
  (resp : response) (rest : list response) :
  format_url L api url params = Ok u -> pending s = resp :: rest -> rs_status resp <> 304 ->
  exists s',
    _make_request L now api method url params data s
    = match decipher_response L now (rs_status resp) (rs_headers resp) (rs_body resp) with
      | Ok (d, _, more) => (Ok (d, more), s')
      | Err e => (Err e, s')
      end /\
    pending s' = rest /\ yielded s' = yielded s /\
    rate_limit s'
    = match decipher_response L now (rs_status resp) (rs_headers resp) (rs_body resp) with
      | Ok (_, rl, _) => rl
      | Err _ => option_map decrement (rate_limit s)
      end.
Proof.
  intros Hu Hps H304. apply Z.eqb_neq in H304.
  destruct (prepare_facts L api method u data s)
    as (b & h & cb & cached & s1 & Hp & Hc1 & Hr1 & Hp1 & Hs1 & Hy1 & _).
  rewrite (make_request_shape L now api method url params data s u b h cb cached s1 Hu Hp).
  rewrite Hp1, Hps.
  match goal with |- context [store_response L now u cb resp ?s2] =>
    destruct (store_response_cases L now u cb resp s2) as (s3 & Hst & Hq & Hy & _ & Hrl)
  end.
  replace (match cached with
           | Some (cd, cm) => if rs_status resp =? 304 then _ else _
           | None => _ end)
    with (store_response L now u cb resp
            (mkState (cache s1) (option_map decrement (rate_limit s1)) (tl (resp :: rest))
                     (sent s1 ++ [mkRequest method u h b]) (cache_log s1) (yielded s1)))
    by (destruct cached as [[cd cm]|]; [rewrite H304|]; reflexivity).
  rewrite Hst.
  destruct (decipher_response _ _ _ _ _) as [[[d rl] more]|e] eqn:Ed.
  - exists s3. cbn in Hq, Hy. rewrite Hq, Hy, Hy1. split; [reflexivity|].
    split; [reflexivity|]. split; [reflexivity|]. exact (Hrl d rl more eq_refl).
  - eexists. split; [reflexivity|]. cbn. rewrite Hy1, Hr1. auto.
Qed.

(** A [304] to a conditional request made from the cache entry of the
    resolved URL: [_make_request] returns the cached payload and next link
    without deciphering the response, and leaves the cache as it was and
    [self.rate_limit] only decremented. *)
Theorem make_request_not_modified (L : pylib) (now : Q) (api : GitLabAPI) (url : string)
  (params : list (string * string)) (s : state) (u : string) (c : list (string * cache_entry))
  etag lm d m (resp : response) (rest : list response) :
  format_url L api url params = Ok u -> cache s = Some c ->
  assoc u c = Some (etag, lm, d, m) ->
  pending s = resp :: rest -> rs_status resp = 304 ->
  exists h,
    _make_request L now api "GET" url params NoData s
    = (Ok (d, m), mkState (cache s) (option_map decrement (rate_limit s)) rest
                          (sent s ++ [mkRequest "GET" u h ""]) (cache_log s ++ [CacheGet u])
                          (yielded s)).
Proof.
  intros Hu Hc Ha Hps H304.
  assert (He : cache_eligible "GET" NoData s = true)
    by (unfold cache_eligible, cache_configured; rewrite Hc; reflexivity).
  destruct (prepare_eligible L api "GET" u NoData s c He Hc) as (h & cached & Hp & _ & Hhit).
  destruct (Hhit etag lm d m Ha) as [-> _].
  rewrite (make_request_shape L now api "GET" url params NoData s u "" h true _ _ Hu Hp).
  cbn. rewrite Hps, H304. cbn. exists h. reflexivity.
Qed.

Lemma make_request_not_modified_witness :
  fst (_make_request CPython.lib 0 sample_api "GET" "/projects" [] NoData
         (sample_state [mkResponse 304 [] ""])) = Ok (JArr [], None).
Proof.
  destruct (make_request_not_modified CPython.lib 0 sample_api "/projects" []
              (sample_state [mkResponse 304 [] ""]) "https://gitlab.com/api/v4/projects"
              [("https://gitlab.com/api/v4/projects", (Some "abc", None, JArr [], None))]
              (Some "abc") None (JArr []) None (mkResponse 304 [] "") []
              ltac:(vm_compute; reflexivity) eq_refl eq_refl eq_refl eq_refl) as [h Hm].
  rewrite Hm. reflexivity.
Defined.

Lemma decipher_304 (L : pylib) (now : Q) (h : headers) (body : string) (dat : json) :
  _decode_body L (hget "content-type" h) body false = Ok dat ->
  decipher_response L now 304 h body
  = Err (HTTPError RedirectionException 304
           (if truthy (body_message dat) then Some (body_message dat) else None)).
Proof.
  intros Hd. unfold decipher_response. rewrite Hd. cbn [bind is_success Z.eqb orb Pos.eqb].
  rewrite message_step. reflexivity.
Qed.

(** A [304] answering a request that uses no cache entry (no cache, a
    request that is not a [GET] without a body, whatever the cache holds for
    its URL, or a [GET] without a body whose resolved URL has no entry) is
    deciphered like any response: [_make_request] raises
    [RedirectionException] for [304], with the body's message when truthy. *)
Theorem make_request_304_uncached (L : pylib) (now : Q) (api : GitLabAPI) (method url : string)
  (params : list (string * string)) (data : req_data) (s : state) (u : string)
  (resp : response) (rest : list response) (dat : json) :
  format_url L api url params = Ok u ->
  (forall c, cache s = Some c -> method = "GET" -> data = NoData -> assoc u c = None) ->
  pending s = resp :: rest -> rs_status resp = 304 ->
  _decode_body L (hget "content-type" (rs_headers resp)) (rs_body resp) false = Ok dat ->
  fst (_make_request L now api method url params data s)
  = Err (HTTPError RedirectionException 304
           (if truthy (body_message dat) then Some (body_message dat) else None)).
Proof.
  intros Hu Hmiss Hps H304 Hd.
  destruct (prepare_facts L api method u data s)
    as (b & h & cb & cached & s1 & Hp & Hc1 & Hr1 & Hp1 & Hs1 & Hy1 & _ & _ & _ & _ & _ & Hcd).
  assert (Hn : cached = None).
  { destruct Hcd as [Hn | (c & Hc & Hm & Hnd & etag & lm & d & m & Ha & _)]; [exact Hn|].
    rewrite (Hmiss c Hc Hm Hnd) in Ha. discriminate. }
  subst cached.
  rewrite (make_request_shape L now api method url params data s u b h cb None s1 Hu Hp).
  rewrite Hp1, Hps.
  match goal with |- context [store_response L now u cb resp ?s2] =>
    destruct (store_response_cases L now u cb resp s2) as (s3 & Hst & _)
  end.
  rewrite Hst, H304. rewrite (decipher_304 L now _ _ dat Hd). reflexivity.
Qed.

Lemma make_request_304_uncached_witness :
  fst (_make_request CPython.lib 0 sample_api "POST" "/projects" [] NoData
         (sample_state [mkResponse 304 [] ""]))
  = Err (HTTPError RedirectionException 304 None).
Proof.
  apply (make_request_304_uncached CPython.lib 0 sample_api "POST" "/projects" [] NoData
           (sample_state [mkResponse 304 [] ""]) "https://gitlab.com/api/v4/projects"
           (mkResponse 304 [] "") [] JNull).
  - vm_compute. reflexivity.
  - intros c _ Hm _. discriminate Hm.
  - reflexivity.
  - reflexivity.
  - reflexivity.
Defined.

(** [self.rate_limit] after an exchange with a response that is not a
    [304]: a deciphered response sets it to the response's rate limit
    ([None] without the headers) and returns the payload and next link; a
    response [decipher_response] rejects raises its error and leaves the
    old rate limit decremented by one. *)
Theorem make_request_rate_limit (L : pylib) (now : Q) (api : GitLabAPI) (method url : string)
  (params : list (string * string)) (data : req_data) (s : state) (u : string)
  (resp : response) (rest : list response) :
  format_url L api url params = Ok u -> pending s = resp :: rest ->
  (forall d rl more,
     decipher_response L now (rs_status resp) (rs_headers resp) (rs_body resp) = Ok (d, rl, more) ->
     fst (_make_request L now api method url params data s) = Ok (d, more) /\
     rate_limit (snd (_make_request L now api method url params data s)) = rl) /\
  (forall e,
     decipher_response L now (rs_status resp) (rs_headers resp) (rs_body resp) = Err e ->
     rs_status resp <> 304 ->
     fst (_make_request L now api method url params data s) = Err e /\
     rate_limit (snd (_make_request L now api method url params data s))
     = option_map decrement (rate_limit s)).
Proof.
  intros Hu Hps. split.
  - intros d rl more Hd.
    assert (H304 : rs_status resp <> 304).
    { intros E. apply decipher_ok_success in Hd. rewrite E in Hd. discriminate. }
    destruct (make_request_response L now api method url params data s u resp rest Hu Hps H304)
      as (s' & Hm & _ & _ & Hr).
    rewrite Hd in Hm, Hr. rewrite Hm. auto.
  - intros e Hd H304.
    destruct (make_request_response L now api method url params data s u resp rest Hu Hps H304)
      as (s' & Hm & _ & _ & Hr).
    rewrite Hd in Hm, Hr. rewrite Hm. auto.
Qed.

Lemma make_request_rate_limit_witness :
  rate_limit (snd (_make_request CPython.lib 0 sample_api "POST" "/projects" [] NoData
                     (sample_state [mkResponse 201 [] ""]))) = None.
Proof.
  apply (proj1 (make_request_rate_limit CPython.lib 0 sample_api "POST" "/projects" [] NoData
           (sample_state [mkResponse 201 [] ""]) "https://gitlab.com/api/v4/projects"
           (mkResponse 201 [] "") [] ltac:(vm_compute; reflexivity) eq_refl)
           JNull None None ltac:(vm_compute; reflexivity)).
Defined.

(** [_make_request] sends exactly one request, to the resolved URL with
    the given method, even when the transport has no response left (which
    then fails the call). Its headers carry the requester as [user-agent],
    [accept: application/json], and the access token as [private-token]
    only when there is one. Without a body it sends [content-length: 0] and
    no [content-type]; with a JSON value it sends [json.dumps] of it as the
    body, the JSON content-type and the body's length. *)
Theorem make_request_sends_one (L : pylib) (now : Q) (api : GitLabAPI) (method url : string)
  (params : list (string * string)) (data : req_data) (s : state) (u : string) :
  format_url L api url params = Ok u ->
  exists h b,
    sent (snd (_make_request L now api method url params data s))
    = sent s ++ [mkRequest method u h b] /\
    (pending s = [] -> fst (_make_request L now api method url params data s) = Err TransportError) /\
    hget "user-agent" h = Some (requester api) /\
    hget "accept" h = Some "application/json" /\
    hget "private-token" h = access_token api /\
    (data = NoData -> b = "" /\ hget "content-length" h = Some "0" /\
                      hget "content-type" h = None) /\
    (forall j, data = Data j -> b = json_dumps L j /\
       hget "content-type" h = Some "application/json; charset=utf-8" /\
       hget "content-length" h = Some (z_to_dec (Z.of_nat (String.length (json_dumps L j))))).
Proof.
  intros Hu.
  destruct (prepare_facts L api method u data s)
    as (b & h & cb & cached & s1 & Hp & Hc1 & Hr1 & Hp1 & Hs1 & Hy1 & Hua & Hacc & Htok
        & Hnd & Hdj & _).
  rewrite (make_request_shape L now api method url params data s u b h cb cached s1 Hu Hp).
  exists h, b. rewrite Hp1, <- Hs1.
  split; [|split; [intros He; rewrite He; reflexivity | auto 6]].
  destruct (pending s) as [|resp rest]; [reflexivity|].
  destruct cached as [[cd cm]|]; [destruct (rs_status resp =? 304)|];
    rewrite ?store_response_sent; reflexivity.
Qed.

Lemma make_request_sends_one_witness :
  exists h b,
    sent (snd (_make_request CPython.lib 0 sample_api "POST" "/projects" [] (Data (JNum 7))
                 (sample_state [])))
    = [mkRequest "POST" "https://gitlab.com/api/v4/projects" h b] /\ b = "7".
Proof.
  destruct (make_request_sends_one CPython.lib 0 sample_api "POST" "/projects" [] (Data (JNum 7))
              (sample_state []) "https://gitlab.com/api/v4/projects"
              ltac:(vm_compute; reflexivity))
    as (h & b & Hs & _ & _ & _ & _ & _ & Hj).
  exists h, b. split; [exact Hs|].
  destruct (Hj (JNum 7) eq_refl) as [-> _]. reflexivity.
Defined.

(** [getiter] on a last page (no truthy next link): a dict body yields its
    keys and a string body its characters, then the iteration ends; a body
    of [None] raises [TypeError] after the request, yielding nothing. *)
Theorem getiter_page_bodies (L : pylib) (now : Q) (api : GitLabAPI) (url : string)
  (params : list (string * string)) (fuel : nat) (s : state) (u : string)
  (resp : response) (rest : list response) d rl more :
  format_url L api url params = Ok u -> pending s = resp :: rest ->
  decipher_response L now (rs_status resp) (rs_headers resp) (rs_body resp) = Ok (d, rl, more) ->
  (forall fs, d = JObj fs -> opt_str_truthy more = false ->
     fst (getiter L now (S fuel) api url params s) = Ok tt /\
     yielded (snd (getiter L now (S fuel) api url params s))
     = yielded s ++ map (fun kv => JStr (fst kv)) fs) /\
  (forall str, d = JStr str -> opt_str_truthy more = false ->
     fst (getiter L now (S fuel) api url params s) = Ok tt /\
     yielded (snd (getiter L now (S fuel) api url params s)) = yielded s ++ chars str) /\
  (d = JNull ->
     fst (getiter L now (S fuel) api url params s) = Err TypeError /\
     yielded (snd (getiter L now (S fuel) api url params s)) = yielded s).
Proof.
  intros Hu Hps Hd.
  destruct (make_request_page L now api url params s u resp rest d rl more Hu Hps Hd)
    as (s1 & h & Hm & _ & _ & Hy1).
  cbn [getiter]. rewrite (mbind_Ok _ _ _ _ _ Hm). cbv beta iota.
  split; [|split].
  - intros fs -> Hmore. erewrite mbind_Ok by reflexivity.
    rewrite (mbind_Ok _ _ _ _ _ (yield_all_ok _ s1)). rewrite Hmore. cbn. rewrite Hy1. auto.
  - intros str -> Hmore. erewrite mbind_Ok by reflexivity.
    rewrite (mbind_Ok _ _ _ _ _ (yield_all_ok _ s1)). rewrite Hmore. cbn. rewrite Hy1. auto.
  - intros ->. cbn. auto.
Qed.

Lemma getiter_page_bodies_witness :
  yielded (snd (getiter CPython.lib 0 1 sample_api "/groups" []
                  (sample_state [mkResponse 200 [("content-type", "application/json")]
                                   ("{" +++ dquote +++ "a" +++ dquote +++ ": 1}")])))
  = [JStr "a"].
Proof.
  apply (proj2 (proj1 (getiter_page_bodies CPython.lib 0 sample_api "/groups" [] 0
           (sample_state [mkResponse 200 [("content-type", "application/json")]
                            ("{" +++ dquote +++ "a" +++ dquote +++ ": 1}")])
           "https://gitlab.com/api/v4/groups"
           (mkResponse 200 [("content-type", "application/json")]
              ("{" +++ dquote +++ "a" +++ dquote +++ ": 1}")) []
           (JObj [("a", JNum 1)]) None None
           ltac:(vm_compute; reflexivity) eq_refl ltac:(vm_compute; reflexivity))
           [("a", JNum 1)] eq_refl eq_refl)).
Defined.

(** [getiter] does not roll back: when the second page's response is
    rejected by [decipher_response], the call raises that error after the
    items of the first page have been yielded. *)
Theorem getiter_later_failure (L : pylib) (now : Q) (api : GitLabAPI) (url : string)
  (params : list (string * string)) (fuel : nat) (s : state) (u1 u2 m : string)
  (resp1 resp2 : response) (rest : list response) items rl e :
  format_url L api url params = Ok u1 -> format_url L api m params = Ok u2 ->
  pending s = resp1 :: resp2 :: rest ->
  decipher_response L now (rs_status resp1) (rs_headers resp1) (rs_body resp1)
  = Ok (JArr items, rl, Some m) -> m <> "" ->
  decipher_response L now (rs_status resp2) (rs_headers resp2) (rs_body resp2) = Err e ->
  rs_status resp2 <> 304 ->
  fst (getiter L now (S (S fuel)) api url params s) = Err e /\
  yielded (snd (getiter L now (S (S fuel)) api url params s)) = yielded s ++ items.
Proof.
  intros Hu1 Hu2 Hps Hd1 Hm Hd2 H304.
  destruct (make_request_page L now api url params s u1 resp1 (resp2 :: rest) (JArr items) rl
              (Some m) Hu1 Hps Hd1) as (s1 & h & Hm1 & _ & Hp1 & Hy1).
  cbn [getiter]. rewrite (mbind_Ok _ _ _ _ _ Hm1). cbv beta iota.
  erewrite mbind_Ok by reflexivity.
  rewrite (mbind_Ok _ _ _ _ _ (yield_all_ok _ s1)).
  rewrite (SansioExtras.truthy_nonempty _ Hm).
  destruct (make_request_response L now api "GET" m params NoData
              (mkState (cache s1) (rate_limit s1) (pending s1) (sent s1) (cache_log s1)
                       (yielded s1 ++ items)) u2 resp2 rest Hu2 Hp1 H304)
    as (s2 & Hm2 & _ & Hy2 & _).
  rewrite Hd2 in Hm2. cbn [getiter]. rewrite (mbind_Err _ _ _ _ _ Hm2). cbn.
  cbn in Hy2. rewrite Hy2, Hy1. auto.
Qed.

Lemma getiter_later_failure_witness :
  fst (getiter CPython.lib 0 2 sample_api "/groups" []
         (sample_state [mkResponse 200 [("content-type", "application/json");
                                        ("link", "<https://gitlab.com/api/v4/groups?page=2>; rel=" +++ dquote +++ "next" +++ dquote)] "[1]";
                        mkResponse 500 [] ""]))
  = Err (HTTPError GitLabBroken 500 None).
Proof.
  apply (getiter_later_failure CPython.lib 0 sample_api "/groups" [] 0
           (sample_state [mkResponse 200 [("content-type", "application/json");
                                        ("link", "<https://gitlab.com/api/v4/groups?page=2>; rel=" +++ dquote +++ "next" +++ dquote)] "[1]";
                        mkResponse 500 [] ""])
           "https://gitlab.com/api/v4/groups" "https://gitlab.com/api/v4/groups?page=2"
           "https://gitlab.com/api/v4/groups?page=2"
           (mkResponse 200 [("content-type", "application/json");
                            ("link", "<https://gitlab.com/api/v4/groups?page=2>; rel=" +++ dquote +++ "next" +++ dquote)] "[1]")
           (mkResponse 500 [] "") [] [JNum 1] None);
    (vm_compute; reflexivity) || discriminate.
Defined.

End ClientExtras.

(** * Rate-limit headers *)

Module RateLimitExtras.

Import Pagination.

Lemma all_by_app (p : ascii -> bool) (a b : string) :
  CPython.all_by p (a +++ b) = CPython.all_by p a && CPython.all_by p b.
Proof.
  induction a as [|c a IH]; cbn; [reflexivity|]. rewrite IH, andb_assoc. reflexivity.
Qed.

Lemma srev_app (a b : string) : CPython.srev (a +++ b) = CPython.srev b +++ CPython.srev a.
Proof.
  induction a as [|c a IH]; cbn; [rewrite str_app_nil; reflexivity|].
  rewrite IH, str_app_assoc. reflexivity.
Qed.

Lemma srev_srev (s : string) : CPython.srev (CPython.srev s) = s.
Proof.
  induction s as [|c r IH]; cbn; [reflexivity|]. rewrite srev_app, IH. reflexivity.
Qed.

Lemma all_by_srev (p : ascii -> bool) (s : string) :
  CPython.all_by p (CPython.srev s) = CPython.all_by p s.
Proof.
  induction s as [|c r IH]; cbn; [reflexivity|].
  rewrite all_by_app, IH. cbn. rewrite andb_true_r, andb_comm. reflexivity.
Qed.

Lemma digit_not_space (c : ascii) : CPython.is_digit c = true -> CPython.c0_or_space c = false.
Proof.
  unfold CPython.is_digit, CPython.c0_or_space. intros H.
  apply andb_true_iff in H as [H _]. apply Nat.leb_le in H.
  apply Nat.leb_gt. lia.
Qed.

Lemma lstrip_digits (s : string) :
  CPython.all_by CPython.is_digit s = true -> CPython.lstrip_by CPython.c0_or_space s = s.
Proof.
  destruct s as [|c r]; cbn; [reflexivity|]. intros H.
  apply andb_true_iff in H as [H _]. rewrite (digit_not_space c H). reflexivity.
Qed.

(** [str.strip()] leaves a string of digits alone. *)
Lemma strip_digits (s : string) :
  CPython.all_by CPython.is_digit s = true -> CPython.strip_by CPython.c0_or_space s = s.
Proof.
  intros H. unfold CPython.strip_by. rewrite (lstrip_digits s H).
  rewrite lstrip_digits by (rewrite all_by_srev; exact H). apply srev_srev.
Qed.

Lemma digit_char_spec (d : Z) :
  0 <= d < 10 ->
  CPython.is_digit (digit_char d) = true /\
  Z.of_nat (CPython.code (digit_char d) - 48) = d.
Proof.
  intros Hd. unfold CPython.is_digit, CPython.code, digit_char.
  rewrite nat_ascii_embedding by lia.
  split.
  - apply andb_true_iff. split; apply Nat.leb_le; lia.
  - rewrite Nat.add_comm, Nat.add_sub. apply Z2Nat.id. lia.
Qed.

(** The digits written by [pos_digits] read back, through [digits_val],
    as the number. *)
Lemma pos_digits_spec (fuel : nat) :
  forall n acc, 0 <= n < 10 ^ Z.of_nat (S fuel) ->
  exists ds, pos_digits (S fuel) n acc = ds +++ acc /\
    CPython.all_by CPython.is_digit ds = true /\ ds <> "" /\
    forall a rest, CPython.digits_val (ds +++ rest) a
                   = CPython.digits_val rest (a * 10 ^ Z.of_nat (String.length ds) + n).
Proof.
  induction fuel as [|f IH]; intros n acc Hn.
  - cbn [pos_digits].
    assert (Hlt : n < 10) by (cbn in Hn; lia). apply Z.ltb_lt in Hlt. rewrite Hlt.
    apply Z.ltb_lt in Hlt.
    destruct (digit_char_spec (n mod 10) ltac:(apply Z.mod_pos_bound; lia)) as [Hdg Hv].
    exists (String (digit_char (n mod 10)) ""). split; [reflexivity|].
    split; [cbn [CPython.all_by]; rewrite Hdg; reflexivity|]. split; [discriminate|].
    intros a rest. cbn [String.append CPython.digits_val String.length].
      rewrite Hdg, Hv, (Z.mod_small n 10) by lia. f_equal.
      change (Z.of_nat 1) with 1. rewrite Z.pow_1_r. lia.
  - change (pos_digits (S (S f)) n acc) with
      (if n <? 10 then String (digit_char (n mod 10)) acc
       else pos_digits (S f) (n / 10) (String (digit_char (n mod 10)) acc)).
    destruct (digit_char_spec (n mod 10) ltac:(apply Z.mod_pos_bound; lia)) as [Hdg Hv].
    destruct (n <? 10) eqn:Hlt.
    + exists (String (digit_char (n mod 10)) ""). split; [reflexivity|].
      split; [cbn [CPython.all_by]; rewrite Hdg; reflexivity|]. split; [discriminate|].
      apply Z.ltb_lt in Hlt.
      intros a rest. cbn [String.append CPython.digits_val String.length].
      rewrite Hdg, Hv, (Z.mod_small n 10) by lia. f_equal.
      change (Z.of_nat 1) with 1. rewrite Z.pow_1_r. lia.
    + apply Z.ltb_ge in Hlt.
      assert (Hq : 0 <= n / 10 < 10 ^ Z.of_nat (S f)).
      { split; [apply Z.div_pos; lia|]. apply Z.div_lt_upper_bound; [lia|].
        rewrite <- Z.pow_succ_r by lia. rewrite <- Nat2Z.inj_succ. lia. }
      destruct (IH (n / 10) (String (digit_char (n mod 10)) acc) Hq)
        as (ds & Hp & Hall & Hne & Hval).
      exists (ds +++ String (digit_char (n mod 10)) ""). rewrite Hp.
      split; [rewrite str_app_assoc; reflexivity|].
      split; [rewrite all_by_app, Hall; cbn [CPython.all_by]; rewrite Hdg; reflexivity|].
      split; [destruct ds; [congruence | discriminate]|].
      intros a rest. rewrite str_app_assoc. cbn [String.append]. rewrite Hval. cbn [CPython.digits_val].
      rewrite Hdg, Hv, str_length_app. cbn [String.length].
      rewrite Nat2Z.inj_add, Z.pow_add_r by lia. f_equal.
      pose proof (Z.div_mod n 10 ltac:(lia)). cbn [Z.of_nat Z.pow Z.pow_pos Pos.iter]. nia.
Qed.

Lemma z_to_dec_digits (n : Z) :
  0 <= n ->
  CPython.all_by CPython.is_digit (z_to_dec n) = true /\ z_to_dec n <> "" /\
  CPython.digits_val (z_to_dec n) 0 = (n, "").
Proof.
  intros Hn. unfold z_to_dec.
  replace (n <? 0) with false by (symmetry; apply Z.ltb_ge; lia).
  assert (Hb : 0 <= n < 10 ^ Z.of_nat (S (Z.to_nat (Z.log2 n)))).
  { split; [lia|]. rewrite Nat2Z.inj_succ, Z2Nat.id by apply Z.log2_nonneg.
    destruct (Z.eq_dec n 0) as [->|Hnz]; [reflexivity|].
    destruct (Z.log2_spec n ltac:(lia)) as [_ Hlt].
    eapply Z.lt_le_trans; [exact Hlt|]. rewrite <- Z.add_1_r.
    apply Z.pow_le_mono_l. lia. }
  destruct (pos_digits_spec _ n "" Hb) as (ds & Hp & Hall & Hne & Hval).
  rewrite Hp, str_app_nil. split; [exact Hall|]. split; [exact Hne|].
  rewrite <- (str_app_nil ds), Hval. cbn. reflexivity.
Qed.

Lemma digits_no_sign (c : ascii) (r : string) :
  CPython.all_by CPython.is_digit (String c r) = true ->
  CPython.is_c 45 c = false /\ CPython.is_c 43 c = false /\ CPython.is_c 46 c = false.
Proof.
  cbn. intros H. apply andb_true_iff in H as [H _].
  unfold CPython.is_digit in H. apply andb_true_iff in H as [H _]. apply Nat.leb_le in H.
  unfold CPython.is_c. repeat split; apply Nat.eqb_neq; lia.
Qed.

Lemma split_once_digits (s : string) :
  CPython.all_by CPython.is_digit s = true -> CPython.split_once (CPython.is_c 46) s = None.
Proof.
  induction s as [|c r IH]; intros H; [reflexivity|].
  destruct (digits_no_sign c r H) as (_ & _ & H46).
  cbn in H |- *. apply andb_true_iff in H as [_ H]. rewrite H46, (IH H). reflexivity.
Qed.

(** [int(str(n))] *)
Lemma py_int_z_to_dec (n : Z) : 0 <= n -> CPython.py_int (z_to_dec n) = Ok n.
Proof.
  intros Hn. destruct (z_to_dec_digits n Hn) as (Hall & Hne & Hval).
  unfold CPython.py_int. rewrite (strip_digits _ Hall).
  destruct (z_to_dec n) as [|c r] eqn:E; [congruence|].
  destruct (digits_no_sign c r Hall) as (H45 & H43 & _).
  cbv iota beta zeta. rewrite H45, H43. cbn [String.eqb orb negb]. rewrite Hall.
  cbn [negb]. rewrite Hval. reflexivity.
Qed.

(** [float(str(n))] *)
Lemma py_float_z_to_dec (n : Z) : 0 <= n -> CPython.py_float (z_to_dec n) = Ok (inject_Z n).
Proof.
  intros Hn. destruct (z_to_dec_digits n Hn) as (Hall & Hne & Hval).
  unfold CPython.py_float. rewrite (strip_digits _ Hall).
  destruct (z_to_dec n) as [|c r] eqn:E; [congruence|].
  destruct (digits_no_sign c r Hall) as (H45 & H43 & _).
  cbv iota beta zeta. rewrite H45, H43. cbv iota beta zeta.
  rewrite (split_once_digits _ Hall). cbv iota beta zeta.
  cbn [String.eqb andb orb]. rewrite Hall. cbn [negb orb CPython.all_by].
  rewrite str_app_nil, Hval. cbn [fst String.length Z.of_nat Z.pow].
  unfold Qdiv, Qinv, Qmult, inject_Z. cbn. rewrite Z.mul_1_r. reflexivity.
Qed.

Lemma Qle_bool_inject (a b : Z) : Qle_bool (inject_Z a) (inject_Z b) = (a <=? b).
Proof. unfold Qle_bool, inject_Z. cbn. rewrite !Z.mul_1_r. reflexivity. Qed.

(** [RateLimit.from_http] (with CPython's [int], [float] and
    [datetime.fromtimestamp]) reads back headers holding [str(limit)],
    [str(remaining)] and [str(reset)], for non-negative integers and a
    reset epoch before the year 10000, as [RateLimit(limit, remaining,
    reset)]; without the [ratelimit-reset] header it returns [None]. *)
Theorem RateLimit_from_http_roundtrip (h : headers) (l r t : Z) :
  0 <= l -> 0 <= r -> 0 <= t < 253402300800 ->
  hget "ratelimit-limit" h = Some (z_to_dec l) ->
  hget "ratelimit-remaining" h = Some (z_to_dec r) ->
  (hget "ratelimit-reset" h = Some (z_to_dec t) ->
   RateLimit_from_http CPython.lib h = Ok (Some (mkRateLimit l r (inject_Z t)))) /\
  (hget "ratelimit-reset" h = None -> RateLimit_from_http CPython.lib h = Ok None).
Proof.
  intros Hl Hr Ht Hhl Hhr. unfold RateLimit_from_http. rewrite Hhl. cbn [py_int CPython.lib].
  rewrite (py_int_z_to_dec l Hl). cbn [bind]. rewrite Hhr.
  rewrite (py_int_z_to_dec r Hr). cbn [bind].
  split; [intros Hht | intros Hht]; rewrite Hht; [|reflexivity].
  cbn [py_float utc_fromtimestamp CPython.lib].
  rewrite (py_float_z_to_dec t ltac:(lia)). cbn [bind].
  unfold CPython.utc_fromtimestamp. rewrite !Qle_bool_inject.
  replace (-62135596800 <=? t) with true by (symmetry; apply Z.leb_le; lia).
  replace (253402300800 <=? t) with false by (symmetry; apply Z.leb_gt; lia).
  reflexivity.
Qed.

Lemma RateLimit_from_http_roundtrip_witness :
  RateLimit_from_http CPython.lib
    [("ratelimit-limit", "600"); ("ratelimit-remaining", "599");
     ("ratelimit-reset", "1790000000")]
  = Ok (Some (mkRateLimit 600 599 (inject_Z 1790000000))).
Proof.
  apply (proj1 (RateLimit_from_http_roundtrip
           [("ratelimit-limit", z_to_dec 600); ("ratelimit-remaining", z_to_dec 599);
            ("ratelimit-reset", z_to_dec 1790000000)] 600 599 1790000000
           ltac:(lia) ltac:(lia) ltac:(lia) eq_refl eq_refl) eq_refl).
Defined.

End RateLimitExtras.
